(** * OpenField: the QA alerting and survey-aggregation core

    A shallow embedding of [supervision.py] and [surveys.py] (with the parts of
    [db.py], [facilities.py] and [app.py] they rest on), and the properties of
    the specification stated over it; then the listings, the templates
    ([templates.py], [template_import.py]), the exports ([exports.py],
    [qa_exports.py]), the schema ([db.py]) and the helpers and enumerator
    routes of [app.py], with properties read off the code.

    Conventions of the embedding.
    - A Python [str] is a [string], read as a sequence of code points below
      256.  [isspace] is Python's [str.isspace] on that range.  [upper] is
      [str.upper] on ASCII characters and leaves the other characters as they
      are, so the embedding is exact on ASCII text.
    - A Python [int] is a [Z]; a nullable SQL column is an [option].  An
      [int] bound to the placeholder of a statement is taken within the
      signed 64-bit range of SQLite's INTEGER, outside of which sqlite3
      raises [OverflowError] before the statement runs; [add_answer], whose
      raising calls are set apart from its inserting calls, has that raise
      written out.
    - [survey_templates] has [id INTEGER PRIMARY KEY AUTOINCREMENT] and is
      the one table written with [INSERT OR IGNORE], which takes an id also
      when it stores nothing; its store carries the sequence.  The ids of
      the other tables follow the largest stored id.
    - A table is the list of its rows in insertion order.
    - A Python [float] is an IEEE 754 binary64 number, the primitive [float]
      of Rocq; its operations are those of [PrimFloat].
    - An exception is the [Raise] case of [result]; a function that writes the
      store returns the store it leaves together with its result.
    - What the code takes from outside is a parameter where it is used:
      [int()], [float()] and [str()] on strings, the [.1f] formatting, the
      clock, the row a query without [ORDER BY] returns first, and the text
      of two SQLite errors. *)

From Stdlib Require Import ZArith List String Ascii Bool Lia.
From Stdlib Require Import Sorting.Sorted Sorting.Permutation.
From Stdlib Require Import Floats Numbers.Cyclic.Int63.Uint63.
Import ListNotations.

Open Scope string_scope.
Open Scope Z_scope.

(** ** Python values *)

Inductive result (A : Type) : Type :=
| Ok (a : A)
| Raise (msg : string).
Arguments Ok {A} a.
Arguments Raise {A} msg.

Module Py.

(** [str.isspace] on one character. *)
Definition isspace (c : ascii) : bool :=
  let n := Z.of_N (N_of_ascii c) in
  ((9 <=? n) && (n <=? 13)) || ((28 <=? n) && (n <=? 32))
  || (n =? 133) || (n =? 160).

Fixpoint lstrip (s : string) : string :=
  match s with
  | EmptyString => EmptyString
  | String c s' => if isspace c then lstrip s' else s
  end.

Fixpoint rstrip (s : string) : string :=
  match s with
  | EmptyString => EmptyString
  | String c s' =>
      match rstrip s' with
      | EmptyString => if isspace c then EmptyString else String c EmptyString
      | r => String c r
      end
  end.

(** [s.strip()] *)
Definition strip (s : string) : string := rstrip (lstrip s).

Definition upper_char (c : ascii) : ascii :=
  let n := N_of_ascii c in
  if ((97 <=? n) && (n <=? 122))%N then ascii_of_N (n - 32) else c.

(** [s.upper()] *)
Fixpoint upper (s : string) : string :=
  match s with
  | EmptyString => EmptyString
  | String c s' => String (upper_char c) (upper s')
  end.

(** [x or d] for an optional string: [None] and [""] are falsy. *)
Definition or_str (x : option string) (d : string) : string :=
  match x with
  | Some (String c s) => String c s
  | _ => d
  end.

(** [x or 0] for an optional integer. *)
Definition or_int (x : option Z) : Z :=
  match x with
  | Some z => z
  | None => 0
  end.

(** [not s] for a string. *)
Definition not_str (s : string) : bool :=
  match s with
  | EmptyString => true
  | _ => false
  end.

(** [sum(1 for a in l if p(a))] *)
Definition count {A : Type} (p : A -> bool) (l : list A) : Z :=
  Z.of_nat (List.length (filter p l)).

(** [l[:k]] *)
Definition slice_to {A : Type} (k : Z) (l : list A) : list A :=
  if 0 <=? k then firstn (Z.to_nat k) l
  else firstn (Z.to_nat (Z.of_nat (List.length l) + k)) l.

(** A string is empty or made of whitespace only. *)
Fixpoint whitespace_only (s : string) : bool :=
  match s with
  | EmptyString => true
  | String c s' => isspace c && whitespace_only s'
  end.

End Py.

(** ** The relational store ([db.py], [init_db]) *)

Record facility_row := {
  f_id : Z;
  f_name : string
}.

Record survey_row := {
  s_id : Z;
  s_facility_id : Z;
  s_template_id : option Z;
  s_survey_type : string;
  s_enumerator_name : string;
  s_status : string;
  s_created_at : string
}.

Record answer_row := {
  a_id : Z;
  a_survey_id : Z;
  a_template_question_id : option Z;
  a_question : string;
  a_answer : option string;
  a_answer_source : option string;
  a_confidence_level : option string;
  a_is_missing : Z;
  a_missing_reason : option string;
  a_created_at : string
}.

(** The three tables the core reads and writes.  The facility columns other
    than [id] and [name] are read by no function below. *)
Record store := {
  facilities : list facility_row;
  surveys : list survey_row;
  survey_answers : list answer_row
}.

(** [cur.lastrowid] after an insert into an [AUTOINCREMENT] table from which
    nothing is ever deleted: one more than the largest id in use. *)
Definition next_rowid (ids : list Z) : Z := 1 + fold_right Z.max 0 ids.

(** Values bound to the placeholders of an [INSERT]. *)
Inductive sqlval :=
| SqlNull
| SqlInt (z : Z)
| SqlText (s : string).

Definition sql_opt_text (v : option string) : sqlval :=
  match v with Some s => SqlText s | None => SqlNull end.

Definition sql_opt_int (v : option Z) : sqlval :=
  match v with Some z => SqlInt z | None => SqlNull end.

Fixpoint column (name : string) (fields : list (string * sqlval)) : option sqlval :=
  match fields with
  | [] => None
  | (n, v) :: rest => if String.eqb n name then Some v else column name rest
  end.

Definition as_text (v : option sqlval) : option string :=
  match v with Some (SqlText s) => Some s | _ => None end.

Definition as_int (v : option sqlval) : option Z :=
  match v with Some (SqlInt z) => Some z | _ => None end.

(** The stored value of a column, or the default of the column. *)
Definition text_or (v : option string) (default : string) : string :=
  match v with Some s => s | None => default end.

Definition int_or (v : option Z) (default : Z) : Z :=
  match v with Some z => z | None => default end.

(** [PRAGMA table_info(...)] on the schema [init_db] creates. *)
Definition surveys_columns : list string :=
  ["id"; "facility_id"; "template_id"; "survey_type"; "enumerator_name";
   "status"; "created_at"].

Definition survey_answers_columns : list string :=
  ["id"; "survey_id"; "template_question_id"; "question"; "answer";
   "answer_source"; "confidence_level"; "is_missing"; "missing_reason";
   "created_at"].

Definition _table_columns (table_name : string) : list string :=
  if String.eqb table_name "surveys" then surveys_columns
  else if String.eqb table_name "survey_answers" then survey_answers_columns
  else [].

(** [name in cols] *)
Definition py_in (name : string) (cols : list string) : bool :=
  existsb (String.eqb name) cols.

(** [ORDER BY key DESC] and [list.sort(key=..., reverse=True)]: a stable
    sort into descending key order that compares keys with [<] only. *)
Section Sorting.
Context {A K : Type} (lt : K -> K -> bool) (key : A -> K).

Fixpoint insert_desc (x : A) (l : list A) : list A :=
  match l with
  | [] => [x]
  | y :: l' => if lt (key x) (key y) then y :: insert_desc x l' else x :: l
  end.

Definition sort_desc (l : list A) : list A := fold_right insert_desc [] l.

(** [ORDER BY key ASC] *)
Fixpoint insert_asc (x : A) (l : list A) : list A :=
  match l with
  | [] => [x]
  | y :: l' => if lt (key y) (key x) then y :: insert_asc x l' else x :: l
  end.

Definition sort_asc (l : list A) : list A := fold_right insert_asc [] l.
End Sorting.


(** ** Survey detail assembly ([supervision.py], [get_survey_details]) *)

(** The header tuple
    [(sid, facility_id, facility_name, template_id, survey_type, enumerator,
      status, created_at)]. *)
Record header := {
  h_id : Z;
  h_facility_id : Z;
  h_facility_name : string;
  h_template_id : option Z;
  h_survey_type : string;
  h_enumerator_name : string;
  h_status : string;
  h_created_at : string
}.

(** The answer tuple, [t0] to [t7] being [a[0]] to [a[7]]:
    [(answer_id, template_question_id, question, answer, answer_source,
      confidence_level, is_missing, missing_reason)]. *)
Record answer_tuple := {
  t0_id : Z;
  t1_template_question_id : option Z;
  t2_question : string;
  t3_answer : option string;
  t4_answer_source : option string;
  t5_confidence_level : option string;
  t6_is_missing : Z;
  t7_missing_reason : option string
}.

(** The [qa] dictionary. *)
Record qa_summary := {
  total_answers : Z;
  missing_count : Z;
  low_confidence_count : Z;
  no_source_count : Z;
  no_confidence_count : Z
}.

(** [SELECT ... FROM surveys s JOIN facilities f ON f.id = s.facility_id
     WHERE s.id = ?] *)
Definition select_header (st : store) (survey_id : Z) : list header :=
  flat_map
    (fun s =>
       if s_id s =? survey_id then
         map (fun f =>
                {| h_id := s_id s;
                   h_facility_id := s_facility_id s;
                   h_facility_name := f_name f;
                   h_template_id := s_template_id s;
                   h_survey_type := s_survey_type s;
                   h_enumerator_name := s_enumerator_name s;
                   h_status := s_status s;
                   h_created_at := s_created_at s |})
             (filter (fun f => f_id f =? s_facility_id s) (facilities st))
       else [])
    (surveys st).

(** [SELECT ... FROM survey_answers WHERE survey_id = ? ORDER BY id ASC] *)
Definition select_answers (st : store) (survey_id : Z) : list answer_row :=
  sort_asc Z.ltb a_id
    (filter (fun r => a_survey_id r =? survey_id) (survey_answers st)).

Definition answer_tuple_of (r : answer_row) : answer_tuple :=
  {| t0_id := a_id r;
     t1_template_question_id := a_template_question_id r;
     t2_question := a_question r;
     t3_answer := a_answer r;
     t4_answer_source := a_answer_source r;
     t5_confidence_level := a_confidence_level r;
     t6_is_missing := Py.or_int (Some (a_is_missing r));
     t7_missing_reason := a_missing_reason r |}.

(** The five generator sums of the [qa] dictionary. *)
Definition is_missing_1 (a : answer_tuple) : bool := t6_is_missing a =? 1.

Definition is_low_confidence (a : answer_tuple) : bool :=
  String.eqb (Py.upper (Py.strip (Py.or_str (t5_confidence_level a) ""))) "LOW".

Definition has_no_source (a : answer_tuple) : bool :=
  Py.not_str (Py.strip (Py.or_str (t4_answer_source a) "")).

Definition has_no_confidence (a : answer_tuple) : bool :=
  Py.not_str (Py.strip (Py.or_str (t5_confidence_level a) "")).

Definition qa_of (answers : list answer_tuple) : qa_summary :=
  {| total_answers := Z.of_nat (List.length answers);
     missing_count := Py.count is_missing_1 answers;
     low_confidence_count := Py.count is_low_confidence answers;
     no_source_count := Py.count has_no_source answers;
     no_confidence_count := Py.count has_no_confidence answers |}.

Definition get_survey_details (st : store) (survey_id : Z)
  : result (header * list answer_tuple * qa_summary) :=
  match hd_error (select_header st survey_id) with
  | None => Raise "Survey not found."
  | Some h =>
      let answers := map answer_tuple_of (select_answers st survey_id) in
      Ok (h, answers, qa_of answers)
  end.

(** ** The aggregate query of the alert engine *)

(** The row [m] of
    [SELECT COUNT( * ) AS total, SUM(is_missing) AS missing, ...]; a [SUM]
    over no row is [NULL]. *)
Record aggregate_row := {
  m_total : option Z;
  m_missing : option Z;
  m_low_conf : option Z;
  m_no_source : option Z;
  m_no_conf : option Z
}.

Definition sql_sum (l : list Z) : option Z :=
  match l with
  | [] => None
  | _ => Some (fold_right Z.add 0 l)
  end.

(** [col = 'lit']: the binary comparison of SQLite, false on [NULL]. *)
Definition sql_text_eq (col : option string) (lit : string) : bool :=
  match col with
  | Some s => String.eqb s lit
  | None => false
  end.

(** [col IS NULL OR col = ''] *)
Definition sql_null_or_empty (col : option string) : bool :=
  match col with
  | Some s => String.eqb s ""
  | None => true
  end.

(** [CASE WHEN c THEN 1 ELSE 0 END] *)
Definition sql_case (c : bool) : Z := if c then 1 else 0.

Definition aggregate_rows (rows : list answer_row) : aggregate_row :=
  {| m_total := Some (Z.of_nat (List.length rows));
     m_missing := sql_sum (map a_is_missing rows);
     m_low_conf :=
       sql_sum (map (fun r => sql_case (sql_text_eq (a_confidence_level r) "LOW")) rows);
     m_no_source :=
       sql_sum (map (fun r => sql_case (sql_null_or_empty (a_answer_source r))) rows);
     m_no_conf :=
       sql_sum (map (fun r => sql_case (sql_null_or_empty (a_confidence_level r))) rows) |}.

(** [... FROM survey_answers WHERE survey_id = ?] *)
Definition answer_aggregate (st : store) (sid : Z) : aggregate_row :=
  aggregate_rows (filter (fun r => a_survey_id r =? sid) (survey_answers st)).

(** The counts of the aggregate query, as the five integers the alert engine
    reads from it. *)
Definition aggregate_counts (m : aggregate_row) : qa_summary :=
  {| total_answers := Py.or_int (m_total m);
     missing_count := Py.or_int (m_missing m);
     low_confidence_count := Py.or_int (m_low_conf m);
     no_source_count := Py.or_int (m_no_source m);
     no_confidence_count := Py.or_int (m_no_conf m) |}.

(** ** Float arithmetic *)

(** [float(n)], the conversion the operators [*] and [/] apply to an [int]
    operand, for [n] of absolute value below 2^63 (the integers of SQLite). *)
Definition float_of_int (n : Z) : float :=
  if n <? 0 then PrimFloat.opp (PrimFloat.of_uint63 (Uint63.of_Z (- n)))
  else PrimFloat.of_uint63 (Uint63.of_Z n).

(** [x >= y] *)
Definition float_ge (x y : float) : bool := PrimFloat.leb y x.

(** ** The alert engine ([supervision.py], [qa_alerts_dashboard]) *)

(** One element of [alerts]: the dictionary with keys [survey_id],
    [facility_id], ..., [flags], [severity]. *)
Record alert := {
  alert_survey_id : Z;
  alert_facility_id : Z;
  alert_facility_name : string;
  alert_template_id : option Z;
  alert_survey_type : string;
  alert_enumerator_name : string;
  alert_status : string;
  alert_created_at : string;
  alert_total_answers : Z;
  alert_flags : list string;
  alert_severity : float
}.

(** [(count * 100.0) / total] *)
Definition pct (count total : Z) : float :=
  (float_of_int count * 100 / float_of_int total)%float.

(** [100.0 * count / total], the percentage as the specification writes it. *)
Definition spec_pct (count total : Z) : float :=
  (100 * float_of_int count / float_of_int total)%float.

(** The four [if ..._pct >= float(threshold): flags.append(...)]. *)
Definition flags_of (missing_pct low_conf_pct no_source_pct no_conf_pct : float)
  (missing_threshold_pct low_conf_threshold_pct
   no_source_threshold_pct no_conf_threshold_pct : float) : list string :=
  let flags : list string := [] in
  let flags := if float_ge missing_pct missing_threshold_pct
               then (flags ++ ["MISSING"])%list else flags in
  let flags := if float_ge low_conf_pct low_conf_threshold_pct
               then (flags ++ ["LOW_CONF"])%list else flags in
  let flags := if float_ge no_source_pct no_source_threshold_pct
               then (flags ++ ["NO_SOURCE"])%list else flags in
  let flags := if float_ge no_conf_pct no_conf_threshold_pct
               then (flags ++ ["NO_CONF"])%list else flags in
  flags.

(** [SELECT name FROM facilities WHERE id=? LIMIT 1], then
    [frow["name"] if frow else "-"]. *)
Definition facility_name_or_dash (st : store) (facility_id : Z) : string :=
  match hd_error (filter (fun f => f_id f =? facility_id) (facilities st)) with
  | Some frow => f_name frow
  | None => "-"
  end.

(** The body of [for s in surveys]: [None] is [continue], [Some a] is
    [alerts.append(a)]. *)
Definition survey_alert (st : store)
  (missing_threshold_pct low_conf_threshold_pct
   no_source_threshold_pct no_conf_threshold_pct : float)
  (s : survey_row) : option alert :=
  let sid := s_id s in
  let m := answer_aggregate st sid in
  let total := Py.or_int (m_total m) in
  if total =? 0 then None
  else
    let missing := Py.or_int (m_missing m) in
    let low_conf := Py.or_int (m_low_conf m) in
    let no_source := Py.or_int (m_no_source m) in
    let no_conf := Py.or_int (m_no_conf m) in
    let missing_pct := pct missing total in
    let low_conf_pct := pct low_conf total in
    let no_source_pct := pct no_source total in
    let no_conf_pct := pct no_conf total in
    let flags :=
      flags_of missing_pct low_conf_pct no_source_pct no_conf_pct
        missing_threshold_pct low_conf_threshold_pct
        no_source_threshold_pct no_conf_threshold_pct in
    match flags with
    | [] => None
    | _ =>
        let facility_name := facility_name_or_dash st (s_facility_id s) in
        let severity :=
          (missing_pct + low_conf_pct + no_source_pct + no_conf_pct)%float in
        Some {| alert_survey_id := sid;
                alert_facility_id := s_facility_id s;
                alert_facility_name := facility_name;
                alert_template_id := s_template_id s;
                alert_survey_type := s_survey_type s;
                alert_enumerator_name := s_enumerator_name s;
                alert_status := s_status s;
                alert_created_at := s_created_at s;
                alert_total_answers := total;
                alert_flags := flags;
                alert_severity := severity |}
    end.

(** [status_filter = (status_filter or "COMPLETED").strip().upper()] *)
Definition normal_status (status_filter : option string) : string :=
  Py.upper (Py.strip (Py.or_str status_filter "COMPLETED")).

(** [SELECT ... FROM surveys WHERE status = ? ORDER BY id DESC] *)
Definition select_surveys (st : store) (status_filter : string) : list survey_row :=
  sort_desc Z.ltb s_id
    (filter (fun s => String.eqb (s_status s) status_filter) (surveys st)).

(** The loop: the list [alerts] before it is sorted. *)
Fixpoint scan (alert_of : survey_row -> option alert) (rows : list survey_row)
  : list alert :=
  match rows with
  | [] => []
  | s :: rest =>
      match alert_of s with
      | None => scan alert_of rest
      | Some a => a :: scan alert_of rest
      end
  end.

(** [alerts] after [alerts.sort(key=lambda x: x["severity"], reverse=True)]. *)
Definition ranked_alerts (st : store) (status_filter : option string)
  (missing_threshold_pct low_conf_threshold_pct
   no_source_threshold_pct no_conf_threshold_pct : float) : list alert :=
  let status_filter := normal_status status_filter in
  let surveys := select_surveys st status_filter in
  let alerts :=
    scan (survey_alert st missing_threshold_pct low_conf_threshold_pct
            no_source_threshold_pct no_conf_threshold_pct) surveys in
  sort_desc PrimFloat.ltb alert_severity alerts.

Definition qa_alerts_dashboard (st : store) (status_filter : option string)
  (missing_threshold_pct low_conf_threshold_pct
   no_source_threshold_pct no_conf_threshold_pct : float) (limit : Z)
  : list alert :=
  Py.slice_to limit
    (ranked_alerts st status_filter missing_threshold_pct low_conf_threshold_pct
       no_source_threshold_pct no_conf_threshold_pct).

(** The flags as a selection from the four tags in their fixed order. *)
Definition tagged_flags (missing_pct low_conf_pct no_source_pct no_conf_pct : float)
  (missing_threshold_pct low_conf_threshold_pct
   no_source_threshold_pct no_conf_threshold_pct : float) : list string :=
  map fst
    (filter (fun tag => float_ge (fst (snd tag)) (snd (snd tag)))
       [("MISSING", (missing_pct, missing_threshold_pct));
        ("LOW_CONF", (low_conf_pct, low_conf_threshold_pct));
        ("NO_SOURCE", (no_source_pct, no_source_threshold_pct));
        ("NO_CONF", (no_conf_pct, no_conf_threshold_pct))]).

(** The percentages and the severity the engine computes for a survey. *)
Definition survey_total (st : store) (sid : Z) : Z :=
  total_answers (aggregate_counts (answer_aggregate st sid)).

Definition missing_pct_of (st : store) (sid : Z) : float :=
  pct (missing_count (aggregate_counts (answer_aggregate st sid)))
    (survey_total st sid).

Definition low_conf_pct_of (st : store) (sid : Z) : float :=
  pct (low_confidence_count (aggregate_counts (answer_aggregate st sid)))
    (survey_total st sid).

Definition no_source_pct_of (st : store) (sid : Z) : float :=
  pct (no_source_count (aggregate_counts (answer_aggregate st sid)))
    (survey_total st sid).

Definition no_conf_pct_of (st : store) (sid : Z) : float :=
  pct (no_confidence_count (aggregate_counts (answer_aggregate st sid)))
    (survey_total st sid).

Definition severity_of (st : store) (sid : Z) : float :=
  (missing_pct_of st sid + low_conf_pct_of st sid + no_source_pct_of st sid
   + no_conf_pct_of st sid)%float.



(** ** Writers of the store ([surveys.py], [facilities.py], [app.py]) *)

(** The row an [INSERT INTO surveys (fields) VALUES (values)] stores: a
    column that is not listed takes its default. *)
Definition survey_row_of (id : Z) (fields : list (string * sqlval)) : survey_row :=
  {| s_id := id;
     s_facility_id := int_or (as_int (column "facility_id" fields)) 0;
     s_template_id := as_int (column "template_id" fields);
     s_survey_type := text_or (as_text (column "survey_type" fields)) "";
     s_enumerator_name := text_or (as_text (column "enumerator_name" fields)) "";
     s_status := text_or (as_text (column "status" fields)) "DRAFT";
     s_created_at := text_or (as_text (column "created_at" fields)) "" |}.

Definition insert_survey (fields : list (string * sqlval)) (st : store) : store * Z :=
  let id := next_rowid (map s_id (surveys st)) in
  ({| facilities := facilities st;
      surveys := surveys st ++ [survey_row_of id fields];
      survey_answers := survey_answers st |}, id).

Definition create_survey (now : string) (facility_id : Z)
  (survey_type enumerator_name : string) (template_id : option Z) (st : store)
  : store * Z :=
  let cols := _table_columns "surveys" in
  if negb (py_in "template_id" cols) then
    insert_survey
      [("facility_id", SqlInt facility_id); ("survey_type", SqlText survey_type);
       ("enumerator_name", SqlText enumerator_name); ("status", SqlText "DRAFT");
       ("created_at", SqlText now)] st
  else
    insert_survey
      [("facility_id", SqlInt facility_id); ("template_id", sql_opt_int template_id);
       ("survey_type", SqlText survey_type);
       ("enumerator_name", SqlText enumerator_name); ("status", SqlText "DRAFT");
       ("created_at", SqlText now)] st.

(** The row an [INSERT INTO survey_answers (fields) VALUES (values)] stores. *)
Definition answer_row_of (id : Z) (fields : list (string * sqlval)) : answer_row :=
  {| a_id := id;
     a_survey_id := int_or (as_int (column "survey_id" fields)) 0;
     a_template_question_id := as_int (column "template_question_id" fields);
     a_question := text_or (as_text (column "question" fields)) "";
     a_answer := as_text (column "answer" fields);
     a_answer_source := as_text (column "answer_source" fields);
     a_confidence_level := as_text (column "confidence_level" fields);
     a_is_missing := int_or (as_int (column "is_missing" fields)) 0;
     a_missing_reason := as_text (column "missing_reason" fields);
     a_created_at := text_or (as_text (column "created_at" fields)) "" |}.

Definition insert_answer (fields : list (string * sqlval)) (st : store) : store * Z :=
  let id := next_rowid (map a_id (survey_answers st)) in
  ({| facilities := facilities st;
      surveys := surveys st;
      survey_answers := survey_answers st ++ [answer_row_of id fields] |}, id).

(** An [int] fits SQLite's INTEGER when it is a signed 64-bit number. *)
Definition sqlite_int (z : Z) : bool := (- 2 ^ 63 <=? z) && (z <? 2 ^ 63).

(** [cur.execute(sql, values)] binds the values before the statement runs,
    and sqlite3 raises [OverflowError] for an [int] outside the 64-bit
    range; then nothing is written. *)
Definition bindable (v : sqlval) : bool :=
  match v with
  | SqlInt z => sqlite_int z
  | _ => true
  end.

Definition overflow_message : string :=
  "Python int too large to convert to SQLite INTEGER".

(** [fields.append(name); values.append(v)] under [if name in cols]. *)
Definition append_if_column (cols : list string) (name : string) (v : sqlval)
  (fields : list (string * sqlval)) : list (string * sqlval) :=
  if py_in name cols then (fields ++ [(name, v)])%list else fields.

Definition add_answer (now : string) (survey_id : Z) (question answer : option string)
  (template_question_id : option Z) (answer_source confidence_level : option string)
  (is_missing : Z) (missing_reason : option string) (st : store)
  : store * result Z :=
  let q := Py.strip (Py.or_str question "") in
  let a := Py.strip (Py.or_str answer "") in
  if Py.not_str q then (st, Raise "question is required")
  else if String.eqb a "" && (is_missing =? 0)
  then (st, Raise "answer is required unless is_missing=1")
  else
    let cols := _table_columns "survey_answers" in
    let fields :=
      [("survey_id", SqlInt survey_id); ("question", SqlText q);
       ("answer", SqlText a); ("created_at", SqlText now)] in
    let fields :=
      append_if_column cols "template_question_id" (sql_opt_int template_question_id) fields in
    let fields := append_if_column cols "answer_source" (sql_opt_text answer_source) fields in
    let fields :=
      append_if_column cols "confidence_level" (sql_opt_text confidence_level) fields in
    let fields := append_if_column cols "is_missing" (SqlInt is_missing) fields in
    let fields := append_if_column cols "missing_reason" (sql_opt_text missing_reason) fields in
    if negb (forallb (fun f => bindable (snd f)) fields)
    then (st, Raise overflow_message)
    else
      let (st', id) := insert_answer fields st in
      (st', Ok id).

(** The integers [add_answer] binds all fit SQLite's INTEGER: the survey id,
    the template question id when there is one, and [is_missing]. *)
Definition answer_ints_fit (survey_id : Z) (template_question_id : option Z)
  (is_missing : Z) : bool :=
  sqlite_int survey_id
  && match template_question_id with
     | Some z => sqlite_int z
     | None => true
     end
  && sqlite_int is_missing.

(** [UPDATE surveys SET status='COMPLETED' WHERE id = ?] *)
Definition complete_survey (survey_id : Z) (st : store) : store :=
  {| facilities := facilities st;
     surveys :=
       map (fun s =>
              if s_id s =? survey_id then
                {| s_id := s_id s;
                   s_facility_id := s_facility_id s;
                   s_template_id := s_template_id s;
                   s_survey_type := s_survey_type s;
                   s_enumerator_name := s_enumerator_name s;
                   s_status := "COMPLETED";
                   s_created_at := s_created_at s |}
              else s)
           (surveys st);
     survey_answers := survey_answers st |}.

(** [facilities.py], [add_facility]. *)
Definition add_facility (name : option string) (st : store) : store * result Z :=
  let name := Py.strip (Py.or_str name "") in
  if Py.not_str name then (st, Raise "Facility name cannot be empty.")
  else
    let id := next_rowid (map f_id (facilities st)) in
    ({| facilities := facilities st ++ [{| f_id := id; f_name := name |}];
        surveys := surveys st;
        survey_answers := survey_answers st |}, Ok id).

(** [app.py], [_upsert_template_answer]. *)
Definition _upsert_template_answer (now : string) (survey_id template_question_id : Z)
  (question_text : string) (answer : string) (source confidence : option string)
  (is_missing : Z) (missing_reason : option string) (st : store)
  : store * result unit :=
  let row :=
    hd_error
      (filter (fun r => (a_survey_id r =? survey_id)
                        && match a_template_question_id r with
                           | Some t => t =? template_question_id
                           | None => false
                           end)
              (survey_answers st)) in
  match row with
  | Some r0 =>
      let aid := a_id r0 in
      ({| facilities := facilities st;
          surveys := surveys st;
          survey_answers :=
            map (fun r =>
                   if a_id r =? aid then
                     {| a_id := a_id r;
                        a_survey_id := a_survey_id r;
                        a_template_question_id := a_template_question_id r;
                        a_question := question_text;
                        a_answer := Some answer;
                        a_answer_source := source;
                        a_confidence_level := confidence;
                        a_is_missing := is_missing;
                        a_missing_reason := missing_reason;
                        a_created_at := a_created_at r |}
                   else r)
                (survey_answers st) |}, Ok tt)
  | None =>
      match add_answer now survey_id (Some question_text) (Some answer)
              (Some template_question_id) source confidence is_missing
              missing_reason st with
      | (st', Ok _) => (st', Ok tt)
      | (st', Raise msg) => (st', Raise msg)
      end
  end.

(** The calls that write the store. *)
Inductive op :=
| Add_facility (name : option string)
| Create_survey (now : string) (facility_id : Z) (survey_type enumerator_name : string)
    (template_id : option Z)
| Add_answer (now : string) (survey_id : Z) (question answer : option string)
    (template_question_id : option Z) (answer_source confidence_level : option string)
    (is_missing : Z) (missing_reason : option string)
| Upsert_template_answer (now : string) (survey_id template_question_id : Z)
    (question_text answer : string) (source confidence : option string)
    (is_missing : Z) (missing_reason : option string)
| Complete_survey (survey_id : Z).

(** The store a call leaves, whether it returns or raises. *)
Definition step (o : op) (st : store) : store :=
  match o with
  | Add_facility name => fst (add_facility name st)
  | Create_survey now fid ty en tid => fst (create_survey now fid ty en tid st)
  | Add_answer now sid q a tq src conf im mr =>
      fst (add_answer now sid q a tq src conf im mr st)
  | Upsert_template_answer now sid tq q a src conf im mr =>
      fst (_upsert_template_answer now sid tq q a src conf im mr st)
  | Complete_survey sid => complete_survey sid st
  end.

Definition run (ops : list op) (st : store) : store :=
  fold_left (fun s o => step o s) ops st.

(** The row [add_answer] inserts when it does not raise. *)
Definition added_answer (now : string) (survey_id : Z) (question answer : option string)
  (template_question_id : option Z) (answer_source confidence_level : option string)
  (is_missing : Z) (missing_reason : option string) (st : store) : answer_row :=
  {| a_id := next_rowid (map a_id (survey_answers st));
     a_survey_id := survey_id;
     a_template_question_id := template_question_id;
     a_question := Py.strip (Py.or_str question "");
     a_answer := Some (Py.strip (Py.or_str answer ""));
     a_answer_source := answer_source;
     a_confidence_level := confidence_level;
     a_is_missing := is_missing;
     a_missing_reason := missing_reason;
     a_created_at := now |}.

(** Survey [sid] is stored, and completed. *)
Definition completed_in (sid : Z) (st : store) : Prop :=
  In sid (map s_id (surveys st))
  /\ forall r, In r (surveys st) -> s_id r = sid -> s_status r = "COMPLETED".

(** ** The quality summary in the words of the specification *)

(** Section 4.1 as it is written: [is_missing == true], [confidence_level ==
    "LOW"] compared case-insensitively, [answer_source] absent or empty,
    [confidence_level] absent or empty.  [is_missing] is a boolean stored as
    0 or 1. *)
Definition spec_is_missing (a : answer_tuple) : bool := t6_is_missing a =? 1.

Definition spec_is_low (a : answer_tuple) : bool :=
  match t5_confidence_level a with
  | Some s => String.eqb (Py.upper s) (Py.upper "LOW")
  | None => false
  end.

Definition absent_or_empty (v : option string) : bool :=
  match v with
  | Some s => String.eqb s ""
  | None => true
  end.

Definition spec_summary (answers : list answer_tuple) : qa_summary :=
  {| total_answers := Z.of_nat (List.length answers);
     missing_count := Py.count spec_is_missing answers;
     low_confidence_count := Py.count spec_is_low answers;
     no_source_count := Py.count (fun a => absent_or_empty (t4_answer_source a)) answers;
     no_confidence_count :=
       Py.count (fun a => absent_or_empty (t5_confidence_level a)) answers |}.

(** The same with surrounding whitespace ignored: a value that is absent,
    empty or whitespace-only counts as absent, and the comparison with
    ["LOW"] is made on the stripped value. *)
Definition absent_or_blank (v : option string) : bool :=
  match v with
  | Some s => Py.whitespace_only s
  | None => true
  end.

Definition stripped_is_low (a : answer_tuple) : bool :=
  match t5_confidence_level a with
  | Some s => String.eqb (Py.upper (Py.strip s)) (Py.upper "LOW")
  | None => false
  end.

Definition stripped_summary (answers : list answer_tuple) : qa_summary :=
  {| total_answers := Z.of_nat (List.length answers);
     missing_count := Py.count spec_is_missing answers;
     low_confidence_count := Py.count stripped_is_low answers;
     no_source_count := Py.count (fun a => absent_or_blank (t4_answer_source a)) answers;
     no_confidence_count :=
       Py.count (fun a => absent_or_blank (t5_confidence_level a)) answers |}.

(** A stored value that [strip] and [upper] leave as it is. *)
Definition normal_text (v : option string) : Prop :=
  match v with
  | Some s => Py.strip s = s /\ Py.upper s = s
  | None => True
  end.

Definition normal_row (r : answer_row) : Prop :=
  (a_is_missing r = 0 \/ a_is_missing r = 1)
  /\ normal_text (a_answer_source r)
  /\ normal_text (a_confidence_level r).

(** ** The enumerator performance aggregator *)

(** Modelled from the spec: the record type of the missing
    [enumerator_performance_dashboard]; one output record per enumerator. *)
Record enumerator_record := {
  enum_enumerator_name : string;
  enum_total_answers : Z;
  enum_flags : list string;
  enum_severity : float
}.

(** Modelled from the spec: the grouping keys of the missing
    [enumerator_performance_dashboard], which are the distinct values of a
    list, in order of first occurrence. *)
Fixpoint distinct (l : list string) : list string :=
  match l with
  | [] => []
  | x :: rest => x :: filter (fun y => negb (String.eqb x y)) (distinct rest)
  end.

(** Modelled from the spec: [enumerator_performance_dashboard] is imported by
    [menu.py] from [supervision.py], which does not define it.  Section 4.3:
    the surveys matching the status filter are grouped by [enumerator_name]. *)
Definition enumerator_surveys (st : store) (status_filter : string) (name : string)
  : list survey_row :=
  filter (fun s => String.eqb (s_enumerator_name s) name)
    (select_surveys st status_filter).

(** Modelled from the spec: the function [enumerator_performance_dashboard]
    is missing; this is the union of all answers across all of one
    enumerator's surveys that match the status filter. *)
Definition enumerator_answers (st : store) (status_filter : string) (name : string)
  : list answer_row :=
  filter (fun r =>
            existsb (fun s => s_id s =? a_survey_id r)
              (enumerator_surveys st status_filter name))
    (survey_answers st).

(** Modelled from the spec: the function [enumerator_performance_dashboard]
    is missing.  The counts of one enumerator are those of the Quality
    Summary Calculator (section 4.1) over the union of the answers, the
    aggregate being computed from the full row list (section 6); the
    percentages are [100.0 * count / total], the flags the tags whose
    percentage is greater than or equal to its threshold, the severity the
    sum of the four percentages, with the two skip rules of section 4.2
    (zero total, zero flags). *)
Definition enumerator_alert (st : store) (status_filter : string)
  (missing_threshold_pct low_conf_threshold_pct
   no_source_threshold_pct no_conf_threshold_pct : float)
  (name : string) : option enumerator_record :=
  let counts :=
    spec_summary (map answer_tuple_of (enumerator_answers st status_filter name)) in
  let total := total_answers counts in
  if total =? 0 then None
  else
    let missing_pct := spec_pct (missing_count counts) total in
    let low_conf_pct := spec_pct (low_confidence_count counts) total in
    let no_source_pct := spec_pct (no_source_count counts) total in
    let no_conf_pct := spec_pct (no_confidence_count counts) total in
    let flags :=
      tagged_flags missing_pct low_conf_pct no_source_pct no_conf_pct
        missing_threshold_pct low_conf_threshold_pct
        no_source_threshold_pct no_conf_threshold_pct in
    match flags with
    | [] => None
    | _ =>
        Some {| enum_enumerator_name := name;
                enum_total_answers := total;
                enum_flags := flags;
                enum_severity :=
                  (missing_pct + low_conf_pct + no_source_pct + no_conf_pct)%float |}
    end.

(** Modelled from the spec: the loop of the missing
    [enumerator_performance_dashboard] over the enumerators, with the two
    skips of section 4.2. *)
Fixpoint scan_names (record_of : string -> option enumerator_record)
  (names : list string) : list enumerator_record :=
  match names with
  | [] => []
  | n :: rest =>
      match record_of n with
      | None => scan_names record_of rest
      | Some r => r :: scan_names record_of rest
      end
  end.

(** Modelled from the spec: the function [enumerator_performance_dashboard]
    is missing; one record per enumerator, sorted by severity descending.
    The status filter is the same as in section 4.2, normalised as
    [qa_alerts_dashboard] normalises it. *)
Definition ranked_enumerators (st : store) (status_filter : option string)
  (missing_threshold_pct low_conf_threshold_pct
   no_source_threshold_pct no_conf_threshold_pct : float)
  : list enumerator_record :=
  let status_filter := normal_status status_filter in
  let names := distinct (map s_enumerator_name (select_surveys st status_filter)) in
  sort_desc PrimFloat.ltb enum_severity
    (scan_names
       (enumerator_alert st status_filter missing_threshold_pct
          low_conf_threshold_pct no_source_threshold_pct no_conf_threshold_pct)
       names).

(** Modelled from the spec: the function [enumerator_performance_dashboard]
    is missing; [computeEnumeratorPerformance(statusFilter, thresholds x 4,
    limit)], truncated to the first [limit] records as in section 4.2. *)
Definition enumerator_performance_dashboard (st : store)
  (status_filter : option string)
  (missing_threshold_pct low_conf_threshold_pct
   no_source_threshold_pct no_conf_threshold_pct : float) (limit : Z)
  : list enumerator_record :=
  Py.slice_to limit
    (ranked_enumerators st status_filter missing_threshold_pct
       low_conf_threshold_pct no_source_threshold_pct no_conf_threshold_pct).

(** ** Sample stores *)

Definition sample_answer (id sid : Z) (source confidence : option string)
  (is_missing : Z) : answer_row :=
  {| a_id := id;
     a_survey_id := sid;
     a_template_question_id := None;
     a_question := "Water source?";
     a_answer := Some "Borehole";
     a_answer_source := source;
     a_confidence_level := confidence;
     a_is_missing := is_missing;
     a_missing_reason := None;
     a_created_at := "2024-05-01T10:00:00" |}.

Definition sample_survey (id fid : Z) (enumerator status : string) : survey_row :=
  {| s_id := id;
     s_facility_id := fid;
     s_template_id := None;
     s_survey_type := "Manual Survey";
     s_enumerator_name := enumerator;
     s_status := status;
     s_created_at := "2024-05-01T09:00:00" |}.

(** Survey 1: two answers, one of them missing.  Survey 2: one answer of low
    confidence.  Survey 3 is a draft.  Survey 4 has no answer. *)
Definition ranking_store : store :=
  {| facilities := [{| f_id := 1; f_name := "Clinic A" |}];
     surveys :=
       [sample_survey 1 1 "ada" "COMPLETED"; sample_survey 2 1 "bob" "COMPLETED";
        sample_survey 3 1 "ada" "DRAFT"; sample_survey 4 1 "cy" "COMPLETED"];
     survey_answers :=
       [sample_answer 1 1 (Some "RECORD") (Some "HIGH") 1;
        sample_answer 2 1 (Some "RECORD") (Some "HIGH") 0;
        sample_answer 3 2 (Some "RECORD") (Some "LOW") 0;
        sample_answer 4 3 None None 1] |}.

(** One completed survey whose only answer was stored with the confidence
    level written in lower case, as
    [add_answer(1, "Water source?", "Borehole", confidence_level="low",
                answer_source="RECORD")] stores it. *)
Definition lowercase_store : store :=
  {| facilities := [{| f_id := 1; f_name := "Clinic A" |}];
     surveys := [sample_survey 1 1 "ada" "COMPLETED"];
     survey_answers := [sample_answer 1 1 (Some "RECORD") (Some "low") 0] |}.

(** One survey created with [create_survey(7, "Manual Survey", "ada")] while
    no facility has id 7. *)
Definition dangling_store : store :=
  {| facilities := [];
     surveys := [sample_survey 1 7 "ada" "DRAFT"];
     survey_answers := [] |}.

(** The example scenarios of the specification.  Survey 1 has ten answers,
    three of them missing and one with an empty source; survey 2 has five
    answers with source and confidence set; survey 3 is a draft with flawed
    answers; survey 4 has no answer. *)
Definition scenario_store : store :=
  {| facilities := [{| f_id := 1; f_name := "Clinic A" |}];
     surveys :=
       [sample_survey 1 1 "ada" "COMPLETED"; sample_survey 2 1 "bob" "COMPLETED";
        sample_survey 3 1 "cy" "DRAFT"; sample_survey 4 1 "dee" "COMPLETED"];
     survey_answers :=
       [sample_answer 1 1 (Some "RECORD") (Some "HIGH") 1;
        sample_answer 2 1 (Some "RECORD") (Some "HIGH") 1;
        sample_answer 3 1 (Some "RECORD") (Some "HIGH") 1;
        sample_answer 4 1 (Some "") (Some "HIGH") 0;
        sample_answer 5 1 (Some "RECORD") (Some "HIGH") 0;
        sample_answer 6 1 (Some "RECORD") (Some "MEDIUM") 0;
        sample_answer 7 1 (Some "INTERVIEW") (Some "HIGH") 0;
        sample_answer 8 1 (Some "INTERVIEW") (Some "HIGH") 0;
        sample_answer 9 1 (Some "OBSERVATION") (Some "HIGH") 0;
        sample_answer 10 1 (Some "ESTIMATE") (Some "MEDIUM") 0;
        sample_answer 11 2 (Some "RECORD") (Some "HIGH") 0;
        sample_answer 12 2 (Some "RECORD") (Some "HIGH") 0;
        sample_answer 13 2 (Some "RECORD") (Some "MEDIUM") 0;
        sample_answer 14 2 (Some "INTERVIEW") (Some "HIGH") 0;
        sample_answer 15 2 (Some "INTERVIEW") (Some "HIGH") 0;
        sample_answer 16 3 None None 1;
        sample_answer 17 3 None (Some "LOW") 0] |}.

(** The one alert of [scenario_store] under the default thresholds. *)
Definition scenario_alert_1 : alert :=
  {| alert_survey_id := 1;
     alert_facility_id := 1;
     alert_facility_name := "Clinic A";
     alert_template_id := None;
     alert_survey_type := "Manual Survey";
     alert_enumerator_name := "ada";
     alert_status := "COMPLETED";
     alert_created_at := "2024-05-01T09:00:00";
     alert_total_answers := 10;
     alert_flags := ["MISSING"; "NO_SOURCE"];
     alert_severity := (40%float : float) |}.

(** Two completed surveys with one missing answer each: equal severities. *)
Definition tie_store : store :=
  {| facilities := [{| f_id := 1; f_name := "Clinic A" |}];
     surveys :=
       [sample_survey 1 1 "ada" "COMPLETED"; sample_survey 2 1 "bob" "COMPLETED"];
     survey_answers :=
       [sample_answer 1 1 (Some "RECORD") (Some "HIGH") 1;
        sample_answer 2 2 (Some "RECORD") (Some "HIGH") 1] |}.

(** An answer whose source is one blank. *)
Definition blank_source_answer : answer_tuple :=
  {| t0_id := 1;
     t1_template_question_id := None;
     t2_question := "Water source?";
     t3_answer := Some "Borehole";
     t4_answer_source := Some " ";
     t5_confidence_level := Some "HIGH";
     t6_is_missing := 0;
     t7_missing_reason := None |}.

(** The alert of survey 1 of [ranking_store] under the default thresholds,
    in binary64. *)
Definition ranking_alert_1 : alert :=
  {| alert_survey_id := 1;
     alert_facility_id := 1;
     alert_facility_name := "Clinic A";
     alert_template_id := None;
     alert_survey_type := "Manual Survey";
     alert_enumerator_name := "ada";
     alert_status := "COMPLETED";
     alert_created_at := "2024-05-01T09:00:00";
     alert_total_answers := 2;
     alert_flags := ["MISSING"];
     alert_severity := (50%float : float) |}.

(** * Further functions of the repository *)

(** ** Listings ([supervision.py], [surveys.py], [app.py]) *)

(** [x.lower()] on ASCII characters, and the [LOWER] of SQLite. *)
Definition lower_char (c : ascii) : ascii :=
  let n := N_of_ascii c in
  if ((65 <=? n) && (n <=? 90))%N then ascii_of_N (n + 32) else c.

Fixpoint lower (s : string) : string :=
  match s with
  | EmptyString => EmptyString
  | String c s' => String (lower_char c) (lower s')
  end.

(** [if x:] for an optional string, and for an optional integer. *)
Definition truthy_str (x : option string) : bool :=
  match x with
  | Some (String _ _) => true
  | _ => false
  end.

Definition truthy_int (x : option Z) : bool :=
  match x with
  | Some z => negb (z =? 0)
  | None => false
  end.

(** [LIMIT ?]: a negative limit is no limit. *)
Definition sql_limit {A : Type} (k : Z) (l : list A) : list A :=
  if k <? 0 then l else firstn (Z.to_nat k) l.

(** The [LIKE] of SQLite: [%] stands for any run of characters, [_] for any
    one character, and any other character for itself in either ASCII
    case. *)
Definition like_char (c d : ascii) : bool :=
  Ascii.eqb (lower_char c) (lower_char d).

Fixpoint sql_like (pattern s : string) : bool :=
  match pattern with
  | EmptyString => match s with EmptyString => true | _ => false end
  | String c pattern' =>
      if Ascii.eqb c "%" then
        (fix star (s : string) : bool :=
           sql_like pattern' s
           || match s with
              | EmptyString => false
              | String _ s' => star s'
              end) s
      else
        match s with
        | EmptyString => false
        | String d s' =>
            (Ascii.eqb c "_" || like_char c d) && sql_like pattern' s'
        end
  end.

(** [FROM surveys s JOIN facilities f ON f.id = s.facility_id], restricted by
    a [WHERE] clause on the survey. *)
Definition surveys_with_facility (st : store) (where_ : survey_row -> bool)
  : list (survey_row * facility_row) :=
  flat_map
    (fun s =>
       if where_ s then
         map (fun f => (s, f))
           (filter (fun f => f_id f =? s_facility_id s) (facilities st))
       else [])
    (surveys st).

(** The tuple
    [(survey_id, facility_name, template_id, survey_type, enumerator_name,
      status, created_at)]. *)
Record survey_listing := {
  l_survey_id : Z;
  l_facility_name : string;
  l_template_id : option Z;
  l_survey_type : string;
  l_enumerator_name : string;
  l_status : string;
  l_created_at : string
}.

Definition listing_of (sf : survey_row * facility_row) : survey_listing :=
  {| l_survey_id := s_id (fst sf);
     l_facility_name := f_name (snd sf);
     l_template_id := s_template_id (fst sf);
     l_survey_type := s_survey_type (fst sf);
     l_enumerator_name := s_enumerator_name (fst sf);
     l_status := s_status (fst sf);
     l_created_at := s_created_at (fst sf) |}.

(** The three optional conditions of [filter_surveys], joined by [AND]. *)
Definition status_condition (status : option string) (s : survey_row) : bool :=
  if truthy_str status
  then String.eqb (s_status s) (Py.upper (Py.strip (Py.or_str status "")))
  else true.

Definition template_condition (template_id : option Z) (s : survey_row) : bool :=
  if truthy_int template_id
  then match s_template_id s with
       | Some t => t =? Py.or_int template_id
       | None => false
       end
  else true.

Definition enumerator_condition (enumerator : option string) (s : survey_row) : bool :=
  if truthy_str enumerator
  then sql_like ("%" ++ Py.strip (Py.or_str enumerator "") ++ "%")
         (s_enumerator_name s)
  else true.

(** [supervision.py], [filter_surveys]. *)
Definition filter_surveys (status : option string) (template_id : option Z)
  (enumerator : option string) (limit : Z) (st : store) : list survey_listing :=
  let where_ s :=
    status_condition status s && template_condition template_id s
    && enumerator_condition enumerator s in
  map listing_of
    (sql_limit limit
       (sort_desc Z.ltb (fun sf => s_id (fst sf)) (surveys_with_facility st where_))).

(** [surveys.py], [list_surveys], on the schema of [init_db]. *)
Definition list_surveys (limit : Z) (st : store) : list survey_listing :=
  let cols := _table_columns "surveys" in
  if py_in "template_id" cols then
    map listing_of
      (sql_limit limit
         (sort_desc Z.ltb (fun sf => s_id (fst sf))
            (surveys_with_facility st (fun _ => true))))
  else
    map (fun sf =>
           {| l_survey_id := s_id (fst sf);
              l_facility_name := f_name (snd sf);
              l_template_id := None;
              l_survey_type := s_survey_type (fst sf);
              l_enumerator_name := s_enumerator_name (fst sf);
              l_status := s_status (fst sf);
              l_created_at := s_created_at (fst sf) |})
      (sql_limit limit
         (sort_desc Z.ltb (fun sf => s_id (fst sf))
            (surveys_with_facility st (fun _ => true)))).

(** The tuple [(id, facility_name, template_id, survey_type, created_at)] of
    [_drafts_for_enum]. *)
Record draft_listing := {
  d_id : Z;
  d_facility_name : string;
  d_template_id : option Z;
  d_survey_type : string;
  d_created_at : string
}.

(** The tuple built from a joined row. *)
Definition draft_of (sf : survey_row * facility_row) : draft_listing :=
  {| d_id := s_id (fst sf);
     d_facility_name := f_name (snd sf);
     d_template_id := s_template_id (fst sf);
     d_survey_type := s_survey_type (fst sf);
     d_created_at := s_created_at (fst sf) |}.

(** [app.py], [_drafts_for_enum]. *)
Definition _drafts_for_enum (enumerator_name : option string) (limit : Z) (st : store)
  : list draft_listing :=
  let enum := Py.strip (Py.or_str enumerator_name "") in
  if Py.not_str enum then []
  else
    map (fun sf =>
           {| d_id := s_id (fst sf);
              d_facility_name := f_name (snd sf);
              d_template_id := s_template_id (fst sf);
              d_survey_type := s_survey_type (fst sf);
              d_created_at := s_created_at (fst sf) |})
      (sql_limit limit
         (sort_desc Z.ltb (fun sf => s_id (fst sf))
            (surveys_with_facility st
               (fun s => String.eqb (s_status s) "DRAFT"
                         && String.eqb (s_enumerator_name s) enum)))).


(** A query that holds neither [%] nor [_]. *)
Fixpoint wildcard_free (q : string) : bool :=
  match q with
  | EmptyString => true
  | String c q' => negb (Ascii.eqb c "%") && negb (Ascii.eqb c "_") && wildcard_free q'
  end.

(** Two strings equal up to the case of their ASCII letters. *)
Fixpoint same_ignoring_case (a b : string) : bool :=
  match a, b with
  | EmptyString, EmptyString => true
  | String c a', String d b' => like_char c d && same_ignoring_case a' b'
  | _, _ => false
  end.


(** ** Facilities ([app.py]) *)

(** What [fetchone()] returns from the rows a query without [ORDER BY]
    matches: one of them, [None] when there is none.  SQLite fixes no
    order for such a query. *)
Definition picks_a_row {A : Type} (first_match : list A -> option A) : Prop :=
  forall rows,
    match first_match rows with
    | Some r => In r rows
    | None => rows = []
    end.

Section FacilityByName.
(** The row [fetchone()] returns of the facilities that match. *)
Variable first_match : list facility_row -> option facility_row.

(** [app.py], [_get_or_create_facility_by_name]: a facility whose name is
    the given one up to ASCII case ([LOWER(name)=LOWER(?)]), created when
    there is none. *)
Definition _get_or_create_facility_by_name (name : option string) (st : store)
  : store * result Z :=
  let n := Py.strip (Py.or_str name "") in
  if Py.not_str n then (st, Raise "Facility name is required.")
  else
    match first_match
            (filter (fun f => String.eqb (lower (f_name f)) (lower n))
               (facilities st)) with
    | Some row => (st, Ok (f_id row))
    | None => add_facility (Some n) st
    end.
End FacilityByName.


(** ** The guided survey flow ([app.py]) *)

Section Validation.
(** [float(v)]: the number read, or the [ValueError] raised. *)
Variable float_of_str : string -> result float.

(** [app.py], [_validate_by_type]. *)
Definition _validate_by_type (qtype raw : option string) : result string :=
  let qt := Py.upper (Py.strip (Py.or_str qtype "")) in
  let v := Py.strip (Py.or_str raw "") in
  if String.eqb qt "YESNO" then
    let vlow := lower v in
    if py_in vlow ["yes"; "y"; "true"; "1"] then Ok "YES"
    else if py_in vlow ["no"; "n"; "false"; "0"] then Ok "NO"
    else Raise "Please choose YES or NO."
  else if String.eqb qt "NUMBER" then
    match float_of_str v with
    | Ok _ => Ok v
    | Raise msg => Raise msg
    end
  else if Py.not_str v then Raise "Response is required."
  else Ok v.
End Validation.

(** A Python [dict] with integer keys: its items in insertion order, one per
    key. *)
Definition dict (V : Type) : Type := list (Z * V).

(** [m[k] = v] *)
Fixpoint dict_set {V : Type} (k : Z) (v : V) (m : dict V) : dict V :=
  match m with
  | [] => [(k, v)]
  | (k', v') :: m' =>
      if k' =? k then (k, v) :: m' else (k', v') :: dict_set k v m'
  end.

(** [m.get(k)] *)
Fixpoint dict_get {V : Type} (k : Z) (m : dict V) : option V :=
  match m with
  | [] => None
  | (k', v) :: m' => if k' =? k then Some v else dict_get k m'
  end.

(** [k in m] *)
Definition dict_in {V : Type} (k : Z) (m : dict V) : bool :=
  match dict_get k m with
  | Some _ => true
  | None => false
  end.

(** The value [_template_answer_map] keeps for a template question. *)
Record answer_entry := {
  e_answer_id : Z;
  e_answer : option string;
  e_source : option string;
  e_confidence : option string;
  e_is_missing : Z;
  e_missing_reason : option string
}.

Definition answer_entry_of (r : answer_row) : answer_entry :=
  {| e_answer_id := a_id r;
     e_answer := a_answer r;
     e_source := a_answer_source r;
     e_confidence := a_confidence_level r;
     e_is_missing := Py.or_int (Some (a_is_missing r));
     e_missing_reason := a_missing_reason r |}.

(** [app.py], [_template_answer_map]: the rows of the survey that carry a
    template question, read in insertion order, a later row replacing the
    entry of an earlier one. *)
Definition _template_answer_map (survey_id : Z) (st : store) : dict answer_entry :=
  fold_left
    (fun m r =>
       match a_template_question_id r with
       | Some tqid => dict_set tqid (answer_entry_of r) m
       | None => m
       end)
    (filter (fun r => (a_survey_id r =? survey_id)
                      && match a_template_question_id r with
                         | Some _ => true
                         | None => false
                         end)
       (survey_answers st))
    [].

(** The tuple [(id, question_text, question_type, order_no, is_required)] of
    a template question. *)
Record template_question := {
  q_id : Z;
  q_text : string;
  q_type : string;
  q_order_no : Z;
  q_is_required : Z
}.

(** [for i, x in enumerate(l): if p(x): return i] *)
Fixpoint first_index {A : Type} (p : A -> bool) (l : list A) : option Z :=
  match l with
  | [] => None
  | x :: l' =>
      if p x then Some 0
      else match first_index p l' with
           | Some i => Some (i + 1)
           | None => None
           end
  end.

(** [app.py], [_find_next_unanswered_index]. *)
Definition _find_next_unanswered_index {V : Type}
  (template_questions : list template_question) (answered_map : dict V) : Z :=
  match first_index
          (fun q => (q_is_required q =? 1) && negb (dict_in (q_id q) answered_map))
          template_questions with
  | Some i => i
  | None =>
      match first_index (fun q => negb (dict_in (q_id q) answered_map))
              template_questions with
      | Some i => i
      | None => 0
      end
  end.

(** The row carries template question [k]. *)
Definition for_question (k : Z) (r : answer_row) : bool :=
  match a_template_question_id r with
  | Some t => t =? k
  | None => false
  end.

(** The rows [_upsert_template_answer] looks for. *)
Definition answers_of_question (survey_id template_question_id : Z) (st : store)
  : list answer_row :=
  filter (fun r => (a_survey_id r =? survey_id)
                   && match a_template_question_id r with
                      | Some t => t =? template_question_id
                      | None => false
                      end)
    (survey_answers st).

(** No survey holds two rows for one template question. *)
Definition one_answer_per_question (st : store) : Prop :=
  forall survey_id template_question_id,
    (List.length (answers_of_question survey_id template_question_id st) <= 1)%nat.


(** ** QA alert export ([qa_exports.py]) *)

(** A Python value held by an alert dictionary or handed to [csv.writer]. *)
Inductive pyval :=
| VInt (z : Z)
| VText (s : string)
| VNone
| VFloat (x : float)
| VList (l : list string).

Definition bind {A B : Type} (r : result A) (f : A -> result B) : result B :=
  match r with
  | Ok a => f a
  | Raise msg => Raise msg
  end.

(** [a[key]] on the dictionary [qa_alerts_dashboard] appends: its eleven keys,
    and [KeyError(key)] for any other. *)
Definition alert_item (a : alert) (key : string) : result pyval :=
  if String.eqb key "survey_id" then Ok (VInt (alert_survey_id a))
  else if String.eqb key "facility_id" then Ok (VInt (alert_facility_id a))
  else if String.eqb key "facility_name" then Ok (VText (alert_facility_name a))
  else if String.eqb key "template_id" then
    Ok (match alert_template_id a with Some t => VInt t | None => VNone end)
  else if String.eqb key "survey_type" then Ok (VText (alert_survey_type a))
  else if String.eqb key "enumerator_name" then Ok (VText (alert_enumerator_name a))
  else if String.eqb key "status" then Ok (VText (alert_status a))
  else if String.eqb key "created_at" then Ok (VText (alert_created_at a))
  else if String.eqb key "total_answers" then Ok (VInt (alert_total_answers a))
  else if String.eqb key "flags" then Ok (VList (alert_flags a))
  else if String.eqb key "severity" then Ok (VFloat (alert_severity a))
  else Raise ("'" ++ key ++ "'").

(** How an element of the row is built from the item read. *)
Inductive row_element :=
| Plain          (* a[key] *)
| Fixed1         (* f"{a[key]:.1f}" *)
| Joined.        (* "; ".join(a[key]) *)

Definition csv_headers : list string :=
  ["survey_id"; "facility_id"; "facility_name";
   "template_id"; "survey_type"; "enumerator_name"; "status"; "created_at";
   "total_answers";
   "missing"; "missing_pct";
   "low_confidence"; "low_conf_pct";
   "no_source"; "no_source_pct";
   "no_confidence"; "no_conf_pct";
   "flags"; "severity"].

(** The list display of [w.writerow([...])], element by element. *)
Definition csv_row_elements : list (string * row_element) :=
  [("survey_id", Plain); ("facility_id", Plain); ("facility_name", Plain);
   ("template_id", Plain); ("survey_type", Plain); ("enumerator_name", Plain);
   ("status", Plain); ("created_at", Plain);
   ("total_answers", Plain);
   ("missing", Plain); ("missing_pct", Fixed1);
   ("low_confidence", Plain); ("low_conf_pct", Fixed1);
   ("no_source", Plain); ("no_source_pct", Fixed1);
   ("no_confidence", Plain); ("no_conf_pct", Fixed1);
   ("flags", Joined);
   ("severity", Fixed1)].

Section QaExport.
(** [f"{x:.1f}"] for a float. *)
Variable format_1f : float -> string.
(** [str(_exports_dir() / filename)]: the path of the file of that name
    under the directory [exports] that lies next to the module. *)
Variable exports_path : string -> string.

Definition csv_element (a : alert) (e : string * row_element) : result pyval :=
  bind (alert_item a (fst e))
    (fun v =>
       match snd e, v with
       | Plain, _ => Ok v
       | Fixed1, VFloat x => Ok (VText (format_1f x))
       | Fixed1, VInt z => Ok (VText (format_1f (float_of_int z)))
       | Fixed1, _ => Raise "unsupported format string"
       | Joined, VList l => Ok (VText (String.concat "; " l))
       | Joined, _ => Raise "can only join an iterable"
       end).

(** A list display evaluates its elements from left to right. *)
Fixpoint csv_row (a : alert) (es : list (string * row_element))
  : result (list pyval) :=
  match es with
  | [] => Ok []
  | e :: es' =>
      bind (csv_element a e)
        (fun v => bind (csv_row a es') (fun vs => Ok (v :: vs)))
  end.

(** [for a in alerts: w.writerow([...])] after the rows already written. *)
Fixpoint write_alert_rows (written : list (list pyval)) (alerts : list alert)
  : list (list pyval) * result unit :=
  match alerts with
  | [] => (written, Ok tt)
  | a :: alerts' =>
      match csv_row a csv_row_elements with
      | Ok row => write_alert_rows (written ++ [row]) alerts'
      | Raise msg => (written, Raise msg)
      end
  end.

(** [qa_exports.py], [export_qa_alerts_csv]: the rows the file holds when the
    call ends, and the path returned, [str(out_path)], or the exception
    raised. *)
Definition export_qa_alerts_csv (filename : string) (status_filter : option string)
  (missing_threshold_pct low_conf_threshold_pct
   no_source_threshold_pct no_conf_threshold_pct : float) (limit : Z) (st : store)
  : list (list pyval) * result string :=
  let alerts :=
    qa_alerts_dashboard st status_filter missing_threshold_pct
      low_conf_threshold_pct no_source_threshold_pct no_conf_threshold_pct limit in
  match write_alert_rows [map VText csv_headers] alerts with
  | (rows, Ok _) => (rows, Ok (exports_path filename))
  | (rows, Raise msg) => (rows, Raise msg)
  end.
End QaExport.


(** ** Survey templates ([templates.py]) *)

Module Templates.

Record template_row := {
  t_id : Z;
  t_name : string;
  t_description : option string;
  t_created_at : string
}.

Record question_row := {
  tq_id : Z;
  tq_template_id : Z;
  tq_question_text : string;
  tq_question_type : string;
  tq_order_no : Z;
  tq_is_required : Z;
  tq_created_at : string
}.

(** The tables [survey_templates] and [template_questions], and the row of
    [sqlite_sequence] that [id INTEGER PRIMARY KEY AUTOINCREMENT] keeps for
    [survey_templates]: the largest id an [INSERT] into that table has
    taken, [0] before the first one. *)
Record template_store := {
  survey_templates : list template_row;
  template_questions : list question_row;
  templates_seq : Z
}.

(** [PRAGMA table_info(template_questions)] over the schema [init_db]
    creates; no other table is asked for. *)
Definition template_questions_columns : list string :=
  ["id"; "template_id"; "question_text"; "question_type"; "order_no";
   "is_required"; "created_at"].

Definition _table_columns (table : string) : list string :=
  if String.eqb table "template_questions" then template_questions_columns
  else [].

(** [templates.py], [create_template]: the [INSERT] takes the id after the
    largest of the sequence and of the stored ids and records it in the
    sequence; [INSERT OR IGNORE] then stores no row when the name is taken
    ([name TEXT NOT NULL UNIQUE]), and the id it took stays taken. *)
Definition create_template (now : string) (name description : option string)
  (ts : template_store) : template_store * result Z :=
  let n := Py.strip (Py.or_str name "") in
  if Py.not_str n then (ts, Raise "Template name is required.")
  else
    let id := next_rowid (templates_seq ts :: map t_id (survey_templates ts)) in
    let ts' :=
      {| survey_templates :=
           if existsb (fun t => String.eqb (t_name t) n) (survey_templates ts)
           then survey_templates ts
           else
             survey_templates ts
             ++ [{| t_id := id;
                    t_name := n;
                    t_description := Some (Py.strip (Py.or_str description ""));
                    t_created_at := now |}];
         template_questions := template_questions ts;
         templates_seq := id |} in
    match hd_error (filter (fun t => String.eqb (t_name t) n) (survey_templates ts')) with
    | None => (ts', Raise "Failed to create or retrieve template.")
    | Some row => (ts', Ok (t_id row))
    end.

(** [templates.py], [get_template]. *)
Definition get_template (template_id : Z) (ts : template_store)
  : option (Z * string * option string * string) :=
  match hd_error (filter (fun t => t_id t =? template_id) (survey_templates ts)) with
  | None => None
  | Some r => Some (t_id r, t_name r, t_description r, t_created_at r)
  end.

(** [fields.insert(i, x)] for [i] within the list. *)
Definition list_insert {A : Type} (i : nat) (x : A) (l : list A) : list A :=
  (firstn i l ++ x :: skipn i l)%list.

(** The row an [INSERT INTO template_questions (fields) VALUES (values)]
    stores, with the defaults of the schema. *)
Definition question_row_of (id : Z) (fields : list (string * sqlval)) : question_row :=
  {| tq_id := id;
     tq_template_id := int_or (as_int (column "template_id" fields)) 0;
     tq_question_text := text_or (as_text (column "question_text" fields)) "";
     tq_question_type := text_or (as_text (column "question_type" fields)) "TEXT";
     tq_order_no := int_or (as_int (column "order_no" fields)) 1;
     tq_is_required := int_or (as_int (column "is_required" fields)) 0;
     tq_created_at := text_or (as_text (column "created_at" fields)) "" |}.

(** [templates.py], [add_template_question]. *)
Definition add_template_question (now : string) (template_id : Z)
  (question_text question_type : option string) (order_no is_required : Z)
  (ts : template_store) : template_store * result Z :=
  let q := Py.strip (Py.or_str question_text "") in
  if Py.not_str q then (ts, Raise "question_text is required.")
  else
    let qt := Py.upper (Py.strip (Py.or_str question_type "TEXT")) in
    let qt := if negb (py_in qt ["TEXT"; "YESNO"; "NUMBER"]) then "TEXT" else qt in
    let cols := _table_columns "template_questions" in
    let order_col := if py_in "display_order" cols then "display_order" else "order_no" in
    let required_col := if py_in "is_required" cols then Some "is_required" else None in
    let type_col := if py_in "question_type" cols then Some "question_type" else None in
    let fields :=
      [("template_id", SqlInt template_id); ("question_text", SqlText q);
       (order_col, SqlInt order_no); ("created_at", SqlText now)] in
    let fields :=
      match type_col with
      | Some c => list_insert 2 (c, SqlText qt) fields
      | None => fields
      end in
    let fields :=
      match required_col with
      | Some c => (fields ++ [(c, SqlInt is_required)])%list
      | None => fields
      end in
    let id := next_rowid (map tq_id (template_questions ts)) in
    ({| survey_templates := survey_templates ts;
        template_questions := template_questions ts ++ [question_row_of id fields];
        templates_seq := templates_seq ts |},
     Ok id).

(** [ORDER BY order_no ASC, id ASC] compares the pairs [(order_no, id)]. *)
Definition pair_ltb (a b : Z * Z) : bool :=
  (fst a <? fst b) || ((fst a =? fst b) && (snd a <? snd b)).

(** [templates.py], [get_template_questions]. *)
Definition get_template_questions (template_id : Z) (ts : template_store)
  : list template_question :=
  let cols := _table_columns "template_questions" in
  let has_type := py_in "question_type" cols in
  let has_required := py_in "is_required" cols in
  map (fun r =>
         {| q_id := tq_id r;
            q_text := tq_question_text r;
            q_type :=
              Py.upper (Py.or_str (Some (if has_type then tq_question_type r
                                         else "TEXT")) "TEXT");
            q_order_no := tq_order_no r;
            q_is_required :=
              Py.or_int (Some (if has_required then tq_is_required r else 0)) |})
    (sort_asc pair_ltb (fun r => (tq_order_no r, tq_id r))
       (filter (fun r => tq_template_id r =? template_id) (template_questions ts))).

(** The question comes before, or is, the other in [(order_no, id)] order. *)
Definition in_order (a b : template_question) : Prop :=
  q_order_no a < q_order_no b
  \/ (q_order_no a = q_order_no b /\ q_id a <= q_id b).

End Templates.


(** ** Stores the writers reach *)

(** The store of a database [init_db] has just created. *)
Definition empty_store : store :=
  {| facilities := []; surveys := []; survey_answers := [] |}.

(** In every table the ids grow with the insertion order. *)
Definition ids_increasing (st : store) : Prop :=
  StronglySorted Z.lt (map f_id (facilities st))
  /\ StronglySorted Z.lt (map s_id (surveys st))
  /\ StronglySorted Z.lt (map a_id (survey_answers st)).


(** The header of a survey whose status is COMPLETED. *)
Definition completed_header (h : header) : header :=
  {| h_id := h_id h;
     h_facility_id := h_facility_id h;
     h_facility_name := h_facility_name h;
     h_template_id := h_template_id h;
     h_survey_type := h_survey_type h;
     h_enumerator_name := h_enumerator_name h;
     h_status := "COMPLETED";
     h_created_at := h_created_at h |}.


(** ** JSON exports ([exports.py]) *)

(** An element of the [answers] list of an exported survey. *)
Record export_answer := {
  x_id : Z;
  x_template_question_id : option Z;
  x_question : string;
  x_answer : option string;
  x_answer_source : option string;
  x_confidence_level : option string;
  x_is_missing : Z;
  x_missing_reason : option string;
  x_created_at : string
}.

(** An exported survey: the [survey] dictionary, whose keys are the fields of
    a header, and the [answers] list. *)
Record survey_export := {
  x_survey : header;
  x_answers : list export_answer
}.

Definition export_answer_of (r : answer_row) : export_answer :=
  {| x_id := a_id r;
     x_template_question_id := a_template_question_id r;
     x_question := a_question r;
     x_answer := a_answer r;
     x_answer_source := a_answer_source r;
     x_confidence_level := a_confidence_level r;
     x_is_missing := Py.or_int (Some (a_is_missing r));
     x_missing_reason := a_missing_reason r;
     x_created_at := a_created_at r |}.

(** The row of [FROM surveys s JOIN facilities f] as a [survey] dictionary. *)
Definition header_of (sf : survey_row * facility_row) : header :=
  {| h_id := s_id (fst sf);
     h_facility_id := s_facility_id (fst sf);
     h_facility_name := f_name (snd sf);
     h_template_id := s_template_id (fst sf);
     h_survey_type := s_survey_type (fst sf);
     h_enumerator_name := s_enumerator_name (fst sf);
     h_status := s_status (fst sf);
     h_created_at := s_created_at (fst sf) |}.

(** [exports.py], [export_one_survey_json]: the document written and the
    path returned, or the exception raised before anything is written. *)
Definition export_one_survey_json (filepath : string) (survey_id : Z) (st : store)
  : result (survey_export * string) :=
  match hd_error (surveys_with_facility st (fun s => s_id s =? survey_id)) with
  | None => Raise "Survey not found."
  | Some s =>
      Ok ({| x_survey := header_of s;
             x_answers := map export_answer_of (select_answers st survey_id) |},
          filepath)
  end.

(** [exports.py], [export_surveys_answers_json]: the list written, one
    element per joined survey, and the path. *)
Definition export_surveys_answers_json (filepath : string) (limit : Z) (st : store)
  : list survey_export * string :=
  (map (fun s =>
          let sid := s_id (fst s) in
          {| x_survey := header_of s;
             x_answers := map export_answer_of (select_answers st sid) |})
     (sql_limit limit
        (sort_desc Z.ltb (fun sf => s_id (fst sf))
           (surveys_with_facility st (fun _ => true)))),
   filepath).

(** The tuple of the detail view for an exported answer. *)
Definition tuple_of_export (x : export_answer) : answer_tuple :=
  {| t0_id := x_id x;
     t1_template_question_id := x_template_question_id x;
     t2_question := x_question x;
     t3_answer := x_answer x;
     t4_answer_source := x_answer_source x;
     t5_confidence_level := x_confidence_level x;
     t6_is_missing := x_is_missing x;
     t7_missing_reason := x_missing_reason x |}.


(** ** Seeding the built-in templates ([app.py]) *)

(** A built-in template: name, description and questions
    [(text, type, order_no, required)]. *)
Definition default_template : Type :=
  string * string * list (string * string * Z * Z).

Definition default_templates : list default_template :=
  [("Facility Assessment",
    "Standard facility assessment checklist for routine visits.",
    [("Facility type (e.g., Hospital, Clinic, PHC)", "TEXT", 1, 1);
     ("Is the facility currently operational?", "YESNO", 2, 1);
     ("Number of staff currently on duty", "NUMBER", 3, 0);
     ("Top challenge observed today", "TEXT", 4, 0)]);
   ("Service Availability",
    "Quick service availability and basic capacity checks.",
    [("Are essential medicines available today?", "YESNO", 1, 1);
     ("Is power supply available now?", "YESNO", 2, 1);
     ("Is clean water available today?", "YESNO", 3, 1);
     ("Average waiting time (minutes)", "NUMBER", 4, 0)]);
   ("Patient Experience Quick Check",
    "Short patient experience snapshot for service improvement.",
    [("Were patients treated respectfully today?", "YESNO", 1, 1);
     ("Were fees clearly explained?", "YESNO", 2, 0);
     ("Main patient complaint (if any)", "TEXT", 3, 0)])].

(** [existing = {r["name"]: int(r["id"]) for r in cur.fetchall()}] and then
    [existing[name]]: the id of the last row of that name. *)
Definition existing_id (rows : list Templates.template_row) (name : string)
  : option Z :=
  option_map Templates.t_id
    (hd_error (rev (filter (fun t => String.eqb (Templates.t_name t) name) rows))).

Section Seeding.
(** The clock each call reads, as a function of the store the call starts
    from: two calls that store a row start from different stores. *)
Variable clock : Templates.template_store -> string.

(** [for (qtext, qtype, order_no, required) in t["questions"]:
       add_template_question(int(tid), qtext, qtype, int(order_no), int(required))] *)
Fixpoint add_questions (tid : Z) (questions : list (string * string * Z * Z))
  (ts : Templates.template_store) : Templates.template_store * result unit :=
  match questions with
  | [] => (ts, Ok tt)
  | (qtext, qtype, order_no, required) :: questions' =>
      match Templates.add_template_question (clock ts) tid (Some qtext) (Some qtype)
              order_no required ts with
      | (ts', Ok _) => add_questions tid questions' ts'
      | (ts', Raise msg) => (ts', Raise msg)
      end
  end.

(** The body of the loop over [defaults]. *)
Definition seed_template (existing : string -> option Z) (t : default_template)
  (ts : Templates.template_store) : Templates.template_store * result unit :=
  let '(name, desc, questions) := t in
  match (match existing name with
         | Some tid => (ts, Ok tid)
         | None => Templates.create_template (clock ts) (Some name) (Some desc) ts
         end) with
  | (ts1, Raise msg) => (ts1, Raise msg)
  | (ts1, Ok tid) =>
      let count :=
        Z.of_nat (List.length (filter (fun q => Templates.tq_template_id q =? tid)
                                 (Templates.template_questions ts1))) in
      if 0 <? count then (ts1, Ok tt)
      else add_questions tid questions ts1
  end.

Fixpoint seed_loop (existing : string -> option Z) (defaults : list default_template)
  (ts : Templates.template_store) : Templates.template_store * result unit :=
  match defaults with
  | [] => (ts, Ok tt)
  | t :: defaults' =>
      match seed_template existing t ts with
      | (ts1, Ok _) => seed_loop existing defaults' ts1
      | (ts1, Raise msg) => (ts1, Raise msg)
      end
  end.

(** [app.py], [_seed_default_templates]. *)
Definition _seed_default_templates (ts : Templates.template_store)
  : Templates.template_store * result unit :=
  seed_loop (existing_id (Templates.survey_templates ts)) default_templates ts.
End Seeding.

(** A template of that name is stored and has a question. *)
Definition seeded (name : string) (ts : Templates.template_store) : Prop :=
  exists t q,
    In t (Templates.survey_templates ts) /\ Templates.t_name t = name
    /\ In q (Templates.template_questions ts)
    /\ Templates.tq_template_id q = Templates.t_id t.

(** The second store holds the rows of the first, in their places, and
    possibly more after them. *)
Definition extends (ts ts1 : Templates.template_store) : Prop :=
  (exists more, Templates.survey_templates ts1
                = (Templates.survey_templates ts ++ more)%list)
  /\ (exists more, Templates.template_questions ts1
                   = (Templates.template_questions ts ++ more)%list).

(** A built-in template is well formed: its name is not empty and has no
    surrounding whitespace, it has a question, and no question is blank. *)
Definition well_formed (t : default_template) : Prop :=
  let '(name, _, questions) := t in
  name <> "" /\ Py.strip name = name /\ questions <> []
  /\ Forall (fun q => Py.whitespace_only (fst (fst (fst q))) = false) questions.


(** ** The enumerator routes ([app.py]) *)

Definition ENUM_ALLOWED_SOURCES : list string :=
  ["OBSERVATION"; "INTERVIEW"; "RECORD"; "ESTIMATE"].
Definition ENUM_ALLOWED_CONF : list string := ["HIGH"; "MEDIUM"; "LOW"].
Definition ENUM_MISSING_REASONS : list string :=
  ["NOT_APPLICABLE"; "REFUSED"; "UNAVAILABLE"; "UNSURE"; "TIME_CONSTRAINT"].

(** [redirect(url_for("enum_survey", sid=sid, e=enum, q=q))] *)
Record redirect := {
  to_sid : Z;
  to_e : string;
  to_q : option Z
}.

Section Routes.
(** [int(s)] and [float(s)] on a string: the number read, or the
    [ValueError] raised. *)
Variable int_of_str : string -> result Z.
Variable float_of_str : string -> result float.

(** [app.py], [enum_manual_add]; [form] is [request.form.get]. *)
Definition enum_manual_add (now : string) (form : string -> option string)
  (sid : Z) (st : store) : store * result redirect :=
  let enum := Py.strip (Py.or_str (form "e") "") in
  let q := Py.strip (Py.or_str (form "question") "") in
  let a := Py.strip (Py.or_str (form "answer") "") in
  let to := {| to_sid := sid; to_e := enum; to_q := None |} in
  if negb (Py.not_str q) && negb (Py.not_str a) then
    match add_answer now sid (Some q) (Some a) None None None 0 None st with
    | (st', Ok _) => (st', Ok to)
    | (st', Raise msg) => (st', Raise msg)
    end
  else (st, Ok to).

(** [int(request.form.get("q_index") or 0)] *)
Definition form_q_index (form : string -> option string) : result Z :=
  match form "q_index" with
  | Some (String c s) => int_of_str (String c s)
  | _ => Ok 0
  end.

(** [int(request.form.get("template_question_id"))] *)
Definition form_template_question_id (form : string -> option string) : result Z :=
  match form "template_question_id" with
  | Some s => int_of_str s
  | None =>
      Raise "int() argument must be a string, a bytes-like object or a real number, not 'NoneType'"
  end.

(** [if x not in allowed: x = default] *)
Definition allowed_or (allowed : list string) (default x : string) : string :=
  if negb (py_in x allowed) then default else x.

(** [app.py], [enum_template_answer]: what is raised inside [try] sends the
    enumerator back to the same question. *)
Definition enum_template_answer (now : string) (form : string -> option string)
  (sid : Z) (st : store) : store * result redirect :=
  let enum := Py.strip (Py.or_str (form "e") "") in
  match form_q_index form with
  | Raise msg => (st, Raise msg)
  | Ok q_index =>
      match form_template_question_id form with
      | Raise msg => (st, Raise msg)
      | Ok tqid =>
          let qtext := Py.strip (Py.or_str (form "question_text") "") in
          let qtype := Py.upper (Py.strip (Py.or_str (form "question_type") "TEXT")) in
          let raw_answer := Py.strip (Py.or_str (form "answer") "") in
          let source :=
            Py.upper (Py.strip (Py.or_str (form "answer_source") "INTERVIEW")) in
          let conf :=
            Py.upper (Py.strip (Py.or_str (form "confidence_level") "MEDIUM")) in
          let same := {| to_sid := sid; to_e := enum; to_q := Some q_index |} in
          let next := {| to_sid := sid; to_e := enum; to_q := Some (q_index + 1) |} in
          match _validate_by_type float_of_str (Some qtype) (Some raw_answer) with
          | Raise _ => (st, Ok same)
          | Ok cleaned =>
              let source := allowed_or ENUM_ALLOWED_SOURCES "INTERVIEW" source in
              let conf := allowed_or ENUM_ALLOWED_CONF "MEDIUM" conf in
              match _upsert_template_answer now sid tqid qtext cleaned
                      (Some source) (Some conf) 0 None st with
              | (st', Ok _) => (st', Ok next)
              | (st', Raise _) => (st', Ok same)
              end
          end
      end
  end.

(** [app.py], [enum_template_skip]. *)
Definition enum_template_skip (now : string) (form : string -> option string)
  (sid : Z) (st : store) : store * result redirect :=
  let enum := Py.strip (Py.or_str (form "e") "") in
  match form_q_index form with
  | Raise msg => (st, Raise msg)
  | Ok q_index =>
      match form_template_question_id form with
      | Raise msg => (st, Raise msg)
      | Ok tqid =>
          let qtext := Py.strip (Py.or_str (form "question_text") "") in
          let missing_reason :=
            Py.upper (Py.strip (Py.or_str (form "missing_reason") "UNAVAILABLE")) in
          let missing_reason :=
            allowed_or ENUM_MISSING_REASONS "UNAVAILABLE" missing_reason in
          match _upsert_template_answer now sid tqid qtext "__MISSING__"
                  None None 1 (Some missing_reason) st with
          | (st', Ok _) =>
              (st', Ok {| to_sid := sid; to_e := enum; to_q := Some (q_index + 1) |})
          | (st', Raise msg) => (st', Raise msg)
          end
      end
  end.

(** [app.py], [enum_submit_post]: the store it leaves. *)
Definition enum_submit_post (sid : Z) (st : store) : store :=
  complete_survey sid st.

(** A request to one of the routes that write answers or submit. *)
Inductive request :=
| Manual_add (now : string) (form : string -> option string) (sid : Z)
| Template_answer (now : string) (form : string -> option string) (sid : Z)
| Template_skip (now : string) (form : string -> option string) (sid : Z)
| Submit (sid : Z).

(** The store a request leaves. *)
Definition serve (r : request) (st : store) : store :=
  match r with
  | Manual_add now form sid => fst (enum_manual_add now form sid st)
  | Template_answer now form sid => fst (enum_template_answer now form sid st)
  | Template_skip now form sid => fst (enum_template_skip now form sid st)
  | Submit sid => enum_submit_post sid st
  end.

Definition serve_all (rs : list request) (st : store) : store :=
  fold_left (fun s r => serve r s) rs st.
End Routes.


(** ** Starting a survey ([app.py], [enum_start_post]) *)

Definition MODE_TEMPLATE : string := "TEMPLATE".
Definition MODE_MANUAL : string := "MANUAL".

(** [str.isdigit] on one character below 256: the ten digits and the
    superscripts two, three and one. *)
Definition isdigit_char (c : ascii) : bool :=
  let n := Z.of_N (N_of_ascii c) in
  ((48 <=? n) && (n <=? 57)) || (n =? 178) || (n =? 179) || (n =? 185).

(** [s.isdigit()] *)
Definition isdigit (s : string) : bool :=
  negb (Py.not_str s) && forallb isdigit_char (list_ascii_of_string s).

(** Where [enum_start_post] sends the enumerator. *)
Inductive start_redirect :=
| To_enum_home
| To_enum_start (e : string)
| To_enum_survey (sid : Z) (e : string).

Section Start.
Variable int_of_str : string -> result Z.
(** [str(n)] *)
Variable str_of_int : Z -> string.
(** The row [fetchone()] returns of the facilities that match a name. *)
Variable first_match : list facility_row -> option facility_row.

(** [app.py], [enum_start_post]; [form] is [request.form.get], [ts] holds
    the templates, which the route only reads. *)
Definition enum_start_post (now : string) (form : string -> option string)
  (ts : Templates.template_store) (st : store) : store * result start_redirect :=
  let enum := Py.strip (Py.or_str (form "e") "") in
  if Py.not_str enum then (st, Ok To_enum_home)
  else
    let facility_name := Py.strip (Py.or_str (form "facility_name") "") in
    let mode := Py.upper (Py.strip (Py.or_str (form "mode") MODE_TEMPLATE)) in
    let template_id_raw := Py.strip (Py.or_str (form "template_id") "") in
    let survey_title := Py.strip (Py.or_str (form "survey_title") "") in
    match _get_or_create_facility_by_name first_match (Some facility_name) st with
    | (st1, Raise msg) => (st1, Raise msg)
    | (st1, Ok facility_id) =>
        if String.eqb mode MODE_MANUAL then
          let survey_title :=
            if Py.not_str survey_title then "Manual Survey" else survey_title in
          let (st2, sid) :=
            create_survey now facility_id survey_title enum None st1 in
          (st2, Ok (To_enum_survey sid enum))
        else
          let template_id_raw :=
            if Py.not_str template_id_raw then
              match hd_error
                      (filter (fun t => String.eqb (Templates.t_name t)
                                          "Facility Assessment")
                         (Templates.survey_templates ts)) with
              | Some row => str_of_int (Templates.t_id row)
              | None => template_id_raw
              end
            else template_id_raw in
          if Py.not_str template_id_raw || negb (isdigit template_id_raw)
          then (st1, Ok (To_enum_start enum))
          else
            match int_of_str template_id_raw with
            | Raise msg => (st1, Raise msg)
            | Ok template_id =>
                let tname :=
                  match hd_error
                          (filter (fun t => Templates.t_id t =? template_id)
                             (Templates.survey_templates ts)) with
                  | Some row => Templates.t_name row
                  | None => "Template Survey"
                  end in
                let (st2, sid) :=
                  create_survey now facility_id tname enum (Some template_id) st1 in
                (st2, Ok (To_enum_survey sid enum))
            end
    end.
End Start.


(** ** The schema ([db.py], [init_db]) *)

(** The tables of a database, each with its column names in order, and the
    names of its indexes.  The database holds tables and indexes only; the
    rows are not part of this view, and the [UPDATE]s that end [init_db]
    change no column. *)
Record db_schema := {
  tables : list (string * list string);
  indexes : list string
}.

(** SQLite compares the names of tables, columns and indexes without regard
    to ASCII case. *)
Definition same_name (a b : string) : bool := String.eqb (lower a) (lower b).

Fixpoint columns_of (table : string) (tabs : list (string * list string))
  : option (list string) :=
  match tabs with
  | [] => None
  | (name, cols) :: tabs' =>
      if same_name name table then Some cols else columns_of table tabs'
  end.

(** [db.py], [_columns]: [PRAGMA table_info] has no row for a table that
    does not exist. *)
Definition _columns (s : db_schema) (table : string) : list string :=
  match columns_of table (tables s) with
  | Some cols => cols
  | None => []
  end.

Fixpoint add_column_to (table col : string) (tabs : list (string * list string))
  : list (string * list string) :=
  match tabs with
  | [] => []
  | (name, cols) :: tabs' =>
      if same_name name table then (name, cols ++ [col])%list :: tabs'
      else (name, cols) :: add_column_to table col tabs'
  end.

(** A statement of [init_db]. *)
Inductive statement :=
| Create_table (table : string) (cols : list string)
| Create_index (index table col : string)
| Add_column_if_missing (table col col_def : string).

Section Schema.
(** The messages of the [OperationalError]s for a table and for a column
    that do not exist. *)
Variable no_table_message : string -> string.
Variable no_column_message : string -> string -> string.

(** [CREATE TABLE IF NOT EXISTS table (cols)] *)
Definition create_table (table : string) (cols : list string) (s : db_schema)
  : db_schema * result unit :=
  match columns_of table (tables s) with
  | Some _ => (s, Ok tt)
  | None =>
      if existsb (same_name table) (indexes s)
      then (s, Raise ("there is already an index named " ++ table))
      else ({| tables := tables s ++ [(table, cols)]; indexes := indexes s |}, Ok tt)
  end.

(** [CREATE INDEX IF NOT EXISTS index ON table(col)] *)
Definition create_index (index table col : string) (s : db_schema)
  : db_schema * result unit :=
  match columns_of table (tables s) with
  | None => (s, Raise (no_table_message table))
  | Some cols =>
      match columns_of index (tables s) with
      | Some _ => (s, Raise ("there is already a table named " ++ index))
      | None =>
          if existsb (same_name index) (indexes s) then (s, Ok tt)
          else if existsb (same_name col) cols
          then ({| tables := tables s; indexes := indexes s ++ [index] |}, Ok tt)
          else (s, Raise (no_column_message table col))
      end
  end.

(** [db.py], [_add_column_if_missing]: Python looks the column up with
    regard to case, [ALTER TABLE ... ADD COLUMN] without. *)
Definition _add_column_if_missing (table col col_def : string) (s : db_schema)
  : db_schema * result unit :=
  let cols := _columns s table in
  if negb (py_in col cols) then
    match columns_of table (tables s) with
    | None => (s, Raise (no_table_message table))
    | Some cols' =>
        if existsb (same_name col) cols'
        then (s, Raise ("duplicate column name: " ++ col))
        else ({| tables := add_column_to table col (tables s);
                 indexes := indexes s |}, Ok tt)
    end
  else (s, Ok tt).

Definition execute (c : statement) : db_schema -> db_schema * result unit :=
  match c with
  | Create_table table cols => create_table table cols
  | Create_index index table col => create_index index table col
  | Add_column_if_missing table col col_def => _add_column_if_missing table col col_def
  end.

(** Statements in sequence: the first exception ends the run. *)
Fixpoint execute_all (cs : list statement) (s : db_schema) : db_schema * result unit :=
  match cs with
  | [] => (s, Ok tt)
  | c :: cs' =>
      match execute c s with
      | (s1, Ok _) => execute_all cs' s1
      | (s1, Raise msg) => (s1, Raise msg)
      end
  end.

(** [for col, col_def in pairs: _add_column_if_missing(conn, table, col, col_def)] *)
Definition migrate (table : string) (pairs : list (string * string))
  : list statement :=
  map (fun p => Add_column_if_missing table (fst p) (snd p)) pairs.

Definition init_db_statements : list statement :=
  [Create_table "facilities"
     ["id"; "name"; "facility_type"; "address"; "lga"; "state"; "contact_name";
      "contact_phone"; "created_at"];
   Create_table "survey_templates" ["id"; "name"; "description"; "created_at"];
   Create_table "template_questions"
     ["id"; "template_id"; "question_text"; "question_type"; "order_no";
      "is_required"; "created_at"];
   Create_table "surveys"
     ["id"; "facility_id"; "template_id"; "survey_type"; "enumerator_name";
      "status"; "created_at"];
   Create_table "survey_answers"
     ["id"; "survey_id"; "template_question_id"; "question"; "answer";
      "answer_source"; "confidence_level"; "is_missing"; "missing_reason";
      "created_at"];
   Create_index "idx_facilities_name" "facilities" "name";
   Create_index "idx_surveys_facility" "surveys" "facility_id";
   Create_index "idx_surveys_status" "surveys" "status";
   Create_index "idx_surveys_enum" "surveys" "enumerator_name";
   Create_index "idx_answers_survey" "survey_answers" "survey_id";
   Create_index "idx_tplq_tpl" "template_questions" "template_id"]
  ++ migrate "facilities"
       [("facility_type", "TEXT"); ("address", "TEXT"); ("lga", "TEXT");
        ("state", "TEXT"); ("contact_name", "TEXT"); ("contact_phone", "TEXT");
        ("created_at", "TEXT NOT NULL DEFAULT ''")]
  ++ migrate "survey_templates"
       [("description", "TEXT"); ("created_at", "TEXT NOT NULL DEFAULT ''")]
  ++ migrate "template_questions"
       [("question_type", "TEXT NOT NULL DEFAULT 'TEXT'");
        ("order_no", "INTEGER NOT NULL DEFAULT 1");
        ("is_required", "INTEGER NOT NULL DEFAULT 0");
        ("created_at", "TEXT NOT NULL DEFAULT ''")]
  ++ migrate "surveys"
       [("template_id", "INTEGER"); ("status", "TEXT NOT NULL DEFAULT 'DRAFT'");
        ("created_at", "TEXT NOT NULL DEFAULT ''")]
  ++ migrate "survey_answers"
       [("template_question_id", "INTEGER"); ("answer_source", "TEXT");
        ("confidence_level", "TEXT"); ("is_missing", "INTEGER NOT NULL DEFAULT 0");
        ("missing_reason", "TEXT"); ("created_at", "TEXT NOT NULL DEFAULT ''")].

(** [db.py], [init_db]: the schema it leaves, and whether it returns. *)
Definition init_db (s : db_schema) : db_schema * result unit :=
  execute_all init_db_statements s.
End Schema.

(** What a statement asks of the schema: the table is there, the index and
    its table are there, the column is in the list [_columns] returns. *)
Definition settled (c : statement) (s : db_schema) : Prop :=
  match c with
  | Create_table table _ => columns_of table (tables s) <> None
  | Create_index index table _ =>
      columns_of table (tables s) <> None
      /\ columns_of index (tables s) = None
      /\ existsb (same_name index) (indexes s) = true
  | Add_column_if_missing table col _ => py_in col (_columns s table) = true
  end.

(** The columns of every table are kept, in their places. *)
Definition keeps_columns (s s' : db_schema) : Prop :=
  forall table cols,
    columns_of table (tables s) = Some cols ->
    exists more, columns_of table (tables s') = Some (cols ++ more)%list.


(** The statement creates a table. *)
Definition is_create (c : statement) : bool :=
  match c with
  | Create_table _ _ => true
  | _ => false
  end.


(** ** Question types inferred from the text ([template_import.py]) *)

(** [x in s] for strings. *)
Fixpoint contains (x s : string) : bool :=
  String.prefix x s
  || match s with
     | EmptyString => false
     | String _ s' => contains x s'
     end.

(** [any(x in q for x in words)] *)
Definition any_in (words : list string) (q : string) : bool :=
  existsb (fun x => contains x q) words.

(** [template_import.py], [infer_question_type]. *)
Definition infer_question_type (question_text : option string) : string :=
  let q := lower (Py.or_str question_text "") in
  if any_in ["yes/no"; "yes or no"; "is the"; "are you"; "do you"; "does the";
             "did you"; "was the"; "were the"] q
  then "YESNO"
  else if any_in ["how many"; "number of"; "minutes"; "hours"; "age"; "count";
                  "quantity"; "rate"; "percentage"; "%"] q
  then "NUMBER"
  else "TEXT".


(** The statement is an [_add_column_if_missing] of the column [status]. *)
Definition adds_status (c : statement) : bool :=
  match c with
  | Add_column_if_missing _ col _ => String.eqb col "status"
  | _ => false
  end.

(** The statement creates a table, or an index other than
    [idx_surveys_status]. *)
Definition before_status_index (c : statement) : bool :=
  match c with
  | Create_table _ _ => true
  | Create_index index _ _ => negb (same_name "idx_surveys_status" index)
  | Add_column_if_missing _ _ _ => false
  end.


(** ** The question a template survey shows ([app.py], [enum_survey]) *)

(** [l[i]] *)
Definition py_index {A : Type} (l : list A) (i : Z) : result A :=
  let n := Z.of_nat (List.length l) in
  let at_ (k : Z) :=
    match nth_error l (Z.to_nat k) with
    | Some x => Ok x
    | None => Raise "list index out of range"
    end in
  if (0 <=? i) && (i <? n) then at_ i
  else if (- n <=? i) && (i <? 0) then at_ (n + i)
  else Raise "list index out of range".

(** What the template mode of [enum_survey] works out before it renders the
    page. *)
Inductive question_view :=
| No_questions
| Question_view (idx : Z) (question : template_question) (has_existing : bool)
    (prev_idx next_idx : Z).

Section QuestionView.
Variable int_of_str : string -> result Z.

(** [app.py], [enum_survey], template mode: from
    [tq = get_template_questions(int(template_id))] to [next_idx]; [q] is
    [request.args.get("q")]. *)
Definition enum_survey_question (q : option string) (template_id sid : Z)
  (ts : Templates.template_store) (st : store) : result question_view :=
  let tq := Templates.get_template_questions template_id ts in
  match tq with
  | [] => Ok No_questions
  | _ :: _ =>
      let answered_map := _template_answer_map sid st in
      let total_q := Z.of_nat (List.length tq) in
      let idx_raw := Py.strip (Py.or_str q "") in
      bind (if isdigit idx_raw
            then bind (int_of_str idx_raw)
                   (fun n => Ok (Z.max 0 (Z.min n (total_q - 1))))
            else Ok (_find_next_unanswered_index tq answered_map))
        (fun idx =>
           bind (py_index tq idx)
             (fun question =>
                let existing := dict_get (q_id question) answered_map in
                let has_existing :=
                  match existing with Some _ => true | None => false end in
                let prev_idx := if 0 <? idx then idx - 1 else 0 in
                let next_idx :=
                  if idx <? total_q - 1 then idx + 1 else total_q - 1 in
                Ok (Question_view idx question has_existing prev_idx next_idx)))
  end.
End QuestionView.

(** * Properties *)

(** ** Python strings *)

Lemma lstrip_cases (s : string) :
  Py.lstrip s = EmptyString
  \/ exists c s', Py.lstrip s = String c s' /\ Py.isspace c = false.
Proof.
  induction s as [|c s IH]; simpl.
  - now left.
  - destruct (Py.isspace c) eqn:E.
    + exact IH.
    + right. now exists c, s.
Qed.

Lemma lstrip_empty_iff (s : string) :
  Py.lstrip s = EmptyString <-> Py.whitespace_only s = true.
Proof.
  induction s as [|c s IH]; simpl.
  - tauto.
  - destruct (Py.isspace c); simpl.
    + exact IH.
    + split; discriminate.
Qed.

Lemma rstrip_head_nonspace (c : ascii) (s : string) :
  Py.isspace c = false -> Py.rstrip (String c s) <> EmptyString.
Proof.
  intros Hc. simpl. destruct (Py.rstrip s).
  - rewrite Hc. discriminate.
  - discriminate.
Qed.

Lemma strip_empty_iff (s : string) :
  Py.strip s = EmptyString <-> Py.whitespace_only s = true.
Proof.
  unfold Py.strip. rewrite <- lstrip_empty_iff.
  destruct (lstrip_cases s) as [E | (c & s' & E & Hc)]; rewrite E.
  - simpl. tauto.
  - split.
    + intros H. now apply rstrip_head_nonspace in H.
    + discriminate.
Qed.

Lemma not_str_true_iff (s : string) : Py.not_str s = true <-> s = EmptyString.
Proof. destruct s; simpl; split; congruence. Qed.

Lemma not_str_strip (s : string) :
  Py.not_str (Py.strip s) = Py.whitespace_only s.
Proof.
  apply eq_true_iff_eq. rewrite not_str_true_iff. apply strip_empty_iff.
Qed.

Lemma or_str_empty (v : option string) :
  Py.or_str v "" = match v with Some s => s | None => "" end.
Proof. destruct v as [[|c s]|]; reflexivity. Qed.

Lemma strip_upper_examples :
  Py.strip "  Water source? " = "Water source?"
  /\ Py.strip "   " = ""
  /\ Py.upper (Py.strip " completed") = "COMPLETED"
  /\ Py.upper "Low" = "LOW".
Proof. repeat split; reflexivity. Qed.

(** ** Lists, counts and slices *)

Lemma count_nonneg {A : Type} (p : A -> bool) (l : list A) : 0 <= Py.count p l.
Proof. unfold Py.count. lia. Qed.

Lemma count_le_length {A : Type} (p : A -> bool) (l : list A) :
  Py.count p l <= Z.of_nat (List.length l).
Proof.
  unfold Py.count. apply Nat2Z.inj_le. apply filter_length_le.
Qed.

Lemma count_ext {A : Type} (p q : A -> bool) (l : list A) :
  (forall a, In a l -> p a = q a) -> Py.count p l = Py.count q l.
Proof.
  intros H. unfold Py.count. do 2 f_equal. now apply filter_ext_in.
Qed.

Lemma count_perm {A : Type} (p : A -> bool) (l l' : list A) :
  Permutation l l' -> Py.count p l = Py.count p l'.
Proof.
  intros H. unfold Py.count. f_equal. apply Permutation_length.
  induction H; simpl.
  - constructor.
  - destruct (p x); auto.
  - destruct (p x), (p y); auto using perm_swap.
  - eapply Permutation_trans; eassumption.
Qed.

Lemma count_split {A : Type} (p : A -> bool) (l : list A) :
  Z.of_nat (List.length l) = Py.count p l + Py.count (fun a => negb (p a)) l.
Proof.
  unfold Py.count. induction l as [|x l IH].
  - reflexivity.
  - cbn [filter List.length]. destruct (p x); cbn [negb List.length];
      rewrite !Nat2Z.inj_succ; lia.
Qed.

Lemma count_map {A B : Type} (f : A -> B) (p : B -> bool) (l : list A) :
  Py.count p (map f l) = Py.count (fun a => p (f a)) l.
Proof.
  unfold Py.count. f_equal. induction l as [|x l IH]; simpl.
  - reflexivity.
  - destruct (p (f x)); simpl; now rewrite IH.
Qed.

Lemma slice_to_firstn {A : Type} (k : Z) (l : list A) :
  exists n, Py.slice_to k l = firstn n l.
Proof. unfold Py.slice_to. destruct (0 <=? k); eauto. Qed.

Lemma slice_to_In {A : Type} (k : Z) (l : list A) (a : A) :
  In a (Py.slice_to k l) -> In a l.
Proof.
  destruct (slice_to_firstn k l) as [n ->]. revert l.
  induction n as [|n IH]; intros [|x l]; simpl; try tauto.
  intros [H | H]; auto.
Qed.

Lemma slice_to_length {A : Type} (k : Z) (l : list A) :
  0 <= k -> Z.of_nat (List.length (Py.slice_to k l)) <= k.
Proof.
  intros Hk. unfold Py.slice_to.
  destruct (Z.leb_spec 0 k); [|lia].
  rewrite length_firstn. lia.
Qed.

Lemma slice_to_all {A : Type} (k : Z) (l : list A) :
  Z.of_nat (List.length l) <= k -> Py.slice_to k l = l.
Proof.
  intros Hk. unfold Py.slice_to.
  destruct (Z.leb_spec 0 k); [|lia].
  apply firstn_all2. lia.
Qed.

Lemma nth_error_firstn_Some {A : Type} (n i : nat) (l : list A) (a : A) :
  nth_error (firstn n l) i = Some a -> nth_error l i = Some a.
Proof.
  revert i l. induction n as [|n IH]; intros i l; simpl.
  - destruct i; discriminate.
  - destruct l as [|x l]; [destruct i; discriminate|].
    destruct i; simpl; auto.
Qed.

Lemma nth_error_slice_to {A : Type} (k : Z) (i : nat) (l : list A) (a : A) :
  nth_error (Py.slice_to k l) i = Some a -> nth_error l i = Some a.
Proof.
  destruct (slice_to_firstn k l) as [n ->]. apply nth_error_firstn_Some.
Qed.

Lemma Sorted_adjacent {A : Type} (R : A -> A -> Prop) (l : list A) :
  Sorted R l ->
  forall i a b, nth_error l i = Some a -> nth_error l (S i) = Some b -> R a b.
Proof.
  induction 1 as [|x l Hs IH Hd]; intros i a b Ha Hb.
  - destruct i; discriminate.
  - destruct i as [|i]; simpl in *.
    + injection Ha as <-. destruct l as [|y l]; [discriminate|].
      injection Hb as <-. now inversion Hd.
    + eapply IH; eassumption.
Qed.

Lemma StronglySorted_positions {A : Type} (R : A -> A -> Prop) (l : list A) :
  StronglySorted R l ->
  forall i j a b, (i < j)%nat ->
    nth_error l i = Some a -> nth_error l j = Some b -> R a b.
Proof.
  induction 1 as [|x l Hs IH Hall]; intros i j a b Hij Ha Hb.
  - destruct i; discriminate.
  - destruct j as [|j]; [lia|]. simpl in Hb.
    destruct i as [|i]; simpl in Ha.
    + injection Ha as <-. rewrite Forall_forall in Hall.
      apply Hall. eapply nth_error_In; eassumption.
    + apply (IH i j); auto. lia.
Qed.

(** ** The stable sorts *)

Section SortFacts.
Context {A K : Type} (lt : K -> K -> bool) (key : A -> K).

Lemma insert_desc_perm (x : A) (l : list A) :
  Permutation (insert_desc lt key x l) (x :: l).
Proof.
  induction l as [|y l IH]; simpl.
  - apply Permutation_refl.
  - destruct (lt (key x) (key y)).
    + eapply Permutation_trans; [apply perm_skip, IH | apply perm_swap].
    + apply Permutation_refl.
Qed.

Lemma sort_desc_perm (l : list A) : Permutation (sort_desc lt key l) l.
Proof.
  induction l as [|x l IH]; simpl.
  - constructor.
  - eapply Permutation_trans; [apply insert_desc_perm | now apply perm_skip].
Qed.

Lemma sort_desc_In (l : list A) (a : A) : In a (sort_desc lt key l) <-> In a l.
Proof.
  split; apply Permutation_in;
    [apply sort_desc_perm | apply Permutation_sym, sort_desc_perm].
Qed.

Lemma insert_asc_perm (x : A) (l : list A) :
  Permutation (insert_asc lt key x l) (x :: l).
Proof.
  induction l as [|y l IH]; simpl.
  - apply Permutation_refl.
  - destruct (lt (key y) (key x)).
    + eapply Permutation_trans; [apply perm_skip, IH | apply perm_swap].
    + apply Permutation_refl.
Qed.

Lemma sort_asc_perm (l : list A) : Permutation (sort_asc lt key l) l.
Proof.
  induction l as [|x l IH]; simpl.
  - constructor.
  - eapply Permutation_trans; [apply insert_asc_perm | now apply perm_skip].
Qed.

(** Descending order, when [<] and [>=] agree and the keys that occur
    ([ok]) are comparable. *)
Section Descending.
Context (ge : K -> K -> bool) (ok : K -> Prop).
Hypothesis not_lt_ge : forall a b, ok a -> ok b -> lt a b = false -> ge a b = true.
Hypothesis lt_ge_flip : forall a b, lt a b = true -> ge b a = true.

Let geR (a b : A) : Prop := ge (key a) (key b) = true.

Lemma insert_desc_HdRel (x y : A) (l : list A) :
  lt (key x) (key y) = true -> HdRel geR y l -> HdRel geR y (insert_desc lt key x l).
Proof.
  intros Hxy Hd. destruct l as [|z l]; simpl.
  - constructor. now apply lt_ge_flip.
  - destruct (lt (key x) (key z)).
    + constructor. now inversion Hd.
    + constructor. now apply lt_ge_flip.
Qed.

Lemma insert_desc_sorted (x : A) (l : list A) :
  ok (key x) -> Forall (fun y => ok (key y)) l ->
  Sorted geR l -> Sorted geR (insert_desc lt key x l).
Proof.
  intros Hx Hl Hs. induction Hs as [|y l Hs IH Hd]; simpl.
  - repeat constructor.
  - apply Forall_cons_iff in Hl as [Hy Hl].
    destruct (lt (key x) (key y)) eqn:E.
    + constructor; [apply IH; exact Hl | now apply insert_desc_HdRel].
    + constructor; [now constructor | constructor; now apply not_lt_ge].
Qed.

Lemma sort_desc_sorted (l : list A) :
  Forall (fun y => ok (key y)) l -> Sorted geR (sort_desc lt key l).
Proof.
  induction 1 as [|x l Hx Hl IH]; simpl.
  - constructor.
  - apply insert_desc_sorted; [exact Hx | | exact IH].
    apply Forall_forall. intros y Hy. apply (proj1 (sort_desc_In l y)) in Hy.
    rewrite Forall_forall in Hl. exact (Hl y Hy).
Qed.

End Descending.

(** Stability: two elements change their relative order only when the one
    that moves ahead has the strictly greater key. *)
Section Stable.
Context (R : A -> A -> Prop).

Let T (a b : A) : Prop := lt (key b) (key a) = true \/ R a b.

Lemma insert_desc_stable (x : A) (l : list A) :
  Forall (R x) l -> StronglySorted T l -> StronglySorted T (insert_desc lt key x l).
Proof.
  intros Hx Hs. induction Hs as [|y l Hs IH Hy]; simpl.
  - repeat constructor.
  - destruct (lt (key x) (key y)) eqn:E.
    + constructor.
      * apply IH. now inversion Hx.
      * apply Forall_forall. intros z Hz.
        apply (Permutation_in _ (insert_desc_perm x l)) in Hz.
        destruct Hz as [<- | Hz].
        -- now left.
        -- rewrite Forall_forall in Hy. now apply Hy.
    + constructor.
      * now constructor.
      * eapply Forall_impl; [|exact Hx]. intros z Hz. now right.
Qed.

Lemma sort_desc_stable (l : list A) :
  StronglySorted R l -> StronglySorted T (sort_desc lt key l).
Proof.
  induction 1 as [|x l Hs IH Hx]; simpl.
  - constructor.
  - apply insert_desc_stable; [|exact IH].
    apply Forall_forall. intros z Hz. rewrite Forall_forall in Hx.
    apply Hx. now apply sort_desc_In.
Qed.

End Stable.

End SortFacts.

(** [ORDER BY id DESC] lists the rows by strictly decreasing id when the ids
    are those of a primary key. *)
Lemma order_by_id_desc {A : Type} (id : A -> Z) (l : list A) :
  NoDup (map id l) ->
  StronglySorted (fun a b => id b < id a) (sort_desc Z.ltb id l).
Proof.
  intros Hnd.
  assert (Hs : StronglySorted (fun a b => id b <= id a) (sort_desc Z.ltb id l)).
  { apply Sorted_StronglySorted.
    - intros a b c Hab Hbc. lia.
    - assert (Hb : Sorted (fun a b => (id b <=? id a) = true)
                     (sort_desc Z.ltb id l)).
      { apply (sort_desc_sorted Z.ltb id (fun a b => b <=? a) (fun _ => True)).
        - intros a b _ _ H. apply Z.ltb_ge in H. now apply Z.leb_le.
        - intros a b H. apply Z.ltb_lt in H. apply Z.leb_le. lia.
        - now apply Forall_forall. }
      induction Hb as [|x s Hb IH Hd]; constructor; auto.
      destruct Hd as [|y s' Hy]; constructor. now apply Z.leb_le. }
  assert (Hnd' : NoDup (map id (sort_desc Z.ltb id l))).
  { eapply Permutation_NoDup; [|exact Hnd].
    apply Permutation_map, Permutation_sym, sort_desc_perm. }
  induction Hs as [|x s Hs IH Hx]; constructor.
  - apply IH. now inversion Hnd'.
  - simpl in Hnd'. inversion Hnd' as [|? ? Hnotin _]; subst.
    rewrite Forall_forall in *. intros z Hz.
    specialize (Hx z Hz).
    assert (id z <> id x) by (intros E; apply Hnotin; rewrite <- E; now apply in_map).
    lia.
Qed.

(** ** The quality summary *)

Lemma is_low_confidence_stripped (a : answer_tuple) :
  is_low_confidence a = stripped_is_low a.
Proof.
  unfold is_low_confidence, stripped_is_low. rewrite or_str_empty.
  destruct (t5_confidence_level a); reflexivity.
Qed.

Lemma no_text_blank (v : option string) :
  Py.not_str (Py.strip (Py.or_str v "")) = absent_or_blank v.
Proof.
  rewrite or_str_empty. destruct v as [s|]; simpl.
  - apply not_str_strip.
  - reflexivity.
Qed.

Lemma qa_of_stripped (answers : list answer_tuple) :
  qa_of answers = stripped_summary answers.
Proof.
  unfold qa_of, stripped_summary. f_equal.
  - apply count_ext. intros a _. apply is_low_confidence_stripped.
  - apply count_ext. intros a _. apply no_text_blank.
  - apply count_ext. intros a _. apply no_text_blank.
Qed.

Lemma qa_of_perm (answers answers' : list answer_tuple) :
  Permutation answers answers' -> qa_of answers' = qa_of answers.
Proof.
  intros H. apply Permutation_sym in H. unfold qa_of.
  rewrite (Permutation_length H).
  now rewrite !(count_perm _ _ _ H).
Qed.

(** C6, as the claim words it, fails: an answer whose source is one blank is
    counted by the summary as having no source, while its source is neither
    absent nor empty. *)
Lemma qa_summary_counts_blank_source :
  no_source_count (qa_of [blank_source_answer]) = 1
  /\ no_source_count (spec_summary [blank_source_answer]) = 0
  /\ qa_of [blank_source_answer] <> spec_summary [blank_source_answer].
Proof.
  split; [reflexivity|]. split; [reflexivity|]. discriminate.
Qed.

(** C6, amended: the quality summary is a function of the answer list that
    does not depend on its order and returns the count of all answers, of
    those with [is_missing] equal to 1, of those whose confidence level
    stripped of surrounding whitespace equals ["LOW"] case-insensitively, of
    those whose source is absent, empty or whitespace-only, and of those
    whose confidence level is absent, empty or whitespace-only.  The empty
    list gives the all-zero summary, the total is the missing count plus the
    count of the answers that are not missing, and every count lies between
    0 and the total. *)
Theorem qa_summary_is_stripped_reduction (answers : list answer_tuple) :
  qa_of answers = stripped_summary answers
  /\ (forall answers', Permutation answers answers' -> qa_of answers' = qa_of answers)
  /\ qa_of [] =
       {| total_answers := 0; missing_count := 0; low_confidence_count := 0;
          no_source_count := 0; no_confidence_count := 0 |}
  /\ total_answers (qa_of answers) =
       missing_count (qa_of answers)
       + Py.count (fun a => negb (t6_is_missing a =? 1)) answers
  /\ (0 <= missing_count (qa_of answers) <= total_answers (qa_of answers))
  /\ (0 <= low_confidence_count (qa_of answers) <= total_answers (qa_of answers))
  /\ (0 <= no_source_count (qa_of answers) <= total_answers (qa_of answers))
  /\ (0 <= no_confidence_count (qa_of answers) <= total_answers (qa_of answers)).
Proof.
  split; [apply qa_of_stripped|].
  split; [intros answers'; apply qa_of_perm|].
  split; [reflexivity|].
  split; [apply (count_split is_missing_1)|].
  unfold qa_of; simpl.
  repeat split; (apply count_nonneg || apply count_le_length).
Qed.

(** ** The aggregate query against the quality summary *)

Lemma sum_case_count {A : Type} (f : A -> Z) (p : A -> bool) (rows : list A) :
  (forall r, In r rows -> f r = sql_case (p r)) ->
  Py.or_int (sql_sum (map f rows)) = Py.count p rows.
Proof.
  intros H.
  assert (E : fold_right Z.add 0 (map f rows) = Py.count p rows).
  { unfold Py.count. induction rows as [|r rows IH].
    - reflexivity.
    - cbn [map fold_right filter]. rewrite IH by (intros; apply H; now right).
      rewrite (H r) by now left.
      destruct (p r); cbn [sql_case List.length];
        rewrite ?Nat2Z.inj_succ; lia. }
  destruct rows as [|r rows]; [reflexivity|].
  cbn [map sql_sum Py.or_int] in *. exact E.
Qed.

(** On rows whose flags are 0 or 1 and whose source and confidence level are
    stored stripped and in upper case, the aggregate query and the quality
    summary of [get_survey_details] count alike. *)
Lemma aggregate_matches_summary_on_normal_rows (st : store) (sid : Z) :
  (forall r, In r (survey_answers st) -> a_survey_id r = sid -> normal_row r) ->
  aggregate_counts (answer_aggregate st sid)
  = qa_of (map answer_tuple_of (select_answers st sid)).
Proof.
  intros Hn. unfold answer_aggregate, select_answers.
  set (rows := filter (fun r => a_survey_id r =? sid) (survey_answers st)).
  assert (Hrows : forall r, In r rows -> normal_row r).
  { intros r Hr. apply filter_In in Hr as [Hr E]. apply Hn; auto.
    now apply Z.eqb_eq. }
  pose proof (sort_asc_perm Z.ltb a_id rows) as Hp.
  unfold qa_of, aggregate_counts, aggregate_rows; cbn [m_total m_missing m_low_conf m_no_source m_no_conf Py.or_int].
  rewrite length_map, (Permutation_length Hp), !count_map, !(count_perm _ _ _ Hp).
  f_equal.
  - apply sum_case_count. intros r Hr.
    destruct (Hrows r Hr) as ([E | E] & _ & _);
      unfold is_missing_1, answer_tuple_of; cbn; rewrite E; reflexivity.
  - apply sum_case_count. intros r Hr.
    destruct (Hrows r Hr) as (_ & _ & Hc).
    unfold is_low_confidence, answer_tuple_of; cbn.
    rewrite or_str_empty.
    destruct (a_confidence_level r) as [s|]; cbn in *; [|reflexivity].
    destruct Hc as [-> ->]. reflexivity.
  - apply sum_case_count. intros r Hr.
    destruct (Hrows r Hr) as (_ & Hs & _).
    unfold has_no_source, answer_tuple_of; cbn.
    rewrite or_str_empty.
    destruct (a_answer_source r) as [s|]; cbn in *; [|reflexivity].
    destruct Hs as [-> _]. now destruct s.
  - apply sum_case_count. intros r Hr.
    destruct (Hrows r Hr) as (_ & _ & Hc).
    unfold has_no_confidence, answer_tuple_of; cbn.
    rewrite or_str_empty.
    destruct (a_confidence_level r) as [s|]; cbn in *; [|reflexivity].
    destruct Hc as [-> _]. now destruct s.
Qed.

(** C2 at [lowercase_store]: the aggregate query of the alert engine counts
    no low-confidence answer for survey 1, and the quality summary that
    [get_survey_details] computes from the rows of the same survey counts
    one. *)
Theorem aggregate_misses_lowercase_low :
  aggregate_counts (answer_aggregate lowercase_store 1) =
    {| total_answers := 1; missing_count := 0; low_confidence_count := 0;
       no_source_count := 0; no_confidence_count := 0 |}
  /\ match get_survey_details lowercase_store 1 with
     | Ok (_, _, qa) =>
         qa = {| total_answers := 1; missing_count := 0; low_confidence_count := 1;
                 no_source_count := 0; no_confidence_count := 0 |}
     | Raise _ => False
     end.
Proof. split; reflexivity. Qed.

(** ** Survey detail assembly *)

Lemma select_header_In (st : store) (survey_id : Z) (h : header) :
  In h (select_header st survey_id)
  <-> exists s f, In s (surveys st) /\ In f (facilities st)
                  /\ s_id s = survey_id /\ f_id f = s_facility_id s
                  /\ h = {| h_id := s_id s; h_facility_id := s_facility_id s;
                            h_facility_name := f_name f;
                            h_template_id := s_template_id s;
                            h_survey_type := s_survey_type s;
                            h_enumerator_name := s_enumerator_name s;
                            h_status := s_status s;
                            h_created_at := s_created_at s |}.
Proof.
  unfold select_header. rewrite in_flat_map. split.
  - intros (s & Hs & Hh).
    destruct (s_id s =? survey_id) eqn:Eid; [|destruct Hh].
    apply in_map_iff in Hh as (f & <- & Hf). apply filter_In in Hf as [Hf Efid].
    exists s, f. repeat split; auto; now apply Z.eqb_eq.
  - intros (s & f & Hs & Hf & Hid & Hfid & ->).
    exists s. split; [exact Hs|].
    rewrite (proj2 (Z.eqb_eq _ _) Hid).
    apply in_map_iff. exists f. split; [reflexivity|].
    apply filter_In. split; [exact Hf|]. now apply Z.eqb_eq.
Qed.

Lemma select_header_nil_iff (st : store) (survey_id : Z) :
  select_header st survey_id = []
  <-> ~ exists s f, In s (surveys st) /\ In f (facilities st)
                    /\ s_id s = survey_id /\ f_id f = s_facility_id s.
Proof.
  split.
  - intros E (s & f & Hs & Hf & Hid & Hfid).
    assert (H : In {| h_id := s_id s; h_facility_id := s_facility_id s;
                      h_facility_name := f_name f;
                      h_template_id := s_template_id s;
                      h_survey_type := s_survey_type s;
                      h_enumerator_name := s_enumerator_name s;
                      h_status := s_status s;
                      h_created_at := s_created_at s |}
                 (select_header st survey_id)).
    { apply select_header_In. exists s, f. repeat split; auto. }
    rewrite E in H. destruct H.
  - intros Hno. destruct (select_header st survey_id) as [|h rest] eqn:E;
      [reflexivity|].
    exfalso. apply Hno.
    assert (Hin : In h (select_header st survey_id)) by (rewrite E; now left).
    apply select_header_In in Hin as (s & f & Hs & Hf & Hid & Hfid & _).
    now exists s, f.
Qed.

(** [get_survey_details] raises exactly when the join of the survey with
    its facility has no row; otherwise it returns the header, the answers
    and the summary of those answers. *)
Lemma get_survey_details_cases (st : store) (survey_id : Z) :
  (get_survey_details st survey_id = Raise "Survey not found."
   /\ select_header st survey_id = [])
  \/ (exists h,
        hd_error (select_header st survey_id) = Some h
        /\ get_survey_details st survey_id =
             Ok (h, map answer_tuple_of (select_answers st survey_id),
                 qa_of (map answer_tuple_of (select_answers st survey_id)))).
Proof.
  unfold get_survey_details.
  destruct (select_header st survey_id) as [|h rest]; simpl.
  - now left.
  - right. now exists h.
Qed.

(** When every survey points to a stored facility, [get_survey_details]
    raises exactly for the ids of no survey. *)
Lemma get_survey_details_raises_iff (st : store) (survey_id : Z) :
  (forall s, In s (surveys st) ->
     exists f, In f (facilities st) /\ f_id f = s_facility_id s) ->
  (get_survey_details st survey_id = Raise "Survey not found."
   <-> ~ exists s, In s (surveys st) /\ s_id s = survey_id).
Proof.
  intros Href.
  destruct (get_survey_details_cases st survey_id) as [[E Hnil] | (h & Hh & E)];
    rewrite E.
  - split; [|reflexivity]. intros _ (s & Hs & Hid).
    apply select_header_nil_iff in Hnil. apply Hnil.
    destruct (Href s Hs) as (f & Hf & Hfid). now exists s, f.
  - split; [discriminate|]. intros Hno. exfalso. apply Hno.
    assert (Hin : In h (select_header st survey_id)).
    { destruct (select_header st survey_id) as [|h' rest]; [discriminate|].
      injection Hh as ->. now left. }
    apply select_header_In in Hin as (s & f & Hs & _ & Hid & _).
    now exists s.
Qed.

(** [ORDER BY id ASC] returns the rows in insertion order when the ids grow
    with each insert. *)
Lemma sort_asc_sorted_id {A : Type} (id : A -> Z) (l : list A) :
  StronglySorted (fun a b => id a < id b) l -> sort_asc Z.ltb id l = l.
Proof.
  induction 1 as [|x l Hs IH Hx]; simpl.
  - reflexivity.
  - rewrite IH. destruct l as [|y l]; simpl; [reflexivity|].
    inversion Hx as [|? ? Hxy _]; subst.
    assert (E : (id y <? id x) = false) by (apply Z.ltb_ge; lia).
    now rewrite E.
Qed.

Lemma select_answers_insertion_order (st : store) (survey_id : Z) :
  StronglySorted (fun a b => a_id a < a_id b) (survey_answers st) ->
  select_answers st survey_id
  = filter (fun r => a_survey_id r =? survey_id) (survey_answers st).
Proof.
  intros Hs. unfold select_answers. apply sort_asc_sorted_id.
  induction Hs as [|x l Hs IH Hx]; simpl.
  - constructor.
  - destruct (a_survey_id x =? survey_id); [|exact IH].
    constructor; [exact IH|].
    apply Forall_forall. intros y Hy. apply filter_In in Hy as [Hy _].
    rewrite Forall_forall in Hx. now apply Hx.
Qed.

(** C8 at [dangling_store]: survey 1 is stored, its facility 7 is not, and
    [get_survey_details 1] raises the error of a survey that does not
    exist. *)
Theorem details_raise_for_stored_survey :
  In (sample_survey 1 7 "ada" "DRAFT") (surveys dangling_store)
  /\ s_id (sample_survey 1 7 "ada" "DRAFT") = 1
  /\ get_survey_details dangling_store 1 = Raise "Survey not found.".
Proof.
  split; [now left|]. split; reflexivity.
Qed.

(** ** Writers of the store *)

Lemma next_rowid_above (ids : list Z) (id : Z) :
  In id ids -> id < next_rowid ids.
Proof.
  unfold next_rowid. induction ids as [|x ids IH]; cbn [fold_right In].
  - tauto.
  - intros [-> | H]; [lia|]. specialize (IH H). lia.
Qed.

Lemma next_rowid_fresh (ids : list Z) : ~ In (next_rowid ids) ids.
Proof. intros H. apply next_rowid_above in H. lia. Qed.

Lemma whitespace_only_not_str (s : string) :
  Py.not_str (Py.strip s) = Py.whitespace_only s.
Proof. apply not_str_strip. Qed.

Lemma eqb_empty_whitespace (s : string) :
  String.eqb (Py.strip s) "" = Py.whitespace_only s.
Proof.
  rewrite <- not_str_strip. now destruct (Py.strip s).
Qed.

Lemma add_answer_binds (now : string) (survey_id : Z) (q a : string)
  (template_question_id : option Z) (answer_source confidence_level : option string)
  (is_missing : Z) (missing_reason : option string) :
  let cols := _table_columns "survey_answers" in
  forallb (fun f => bindable (snd f))
    (append_if_column cols "missing_reason" (sql_opt_text missing_reason)
       (append_if_column cols "is_missing" (SqlInt is_missing)
          (append_if_column cols "confidence_level" (sql_opt_text confidence_level)
             (append_if_column cols "answer_source" (sql_opt_text answer_source)
                (append_if_column cols "template_question_id"
                   (sql_opt_int template_question_id)
                   [("survey_id", SqlInt survey_id); ("question", SqlText q);
                    ("answer", SqlText a); ("created_at", SqlText now)])))))
  = answer_ints_fit survey_id template_question_id is_missing.
Proof.
  unfold answer_ints_fit.
  destruct template_question_id, answer_source, confidence_level, missing_reason;
    cbn -[sqlite_int]; rewrite ?andb_true_r, ?andb_assoc; reflexivity.
Qed.

Lemma add_answer_inserts now survey_id question answer template_question_id
  answer_source confidence_level is_missing missing_reason st :
  Py.whitespace_only (Py.or_str question "") = false ->
  Py.whitespace_only (Py.or_str answer "") = false \/ is_missing <> 0 ->
  answer_ints_fit survey_id template_question_id is_missing = true ->
  add_answer now survey_id question answer template_question_id answer_source
    confidence_level is_missing missing_reason st
  = ({| facilities := facilities st;
        surveys := surveys st;
        survey_answers :=
          survey_answers st
          ++ [added_answer now survey_id question answer template_question_id
                answer_source confidence_level is_missing missing_reason st] |},
     Ok (next_rowid (map a_id (survey_answers st)))).
Proof.
  intros Hq Ha Hfit. unfold add_answer.
  rewrite whitespace_only_not_str, Hq, eqb_empty_whitespace.
  assert (E : Py.whitespace_only (Py.or_str answer "") && (is_missing =? 0) = false).
  { destruct Ha as [-> | Hm]; [reflexivity|].
    apply andb_false_intro2. now apply Z.eqb_neq. }
  rewrite E, (add_answer_binds now), Hfit. cbn [negb].
  unfold insert_answer, added_answer, answer_row_of.
  destruct template_question_id, answer_source, confidence_level, missing_reason;
    reflexivity.
Qed.

Lemma add_answer_overflows now survey_id question answer template_question_id
  answer_source confidence_level is_missing missing_reason st :
  Py.whitespace_only (Py.or_str question "") = false ->
  Py.whitespace_only (Py.or_str answer "") = false \/ is_missing <> 0 ->
  answer_ints_fit survey_id template_question_id is_missing = false ->
  add_answer now survey_id question answer template_question_id answer_source
    confidence_level is_missing missing_reason st
  = (st, Raise overflow_message).
Proof.
  intros Hq Ha Hfit. unfold add_answer.
  rewrite whitespace_only_not_str, Hq, eqb_empty_whitespace.
  assert (E : Py.whitespace_only (Py.or_str answer "") && (is_missing =? 0) = false).
  { destruct Ha as [-> | Hm]; [reflexivity|].
    apply andb_false_intro2. now apply Z.eqb_neq. }
  now rewrite E, (add_answer_binds now), Hfit.
Qed.

Lemma sqlite_int_iff (z : Z) : sqlite_int z = true <-> - 2 ^ 63 <= z < 2 ^ 63.
Proof. unfold sqlite_int. rewrite andb_true_iff, Z.leb_le, Z.ltb_lt. tauto. Qed.

Lemma answer_ints_fit_iff (survey_id : Z) (template_question_id : option Z)
  (is_missing : Z) :
  answer_ints_fit survey_id template_question_id is_missing = true
  <-> (- 2 ^ 63 <= survey_id < 2 ^ 63
       /\ (forall z, template_question_id = Some z -> - 2 ^ 63 <= z < 2 ^ 63)
       /\ - 2 ^ 63 <= is_missing < 2 ^ 63).
Proof.
  unfold answer_ints_fit. rewrite !andb_true_iff, !sqlite_int_iff.
  destruct template_question_id as [z|].
  - rewrite sqlite_int_iff. split.
    + intros [[H1 H2] H3]. split; [exact H1|]. split; [|exact H3].
      intros z' E. now injection E as <-.
    + intros (H1 & H2 & H3). split; [split; [exact H1 | now apply H2] | exact H3].
  - split.
    + intros [[H1 _] H3]. split; [exact H1|]. split; [|exact H3]. discriminate.
    + intros (H1 & _ & H3). now repeat split.
Qed.

(** C10, as the code has it: [add_answer] raises, and leaves the store as it
    was, when the question is empty or whitespace-only, and when the answer
    is empty or whitespace-only while [is_missing] is 0; on every other
    call whose survey id, template question id (when one is given) and
    [is_missing] are signed 64-bit numbers it appends exactly one row to
    [survey_answers], with the question and the answer stripped, under an
    id that no stored answer has, and returns that id; and on every other
    call with one of these integers outside that range it raises
    [OverflowError] and leaves the store as it was. *)
Theorem add_answer_raises_or_inserts now survey_id question answer
  template_question_id answer_source confidence_level is_missing missing_reason st :
  let q := Py.or_str question "" in
  let a := Py.or_str answer "" in
  let outcome :=
    add_answer now survey_id question answer template_question_id answer_source
      confidence_level is_missing missing_reason st in
  let row :=
    added_answer now survey_id question answer template_question_id answer_source
      confidence_level is_missing missing_reason st in
  let fit :=
    - 2 ^ 63 <= survey_id < 2 ^ 63
    /\ (forall z, template_question_id = Some z -> - 2 ^ 63 <= z < 2 ^ 63)
    /\ - 2 ^ 63 <= is_missing < 2 ^ 63 in
  (Py.whitespace_only q = true ->
   outcome = (st, Raise "question is required"))
  /\ (Py.whitespace_only q = false -> Py.whitespace_only a = true -> is_missing = 0 ->
      outcome = (st, Raise "answer is required unless is_missing=1"))
  /\ (Py.whitespace_only q = false ->
      Py.whitespace_only a = false \/ is_missing <> 0 ->
      fit ->
      outcome =
        ({| facilities := facilities st;
            surveys := surveys st;
            survey_answers := (survey_answers st ++ [row])%list |}, Ok (a_id row))
      /\ ~ In (a_id row) (map a_id (survey_answers st))
      /\ a_survey_id row = survey_id
      /\ a_question row = Py.strip q
      /\ a_answer row = Some (Py.strip a)
      /\ a_is_missing row = is_missing)
  /\ (Py.whitespace_only q = false ->
      Py.whitespace_only a = false \/ is_missing <> 0 ->
      ~ fit ->
      outcome = (st, Raise "Python int too large to convert to SQLite INTEGER")).
Proof.
  cbv zeta. split; [|split; [|split]].
  - intros Hq. unfold add_answer. now rewrite whitespace_only_not_str, Hq.
  - intros Hq Ha ->. unfold add_answer.
    now rewrite whitespace_only_not_str, Hq, eqb_empty_whitespace, Ha.
  - intros Hq Ha Hfit. apply answer_ints_fit_iff in Hfit.
    split; [now apply add_answer_inserts|].
    split; [apply next_rowid_fresh|]. repeat split.
  - intros Hq Ha Hfit. apply add_answer_overflows; [exact Hq | exact Ha|].
    destruct (answer_ints_fit survey_id template_question_id is_missing) eqn:E;
      [|reflexivity].
    apply answer_ints_fit_iff in E. now contradiction Hfit.
Qed.

(** A call with a question and an answer, [is_missing] 0 and the survey id
    [2 ^ 63]: it raises [OverflowError] and stores no row. *)
Lemma add_answer_rejects_large_survey_id :
  let outcome :=
    add_answer "2024-05-02T08:00:00" (2 ^ 63) (Some "Water source?")
      (Some "Borehole") None None None 0 None ranking_store in
  Py.whitespace_only "Water source?" = false
  /\ Py.whitespace_only "Borehole" = false
  /\ outcome
     = (ranking_store, Raise "Python int too large to convert to SQLite INTEGER")
  /\ (forall id, snd outcome <> Ok id)
  /\ survey_answers (fst outcome) = survey_answers ranking_store.
Proof.
  cbv zeta. split; [reflexivity|]. split; [reflexivity|]. split; [reflexivity|].
  split; [intros id H; discriminate H | reflexivity].
Qed.

Lemma add_answer_raises_or_inserts_witness :
  add_answer "2024-05-02T08:00:00" 1 (Some " Water source? ") (Some " Borehole ")
    None (Some "OBSERVED") None 0 None ranking_store
  = ({| facilities := facilities ranking_store;
        surveys := surveys ranking_store;
        survey_answers :=
          (survey_answers ranking_store
           ++ [{| a_id := 5; a_survey_id := 1; a_template_question_id := None;
                  a_question := "Water source?"; a_answer := Some "Borehole";
                  a_answer_source := Some "OBSERVED"; a_confidence_level := None;
                  a_is_missing := 0; a_missing_reason := None;
                  a_created_at := "2024-05-02T08:00:00" |}])%list |}, Ok 5)
  /\ add_answer "2024-05-02T08:00:00" 1 (Some "Water source?") None None None None
       (- 2 ^ 63 - 1) None ranking_store
     = (ranking_store, Raise "Python int too large to convert to SQLite INTEGER").
Proof.
  pose proof (add_answer_raises_or_inserts "2024-05-02T08:00:00" 1
                (Some " Water source? ") (Some " Borehole ") None (Some "OBSERVED")
                None 0 None ranking_store) as (_ & _ & Hin & _).
  pose proof (add_answer_raises_or_inserts "2024-05-02T08:00:00" 1
                (Some "Water source?") None None None None (- 2 ^ 63 - 1) None
                ranking_store) as (_ & _ & _ & Hout).
  split.
  - refine (proj1 (Hin eq_refl (or_introl eq_refl) _)).
    split; [lia|]. split; [discriminate | lia].
  - apply (Hout eq_refl).
    + right. lia.
    + intros (_ & _ & H). lia.
Defined.

(** The three branches of [add_answer] on [ranking_store]. *)
Lemma add_answer_examples :
  let now := "2024-05-02T08:00:00" in
  add_answer now 1 (Some "  ") (Some "Borehole") None None None 0 None ranking_store
  = (ranking_store, Raise "question is required")
  /\ add_answer now 1 (Some "Water source?") (Some " ") None None None 0 None
       ranking_store
     = (ranking_store, Raise "answer is required unless is_missing=1")
  /\ snd (add_answer now 1 (Some " Water source? ") None None None None 1
            (Some "REFUSED") ranking_store)
     = Ok 5
  /\ map a_question
       (survey_answers
          (fst (add_answer now 1 (Some " Water source? ") None None None None 1
                  (Some "REFUSED") ranking_store)))
     = ["Water source?"; "Water source?"; "Water source?"; "Water source?";
        "Water source?"].
Proof. repeat split; reflexivity. Qed.

(** Only [create_survey] and [complete_survey] write the [surveys] table. *)
Lemma add_answer_surveys now survey_id question answer template_question_id
  answer_source confidence_level is_missing missing_reason st :
  surveys (fst (add_answer now survey_id question answer template_question_id
                  answer_source confidence_level is_missing missing_reason st))
  = surveys st.
Proof.
  unfold add_answer.
  destruct (Py.not_str _); [reflexivity|].
  destruct (_ && _); [reflexivity|].
  destruct (negb _); reflexivity.
Qed.

Lemma upsert_surveys now survey_id template_question_id question_text answer
  source confidence is_missing missing_reason st :
  surveys (fst (_upsert_template_answer now survey_id template_question_id
                  question_text answer source confidence is_missing
                  missing_reason st))
  = surveys st.
Proof.
  unfold _upsert_template_answer.
  destruct (hd_error _); [reflexivity|].
  pose proof (add_answer_surveys now survey_id (Some question_text) (Some answer)
                (Some template_question_id) source confidence is_missing
                missing_reason st) as H.
  destruct (add_answer _ _ _ _ _ _ _ _ _ _) as [st' [id|msg]]; exact H.
Qed.

Lemma add_facility_surveys name st :
  surveys (fst (add_facility name st)) = surveys st.
Proof. unfold add_facility. destruct (Py.not_str _); reflexivity. Qed.

Lemma create_survey_appends now facility_id survey_type enumerator_name template_id st :
  create_survey now facility_id survey_type enumerator_name template_id st
  = ({| facilities := facilities st;
        surveys :=
          surveys st
          ++ [{| s_id := next_rowid (map s_id (surveys st));
                 s_facility_id := facility_id;
                 s_template_id := template_id;
                 s_survey_type := survey_type;
                 s_enumerator_name := enumerator_name;
                 s_status := "DRAFT";
                 s_created_at := now |}];
        survey_answers := survey_answers st |},
     next_rowid (map s_id (surveys st))).
Proof.
  unfold create_survey, insert_survey, survey_row_of.
  destruct template_id; reflexivity.
Qed.

(** What one call does to the [surveys] table: each row it leaves is a row
    that was there, or such a row completed by [complete_survey], or the row
    [create_survey] adds as a draft under a new id. *)
Lemma step_status (o : op) (st : store) (r' : survey_row) :
  In r' (surveys (step o st)) ->
  In r' (surveys st)
  \/ (exists r, In r (surveys st) /\ o = Complete_survey (s_id r)
                /\ s_id r' = s_id r /\ s_status r' = "COMPLETED")
  \/ (s_status r' = "DRAFT" /\ ~ In (s_id r') (map s_id (surveys st))
      /\ exists now fid ty en tid, o = Create_survey now fid ty en tid).
Proof.
  destruct o as [name | now fid ty en tid | now sid q a tq src conf im mr
                 | now sid tq q a src conf im mr | sid]; cbn [step].
  - rewrite add_facility_surveys. now left.
  - rewrite create_survey_appends. cbn [fst surveys]. intros H.
    apply in_app_or in H as [H | [<- | []]]; [now left|].
    right; right. cbn. split; [reflexivity|]. split; [apply next_rowid_fresh|].
    now exists now, fid, ty, en, tid.
  - rewrite add_answer_surveys. now left.
  - rewrite upsert_surveys. now left.
  - unfold complete_survey; cbn [surveys]. intros H.
    apply in_map_iff in H as (r & <- & Hr).
    destruct (s_id r =? sid) eqn:E; [|now left].
    right; left. exists r. apply Z.eqb_eq in E. subst sid. now repeat split.
Qed.

Lemma step_keeps_ids (o : op) (st : store) (sid : Z) :
  In sid (map s_id (surveys st)) -> In sid (map s_id (surveys (step o st))).
Proof.
  destruct o as [name | now fid ty en tid | now sid' q a tq src conf im mr
                 | now sid' tq q a src conf im mr | sid']; cbn [step].
  - now rewrite add_facility_surveys.
  - rewrite create_survey_appends. cbn [fst surveys].
    rewrite map_app. intros H. apply in_or_app. now left.
  - now rewrite add_answer_surveys.
  - now rewrite upsert_surveys.
  - unfold complete_survey; cbn [surveys]. rewrite map_map.
    intros H. apply in_map_iff in H as (r & <- & Hr).
    apply in_map_iff. exists r. split; [|exact Hr].
    now destruct (s_id r =? sid').
Qed.

Lemma step_completed (o : op) (st : store) (sid : Z) :
  completed_in sid st -> completed_in sid (step o st).
Proof.
  intros [Hid Hc]. split; [now apply step_keeps_ids|].
  intros r' Hr' E.
  destruct (step_status o st r' Hr') as [H | [(r & Hr & _ & _ & Hs) | (_ & Hfresh & _)]].
  - now apply Hc.
  - exact Hs.
  - exfalso. apply Hfresh. now rewrite E.
Qed.

Lemma run_completed (ops : list op) (st : store) (sid : Z) :
  completed_in sid st -> completed_in sid (run ops st).
Proof.
  revert st. unfold run. induction ops as [|o ops IH]; intros st H; simpl.
  - exact H.
  - apply IH. now apply step_completed.
Qed.

(** What [complete_survey] does to the [surveys] table: the rows keep their
    ids and their order, each row of the given id is the stored row with
    the status COMPLETED, and every other row is as it was. *)
Lemma complete_survey_sets (sid : Z) (st : store) :
  map s_id (surveys (complete_survey sid st)) = map s_id (surveys st)
  /\ (forall r, In r (surveys st) -> s_id r = sid ->
        In {| s_id := s_id r;
              s_facility_id := s_facility_id r;
              s_template_id := s_template_id r;
              s_survey_type := s_survey_type r;
              s_enumerator_name := s_enumerator_name r;
              s_status := "COMPLETED";
              s_created_at := s_created_at r |}
           (surveys (complete_survey sid st)))
  /\ (forall r', In r' (surveys (complete_survey sid st)) -> s_id r' = sid ->
        s_status r' = "COMPLETED")
  /\ (forall r, s_id r <> sid ->
        (In r (surveys (complete_survey sid st)) <-> In r (surveys st))).
Proof.
  unfold complete_survey; cbn [surveys]. split; [|split; [|split]].
  - rewrite map_map. apply map_ext. intros r. now destruct (s_id r =? sid).
  - intros r Hr E. apply in_map_iff. exists r. split; [|exact Hr].
    now rewrite (proj2 (Z.eqb_eq _ _) E).
  - intros r' Hr' E. apply in_map_iff in Hr' as (r & <- & Hr).
    destruct (s_id r =? sid) eqn:Er; [reflexivity|].
    apply Z.eqb_neq in Er. now contradiction Er.
  - intros r Hne. rewrite in_map_iff. split.
    + intros (x & Ex & Hx). destruct (s_id x =? sid) eqn:E.
      * apply Z.eqb_eq in E. subst r. cbn [s_id] in Hne. now contradiction Hne.
      * now subst x.
    + intros Hr. exists r. split; [|exact Hr].
      now rewrite (proj2 (Z.eqb_neq _ _) Hne).
Qed.

Lemma complete_survey_completes (sid : Z) (st : store) :
  In sid (map s_id (surveys st)) -> completed_in sid (complete_survey sid st).
Proof.
  intros Hid. destruct (complete_survey_sets sid st) as (Eids & _ & Hc & _).
  split; [now rewrite Eids | exact Hc].
Qed.

Lemma run_app (before after : list op) (st : store) :
  run (before ++ after) st = run after (run before st).
Proof. unfold run. apply fold_left_app. Qed.

Lemma run_statuses (ops : list op) (st : store) :
  (forall r, In r (surveys st) -> s_status r = "DRAFT" \/ s_status r = "COMPLETED") ->
  forall r', In r' (surveys (run ops st)) ->
    s_status r' = "DRAFT" \/ s_status r' = "COMPLETED".
Proof.
  revert st. unfold run. induction ops as [|o ops IH]; intros st H; simpl.
  - exact H.
  - apply IH. intros r Hr.
    destruct (step_status o st r Hr) as [Hin | [(x & _ & _ & _ & Hs) | (Hs & _)]];
      [now apply H | now right | now left].
Qed.

(** C9: [create_survey] stores the new survey as a draft under an id no
    survey had; a call changes the status of a stored survey only if it is
    [complete_survey] on that survey, and then to COMPLETED;
    [complete_survey] sets the status of the stored survey of the given id
    to COMPLETED, keeps its other columns and leaves every other survey and
    the other tables as they are; after any sequence of calls a survey that
    was completed is still completed, so never a draft again, and so is a
    stored survey once [complete_survey] has been called on it, whatever is
    called afterwards; and if every stored status is DRAFT or COMPLETED,
    that is so after any sequence of calls. *)
Theorem survey_status_is_monotonic (st : store) :
  (forall now facility_id survey_type enumerator_name template_id,
     exists row,
       create_survey now facility_id survey_type enumerator_name template_id st
       = ({| facilities := facilities st;
             surveys := (surveys st ++ [row])%list;
             survey_answers := survey_answers st |}, s_id row)
       /\ s_status row = "DRAFT"
       /\ ~ In (s_id row) (map s_id (surveys st)))
  /\ (forall o r', In r' (surveys (step o st)) ->
        In r' (surveys st)
        \/ (exists r, In r (surveys st) /\ o = Complete_survey (s_id r)
                      /\ s_id r' = s_id r /\ s_status r' = "COMPLETED")
        \/ (s_status r' = "DRAFT" /\ ~ In (s_id r') (map s_id (surveys st))
            /\ exists now fid ty en tid, o = Create_survey now fid ty en tid))
  /\ (forall ops sid, completed_in sid st ->
        completed_in sid (run ops st)
        /\ forall r', In r' (surveys (run ops st)) -> s_id r' = sid ->
                      s_status r' <> "DRAFT")
  /\ (forall sid,
        map s_id (surveys (complete_survey sid st)) = map s_id (surveys st)
        /\ (forall r, In r (surveys st) -> s_id r = sid ->
              In {| s_id := s_id r;
                    s_facility_id := s_facility_id r;
                    s_template_id := s_template_id r;
                    s_survey_type := s_survey_type r;
                    s_enumerator_name := s_enumerator_name r;
                    s_status := "COMPLETED";
                    s_created_at := s_created_at r |}
                 (surveys (complete_survey sid st)))
        /\ (forall r', In r' (surveys (complete_survey sid st)) -> s_id r' = sid ->
              s_status r' = "COMPLETED")
        /\ (forall r, s_id r <> sid ->
              (In r (surveys (complete_survey sid st)) <-> In r (surveys st)))
        /\ facilities (complete_survey sid st) = facilities st
        /\ survey_answers (complete_survey sid st) = survey_answers st)
  /\ (forall before after sid,
        In sid (map s_id (surveys (run before st))) ->
        completed_in sid (run (before ++ Complete_survey sid :: after) st)
        /\ forall r',
             In r' (surveys (run (before ++ Complete_survey sid :: after) st)) ->
             s_id r' = sid -> s_status r' = "COMPLETED")
  /\ ((forall r, In r (surveys st) ->
         s_status r = "DRAFT" \/ s_status r = "COMPLETED") ->
      forall ops r', In r' (surveys (run ops st)) ->
        s_status r' = "DRAFT" \/ s_status r' = "COMPLETED").
Proof.
  split; [|split; [|split; [|split; [|split]]]].
  - intros now facility_id survey_type enumerator_name template_id.
    rewrite create_survey_appends.
    exists {| s_id := next_rowid (map s_id (surveys st));
              s_facility_id := facility_id;
              s_template_id := template_id;
              s_survey_type := survey_type;
              s_enumerator_name := enumerator_name;
              s_status := "DRAFT";
              s_created_at := now |}.
    split; [reflexivity|]. split; [reflexivity|]. apply next_rowid_fresh.
  - intros o r'. apply step_status.
  - intros ops sid H. pose proof (run_completed ops st sid H) as [Hid Hc].
    split; [now split|]. intros r' Hr' E. rewrite (Hc r' Hr' E). discriminate.
  - intros sid. destruct (complete_survey_sets sid st) as (H1 & H2 & H3 & H4).
    split; [exact H1|]. split; [exact H2|]. split; [exact H3|].
    split; [exact H4|]. split; reflexivity.
  - intros before after sid Hid.
    assert (H : completed_in sid (run (before ++ Complete_survey sid :: after) st)).
    { rewrite run_app. change (Complete_survey sid :: after)
        with ([Complete_survey sid] ++ after)%list.
      rewrite run_app. apply run_completed. cbn [run fold_left step].
      now apply complete_survey_completes. }
    split; [exact H | exact (proj2 H)].
  - intros H ops. now apply run_statuses.
Qed.

(** In [ranking_store] survey 3 is a draft.  Completing it, after a survey
    was created and before an answer is added and another survey created,
    leaves it completed; the two surveys created are drafts. *)
Lemma survey_status_is_monotonic_witness :
  let ops :=
    [Create_survey "2024-05-02T08:00:00" 1 "Manual Survey" "ada" None;
     Complete_survey 3;
     Add_answer "2024-05-02T08:05:00" 3 (Some "Water source?") (Some "Borehole")
       None None None 0 None;
     Create_survey "2024-05-02T08:10:00" 1 "Manual Survey" "bob" None] in
  map s_status (surveys ranking_store) = ["COMPLETED"; "COMPLETED"; "DRAFT"; "COMPLETED"]
  /\ map s_status (surveys (run ops ranking_store))
     = ["COMPLETED"; "COMPLETED"; "COMPLETED"; "COMPLETED"; "DRAFT"; "DRAFT"]
  /\ completed_in 3 (run ops ranking_store).
Proof.
  cbv zeta. split; [reflexivity|]. split; [reflexivity|].
  refine (proj1 (proj1 (proj2 (proj2 (proj2 (proj2
            (survey_status_is_monotonic ranking_store)))))
            [Create_survey "2024-05-02T08:00:00" 1 "Manual Survey" "ada" None]
            [Add_answer "2024-05-02T08:05:00" 3 (Some "Water source?")
               (Some "Borehole") None None None 0 None;
             Create_survey "2024-05-02T08:10:00" 1 "Manual Survey" "bob" None]
            3 _)).
  cbn. tauto.
Defined.

(** ** The order and the product of binary64 *)

(** The order of binary64: [<] and [<=] agree, [<=] is transitive, and two
    floats that are not NaN are comparable. *)
Ltac compare_cases :=
  repeat match goal with
  | H : context [Pos.compare_cont Eq ?a ?b] |- _ =>
      change (Pos.compare_cont Eq a b) with (Pos.compare a b) in H
  | |- context [Pos.compare_cont Eq ?a ?b] =>
      change (Pos.compare_cont Eq a b) with (Pos.compare a b)
  end;
  repeat match goal with
  | H : context [Z.compare ?a ?b] |- _ => destruct (Z.compare_spec a b); cbn in H
  | |- context [Z.compare ?a ?b] => destruct (Z.compare_spec a b); cbn
  | H : context [Pos.compare ?a ?b] |- _ => destruct (Pos.compare_spec a b); cbn in H
  | |- context [Pos.compare ?a ?b] => destruct (Pos.compare_spec a b); cbn
  end; try congruence; try lia.

Lemma SFltb_SFleb (a b : spec_float) :
  SFltb a b = true -> SFleb a b = true /\ SFleb b a = false.
Proof.
  unfold SFltb, SFleb, SFcompare.
  destruct a as [sa|sa| |sa ma ea], b as [sb|sb| |sb mb eb];
    try destruct sa; try destruct sb; cbn; intros H;
    try discriminate H; auto; compare_cases.
Qed.

Lemma SFleb_trans (a b c : spec_float) :
  SFleb a b = true -> SFleb b c = true -> SFleb a c = true.
Proof.
  unfold SFleb, SFcompare.
  destruct a as [sa|sa| |sa ma ea], b as [sb|sb| |sb mb eb],
    c as [sc|sc| |sc mc ec];
    try destruct sa; try destruct sb; try destruct sc; cbn; intros H1 H2;
    try discriminate H1; try discriminate H2; auto; compare_cases.
Qed.

Lemma SFleb_total (a b : spec_float) :
  a <> S754_nan -> b <> S754_nan -> SFltb a b = false -> SFleb b a = true.
Proof.
  unfold SFltb, SFleb, SFcompare.
  destruct a as [sa|sa| |sa ma ea], b as [sb|sb| |sb mb eb];
    try destruct sa; try destruct sb; cbn; intros Ha Hb H;
    try discriminate H; try congruence; auto; compare_cases.
Qed.

Lemma not_nan_spec (x : float) : PrimFloat.is_nan x = false -> Prim2SF x <> S754_nan.
Proof.
  unfold PrimFloat.is_nan. rewrite FloatAxioms.eqb_spec. intros H E.
  rewrite E in H. discriminate H.
Qed.

Lemma float_lt_not_ge (x y : float) :
  PrimFloat.ltb x y = true -> float_ge x y = false.
Proof.
  unfold float_ge. rewrite FloatAxioms.ltb_spec, FloatAxioms.leb_spec. intros H.
  now apply SFltb_SFleb in H.
Qed.

Lemma float_lt_ge_flip (x y : float) :
  PrimFloat.ltb x y = true -> float_ge y x = true.
Proof.
  unfold float_ge. rewrite FloatAxioms.ltb_spec, FloatAxioms.leb_spec. intros H.
  now apply SFltb_SFleb in H.
Qed.

Lemma float_not_lt_ge (x y : float) :
  PrimFloat.is_nan x = false -> PrimFloat.is_nan y = false ->
  PrimFloat.ltb x y = false -> float_ge x y = true.
Proof.
  unfold float_ge. rewrite FloatAxioms.ltb_spec, FloatAxioms.leb_spec. intros Hx Hy.
  apply SFleb_total; now apply not_nan_spec.
Qed.

Lemma SFeqb_not_SFltb (a b : spec_float) :
  SFeqb a b = true -> SFltb a b = false /\ SFltb b a = false.
Proof.
  unfold SFeqb, SFltb, SFcompare.
  destruct a as [sa|sa| |sa ma ea], b as [sb|sb| |sb mb eb];
    try destruct sa; try destruct sb; cbn; intros H;
    try discriminate H; auto; compare_cases.
Qed.

(** [x == y] excludes [x < y] and [y < x]. *)
Lemma float_eq_not_lt (x y : float) :
  PrimFloat.eqb x y = true ->
  PrimFloat.ltb x y = false /\ PrimFloat.ltb y x = false.
Proof.
  rewrite FloatAxioms.eqb_spec, !FloatAxioms.ltb_spec. apply SFeqb_not_SFltb.
Qed.

Lemma float_ge_trans (x y z : float) :
  float_ge x y = true -> float_ge y z = true -> float_ge x z = true.
Proof.
  unfold float_ge. rewrite !FloatAxioms.leb_spec. intros Hyx Hzy.
  eapply SFleb_trans; eassumption.
Qed.

(** The product of two floats does not depend on their order. *)
Lemma SFmul_comm (x y : spec_float) : SF64mul x y = SF64mul y x.
Proof.
  unfold SF64mul, SFmul.
  destruct x as [sx|sx| |sx mx ex], y as [sy|sy| |sy my ey];
    rewrite ?(xorb_comm sy sx), ?(Pos.mul_comm my mx), ?(Z.add_comm ey ex);
    reflexivity.
Qed.

Lemma float_mul_comm (x y : float) : PrimFloat.mul x y = PrimFloat.mul y x.
Proof.
  rewrite <- (SF2Prim_Prim2SF (PrimFloat.mul x y)),
    <- (SF2Prim_Prim2SF (PrimFloat.mul y x)).
  now rewrite !FloatAxioms.mul_spec, SFmul_comm.
Qed.

(** The percentage of the code is the percentage of the specification. *)
Lemma pct_spec_pct (count total : Z) : pct count total = spec_pct count total.
Proof. unfold pct, spec_pct. now rewrite float_mul_comm. Qed.

(** ** The alert engine *)

Lemma scan_In (f : survey_row -> option alert) (rows : list survey_row)
  (a : alert) :
  In a (scan f rows) <-> exists s, In s rows /\ f s = Some a.
Proof.
  induction rows as [|s rows IH]; simpl.
  - split; [tauto | now intros (s & [] & _)].
  - destruct (f s) as [a0|] eqn:E; simpl; rewrite IH; split.
    + intros [<- | (s' & Hs' & E')]; [exists s; auto | exists s'; auto].
    + intros (s' & [<- | Hs'] & E').
      * left. congruence.
      * right. now exists s'.
    + intros (s' & Hs' & E'). exists s'; auto.
    + intros (s' & [<- | Hs'] & E'); [congruence | now exists s'].
Qed.

Lemma scan_sorted (f : survey_row -> option alert)
  (R : survey_row -> survey_row -> Prop) (R' : alert -> alert -> Prop)
  (rows : list survey_row) :
  (forall s1 s2 a1 a2, R s1 s2 -> f s1 = Some a1 -> f s2 = Some a2 -> R' a1 a2) ->
  StronglySorted R rows -> StronglySorted R' (scan f rows).
Proof.
  intros HR. induction 1 as [|s rows Hs IH Hx]; simpl.
  - constructor.
  - destruct (f s) as [a|] eqn:E; [|exact IH].
    constructor; [exact IH|].
    apply Forall_forall. intros a' Ha'. apply scan_In in Ha' as (s' & Hs' & E').
    rewrite Forall_forall in Hx. eapply HR; eauto.
Qed.

Lemma select_surveys_In (st : store) (status_filter : string) (s : survey_row) :
  In s (select_surveys st status_filter)
  <-> In s (surveys st) /\ s_status s = status_filter.
Proof.
  unfold select_surveys. rewrite sort_desc_In, filter_In.
  now rewrite String.eqb_eq.
Qed.

Lemma flags_of_tagged mp lp sp cp mt lt_ st_ ct :
  flags_of mp lp sp cp mt lt_ st_ ct = tagged_flags mp lp sp cp mt lt_ st_ ct.
Proof.
  unfold flags_of, tagged_flags. simpl.
  destruct (float_ge mp mt), (float_ge lp lt_), (float_ge sp st_), (float_ge cp ct);
    reflexivity.
Qed.

Lemma flags_of_In mp lp sp cp mt lt_ st_ ct (tag : string) :
  In tag (flags_of mp lp sp cp mt lt_ st_ ct)
  <-> (tag = "MISSING" /\ float_ge mp mt = true)
      \/ (tag = "LOW_CONF" /\ float_ge lp lt_ = true)
      \/ (tag = "NO_SOURCE" /\ float_ge sp st_ = true)
      \/ (tag = "NO_CONF" /\ float_ge cp ct = true).
Proof.
  unfold flags_of.
  destruct (float_ge mp mt), (float_ge lp lt_), (float_ge sp st_), (float_ge cp ct);
    simpl; intuition (try discriminate; auto).
Qed.

Lemma survey_alert_Some (st : store) mt lt_ st_ ct (s : survey_row) (a : alert) :
  survey_alert st mt lt_ st_ ct s = Some a ->
  survey_total st (s_id s) <> 0
  /\ flags_of (missing_pct_of st (s_id s)) (low_conf_pct_of st (s_id s))
       (no_source_pct_of st (s_id s)) (no_conf_pct_of st (s_id s))
       mt lt_ st_ ct <> []
  /\ a = {| alert_survey_id := s_id s;
            alert_facility_id := s_facility_id s;
            alert_facility_name := facility_name_or_dash st (s_facility_id s);
            alert_template_id := s_template_id s;
            alert_survey_type := s_survey_type s;
            alert_enumerator_name := s_enumerator_name s;
            alert_status := s_status s;
            alert_created_at := s_created_at s;
            alert_total_answers := survey_total st (s_id s);
            alert_flags :=
              flags_of (missing_pct_of st (s_id s)) (low_conf_pct_of st (s_id s))
                (no_source_pct_of st (s_id s)) (no_conf_pct_of st (s_id s))
                mt lt_ st_ ct;
            alert_severity := severity_of st (s_id s) |}.
Proof.
  unfold survey_alert, severity_of, missing_pct_of, low_conf_pct_of,
    no_source_pct_of, no_conf_pct_of, survey_total, aggregate_counts;
    cbn [total_answers missing_count low_confidence_count no_source_count
         no_confidence_count].
  destruct (Z.eqb_spec (Py.or_int (m_total (answer_aggregate st (s_id s)))) 0)
    as [E | E]; [discriminate|].
  destruct (flags_of _ _ _ _ mt lt_ st_ ct) eqn:Ef; [discriminate|].
  intros H. injection H as <-. repeat split; auto. discriminate.
Qed.

Lemma survey_alert_None (st : store) mt lt_ st_ ct (s : survey_row) :
  survey_alert st mt lt_ st_ ct s = None ->
  survey_total st (s_id s) = 0
  \/ flags_of (missing_pct_of st (s_id s)) (low_conf_pct_of st (s_id s))
       (no_source_pct_of st (s_id s)) (no_conf_pct_of st (s_id s))
       mt lt_ st_ ct = [].
Proof.
  unfold survey_alert, severity_of, missing_pct_of, low_conf_pct_of,
    no_source_pct_of, no_conf_pct_of, survey_total, aggregate_counts;
    cbn [total_answers missing_count low_confidence_count no_source_count
         no_confidence_count].
  destruct (Z.eqb_spec (Py.or_int (m_total (answer_aggregate st (s_id s)))) 0)
    as [E | E]; [now left|].
  destruct (flags_of _ _ _ _ mt lt_ st_ ct) eqn:Ef; [now right | discriminate].
Qed.

Lemma ranked_alerts_In (st : store) status mt lt_ st_ ct (a : alert) :
  In a (ranked_alerts st status mt lt_ st_ ct)
  <-> exists s, In s (surveys st) /\ s_status s = normal_status status
                /\ survey_alert st mt lt_ st_ ct s = Some a.
Proof.
  unfold ranked_alerts. rewrite sort_desc_In, scan_In.
  split; intros (s & Hs & E); exists s.
  - apply select_surveys_In in Hs. tauto.
  - split; [|tauto]. apply select_surveys_In. tauto.
Qed.

Lemma dashboard_In_ranked (st : store) status mt lt_ st_ ct limit (a : alert) :
  In a (qa_alerts_dashboard st status mt lt_ st_ ct limit) ->
  In a (ranked_alerts st status mt lt_ st_ ct).
Proof. apply slice_to_In. Qed.


(** The example scenarios 1 to 4 of the specification, in binary64 and with
    the default thresholds and limit: survey 1 is reported with the flags
    MISSING and NO_SOURCE and severity 40.0, surveys 2, 3 and 4 are not. *)
Lemma scenario_alerts :
  qa_alerts_dashboard scenario_store None
    (float_of_int 20) (float_of_int 20) (float_of_int 10)
    (float_of_int 10) 50
  = [scenario_alert_1].
Proof. vm_compute. reflexivity. Qed.

Lemma scenario_summary_of_empty_survey :
  get_survey_details scenario_store 4
  = Ok ({| h_id := 4; h_facility_id := 1; h_facility_name := "Clinic A";
           h_template_id := None; h_survey_type := "Manual Survey";
           h_enumerator_name := "dee"; h_status := "COMPLETED";
           h_created_at := "2024-05-01T09:00:00" |},
        [],
        {| total_answers := 0; missing_count := 0; low_confidence_count := 0;
           no_source_count := 0; no_confidence_count := 0 |}).
Proof. reflexivity. Qed.

(** C3: in every alert [qa_alerts_dashboard] returns, the flags are the tags
    MISSING, LOW_CONF, NO_SOURCE, NO_CONF, in that order, whose percentage
    [100.0 * count / total] is greater than or equal to its threshold, and
    the severity is the sum of the four percentages. *)
Theorem alert_flags_and_severity (st : store) (status : option string)
  (missing_threshold_pct low_conf_threshold_pct
   no_source_threshold_pct no_conf_threshold_pct : float) (limit : Z) (a : alert) :
  In a (qa_alerts_dashboard st status missing_threshold_pct low_conf_threshold_pct
          no_source_threshold_pct no_conf_threshold_pct limit) ->
  let counts := aggregate_counts (answer_aggregate st (alert_survey_id a)) in
  let total := total_answers counts in
  let missing_pct := spec_pct (missing_count counts) total in
  let low_conf_pct := spec_pct (low_confidence_count counts) total in
  let no_source_pct := spec_pct (no_source_count counts) total in
  let no_conf_pct := spec_pct (no_confidence_count counts) total in
  total <> 0
  /\ alert_total_answers a = total
  /\ alert_flags a =
       tagged_flags missing_pct low_conf_pct no_source_pct no_conf_pct
         missing_threshold_pct low_conf_threshold_pct
         no_source_threshold_pct no_conf_threshold_pct
  /\ (forall tag,
        In tag (alert_flags a) <->
        (tag = "MISSING" /\ float_ge missing_pct missing_threshold_pct = true)
        \/ (tag = "LOW_CONF" /\ float_ge low_conf_pct low_conf_threshold_pct = true)
        \/ (tag = "NO_SOURCE"
            /\ float_ge no_source_pct no_source_threshold_pct = true)
        \/ (tag = "NO_CONF" /\ float_ge no_conf_pct no_conf_threshold_pct = true))
  /\ alert_severity a =
       (missing_pct + low_conf_pct + no_source_pct + no_conf_pct)%float.
Proof.
  intros Hin. apply dashboard_In_ranked, ranked_alerts_In in Hin as (s & _ & _ & E).
  apply survey_alert_Some in E as (Ht & _ & ->).
  cbn [alert_survey_id alert_total_answers alert_flags alert_severity].
  unfold severity_of, missing_pct_of, low_conf_pct_of, no_source_pct_of,
    no_conf_pct_of, survey_total in *.
  rewrite !pct_spec_pct.
  split; [exact Ht|]. split; [reflexivity|].
  split; [apply flags_of_tagged|]. split; [|reflexivity].
  intros tag. apply flags_of_In.
Qed.

Lemma alert_flags_and_severity_witness :
  let t := float_of_int in
  In ranking_alert_1
    (qa_alerts_dashboard ranking_store None (t 20) (t 20) (t 10) (t 10) 50)
  /\ alert_flags ranking_alert_1 =
       tagged_flags (spec_pct 1 2) (spec_pct 0 2) (spec_pct 0 2) (spec_pct 0 2)
         (t 20) (t 20) (t 10) (t 10)
  /\ alert_severity ranking_alert_1 =
       (spec_pct 1 2 + spec_pct 0 2 + spec_pct 0 2 + spec_pct 0 2)%float.
Proof.
  cbv zeta.
  assert (H : In ranking_alert_1
                (qa_alerts_dashboard ranking_store None
                   (float_of_int 20) (float_of_int 20)
                   (float_of_int 10) (float_of_int 10) 50)).
  { vm_compute. right. left. reflexivity. }
  split; [exact H|].
  destruct (alert_flags_and_severity ranking_store None _ _ _ _ 50 _ H)
    as (_ & _ & Hf & _ & Hs).
  split; [exact Hf | exact Hs].
Defined.

(** C4: a survey with no answer, and a survey whose four percentages are
    all strictly below their thresholds, is the survey of no alert that
    [qa_alerts_dashboard] returns, whatever the thresholds and the limit. *)
Theorem skipped_surveys_are_absent (st : store) (status : option string)
  (missing_threshold_pct low_conf_threshold_pct
   no_source_threshold_pct no_conf_threshold_pct : float) (limit : Z) (sid : Z) :
  survey_total st sid = 0
  \/ (PrimFloat.ltb (missing_pct_of st sid) missing_threshold_pct = true
      /\ PrimFloat.ltb (low_conf_pct_of st sid) low_conf_threshold_pct = true
      /\ PrimFloat.ltb (no_source_pct_of st sid) no_source_threshold_pct = true
      /\ PrimFloat.ltb (no_conf_pct_of st sid) no_conf_threshold_pct = true) ->
  ~ exists a,
      In a (qa_alerts_dashboard st status missing_threshold_pct
              low_conf_threshold_pct no_source_threshold_pct
              no_conf_threshold_pct limit)
      /\ alert_survey_id a = sid.
Proof.
  intros Hskip (a & Hin & Hid).
  apply dashboard_In_ranked, ranked_alerts_In in Hin as (s & _ & _ & E).
  apply survey_alert_Some in E as (Ht & Hf & ->). cbn in Hid. subst sid.
  destruct Hskip as [H0 | (Hm & Hl & Hs & Hc)]; [contradiction|].
  apply Hf. unfold flags_of.
  now rewrite (float_lt_not_ge _ _ Hm), (float_lt_not_ge _ _ Hl),
    (float_lt_not_ge _ _ Hs), (float_lt_not_ge _ _ Hc).
Qed.

Lemma skipped_surveys_are_absent_witness :
  let t := float_of_int in
  (survey_total ranking_store 4 = 0
   /\ ~ exists a,
         In a (qa_alerts_dashboard ranking_store None (t 20) (t 20) (t 10) (t 10) 50)
         /\ alert_survey_id a = 4)
  /\ (PrimFloat.ltb (low_conf_pct_of ranking_store 2) (t 150) = true
      /\ ~ exists a,
            In a (qa_alerts_dashboard ranking_store None
                    (t 20) (t 150) (t 10) (t 10) 50)
            /\ alert_survey_id a = 2).
Proof.
  cbv zeta. split.
  - split; [reflexivity|].
    apply skipped_surveys_are_absent. left. reflexivity.
  - split; [reflexivity|].
    apply skipped_surveys_are_absent. right. repeat split; reflexivity.
Defined.

(** A [WHERE] clause keeps the ids of a primary key distinct. *)
Lemma filter_keeps_distinct_keys {A : Type} (key : A -> Z) (keep : A -> bool)
  (rows : list A) (Hnd : NoDup (map key rows)) :
  NoDup (map key (filter keep rows)).
Proof.
  induction rows as [|x rows IH]; cbn in *; [constructor|].
  apply NoDup_cons_iff in Hnd as [Hx Hnd].
  destruct (keep x); cbn; [|now apply IH].
  apply NoDup_cons_iff. split; [|now apply IH].
  rewrite in_map_iff. intros (y & E & Hy).
  apply filter_In in Hy as [Hy _]. apply Hx. rewrite <- E. now apply in_map.
Qed.

(** The alerts are scanned by strictly decreasing survey id. *)
Lemma scan_by_id_desc (st : store) (status : string) mt lt_ st_ ct :
  NoDup (map s_id (surveys st)) ->
  StronglySorted (fun a b : alert => alert_survey_id b < alert_survey_id a)
    (scan (survey_alert st mt lt_ st_ ct) (select_surveys st status)).
Proof.
  intros Hnd.
  apply scan_sorted with (R := fun s1 s2 => s_id s2 < s_id s1).
  - intros s1 s2 a1 a2 Hlt E1 E2.
    apply survey_alert_Some in E1 as (_ & _ & ->).
    apply survey_alert_Some in E2 as (_ & _ & ->). exact Hlt.
  - apply order_by_id_desc. now apply filter_keeps_distinct_keys.
Qed.

(** C5: with a limit [k >= 0], the alerts [qa_alerts_dashboard] returns are
    in descending order of severity (no severity being NaN), two alerts of
    equal severity come in descending order of survey id (the ids being
    those of a primary key), and there are at most [k] of them. *)
Theorem alerts_ranked_and_truncated (st : store) (status : option string)
  (missing_threshold_pct low_conf_threshold_pct
   no_source_threshold_pct no_conf_threshold_pct : float) (k : Z) :
  0 <= k ->
  let ranked :=
    ranked_alerts st status missing_threshold_pct low_conf_threshold_pct
      no_source_threshold_pct no_conf_threshold_pct in
  let out :=
    qa_alerts_dashboard st status missing_threshold_pct low_conf_threshold_pct
      no_source_threshold_pct no_conf_threshold_pct k in
  ((forall a, In a ranked -> PrimFloat.is_nan (alert_severity a) = false) ->
   forall i a b,
     nth_error out i = Some a -> nth_error out (S i) = Some b ->
     float_ge (alert_severity a) (alert_severity b) = true)
  /\ (NoDup (map s_id (surveys st)) ->
      forall i j a b,
        (i < j)%nat -> nth_error out i = Some a -> nth_error out j = Some b ->
        PrimFloat.eqb (alert_severity a) (alert_severity b) = true ->
        alert_survey_id b < alert_survey_id a)
  /\ Z.of_nat (List.length out) <= k.
Proof.
  intros Hk ranked out. unfold out, ranked, qa_alerts_dashboard.
  split; [|split].
  - intros Hnan i a b Ha Hb.
    apply nth_error_slice_to in Ha. apply nth_error_slice_to in Hb.
    eapply (Sorted_adjacent
              (fun a b => float_ge (alert_severity a) (alert_severity b) = true));
      [|exact Ha|exact Hb].
    apply (sort_desc_sorted PrimFloat.ltb alert_severity float_ge
             (fun x => PrimFloat.is_nan x = false)).
    + apply float_not_lt_ge.
    + apply float_lt_ge_flip.
    + apply Forall_forall. intros x Hx. apply Hnan.
      unfold ranked_alerts. now apply sort_desc_In.
  - intros Hnd i j a b Hij Ha Hb Heq.
    apply nth_error_slice_to in Ha. apply nth_error_slice_to in Hb.
    pose proof (sort_desc_stable PrimFloat.ltb alert_severity _ _
                  (scan_by_id_desc st (normal_status status)
                     missing_threshold_pct low_conf_threshold_pct
                     no_source_threshold_pct no_conf_threshold_pct Hnd)) as Hs.
    destruct (StronglySorted_positions _ _ Hs i j a b Hij Ha Hb) as [Hlt | Hid].
    + apply float_eq_not_lt in Heq. destruct Heq as [_ Hba]. congruence.
    + exact Hid.
  - now apply slice_to_length.
Qed.

Lemma alerts_ranked_and_truncated_witness :
  let t := float_of_int in
  let out := qa_alerts_dashboard tie_store None (t 20) (t 20) (t 10) (t 10) 50 in
  map alert_survey_id out = [2; 1]
  /\ map alert_severity out = [100%float; 100%float]
  /\ (forall i a b,
        nth_error out i = Some a -> nth_error out (S i) = Some b ->
        float_ge (alert_severity a) (alert_severity b) = true)
  /\ (forall i j a b,
        (i < j)%nat -> nth_error out i = Some a -> nth_error out j = Some b ->
        PrimFloat.eqb (alert_severity a) (alert_severity b) = true ->
        alert_survey_id b < alert_survey_id a)
  /\ Z.of_nat (List.length out) <= 50.
Proof.
  cbv zeta. split; [reflexivity|]. split; [reflexivity|].
  assert (Hk : 0 <= 50) by lia.
  destruct (alerts_ranked_and_truncated tie_store None
              (float_of_int 20) (float_of_int 20) (float_of_int 10)
              (float_of_int 10) 50 Hk) as (Hsorted & Hties & Hlen).
  split; [|split].
  - apply Hsorted. intros a Ha. vm_compute in Ha.
    destruct Ha as [<- | [<- | []]]; reflexivity.
  - apply Hties. cbn. repeat constructor; cbn; intuition discriminate.
  - exact Hlen.
Defined.

(** C7, as the claim words it, fails: with a limit of 1, lowering the
    low-confidence threshold from 150 to 20 flags survey 2, whose severity
    is the greater, and the alert of survey 1 leaves the output. *)
Lemma lowering_threshold_evicts_alert :
  let t := float_of_int in
  float_ge (t 150) (t 20) = true
  /\ map alert_survey_id
       (qa_alerts_dashboard ranking_store None (t 20) (t 150) (t 10) (t 10) 1)
     = [1]
  /\ map alert_survey_id
       (qa_alerts_dashboard ranking_store None (t 20) (t 20) (t 10) (t 10) 1)
     = [2].
Proof. cbv zeta. repeat split; vm_compute; reflexivity. Qed.

(** C7, amended: when thresholds are lowered, every alert that was returned
    is still among the alerts ranked before the truncation to [limit], for
    the same survey and with the same severity, and with every flag it had;
    it is returned again when the limit is at least the number of ranked
    alerts. *)
Theorem lowering_thresholds_keeps_ranked (st : store) (status : option string)
  (m l s c m' l' s' c' : float) (limit : Z) (a : alert) :
  float_ge m m' = true -> float_ge l l' = true ->
  float_ge s s' = true -> float_ge c c' = true ->
  In a (qa_alerts_dashboard st status m l s c limit) ->
  exists a',
    In a' (ranked_alerts st status m' l' s' c')
    /\ alert_survey_id a' = alert_survey_id a
    /\ alert_total_answers a' = alert_total_answers a
    /\ alert_severity a' = alert_severity a
    /\ incl (alert_flags a) (alert_flags a')
    /\ (Z.of_nat (List.length (ranked_alerts st status m' l' s' c')) <= limit ->
        In a' (qa_alerts_dashboard st status m' l' s' c' limit)).
Proof.
  intros Hm Hl Hs Hc Hin.
  apply dashboard_In_ranked, ranked_alerts_In in Hin as (r & Hr & Hst & E).
  apply survey_alert_Some in E as (Ht & Hf & ->).
  assert (Hincl : incl
            (flags_of (missing_pct_of st (s_id r)) (low_conf_pct_of st (s_id r))
               (no_source_pct_of st (s_id r)) (no_conf_pct_of st (s_id r)) m l s c)
            (flags_of (missing_pct_of st (s_id r)) (low_conf_pct_of st (s_id r))
               (no_source_pct_of st (s_id r)) (no_conf_pct_of st (s_id r))
               m' l' s' c')).
  { intros tag Htag. apply flags_of_In in Htag. apply flags_of_In.
    destruct Htag as [[-> H] | [[-> H] | [[-> H] | [-> H]]]];
      [left | right; left | right; right; left | right; right; right];
      (split; [reflexivity | eapply float_ge_trans; eassumption]). }
  destruct (survey_alert st m' l' s' c' r) as [a'|] eqn:E'.
  - pose proof E' as E''. apply survey_alert_Some in E'' as (_ & _ & ->).
    eexists. split; [apply ranked_alerts_In; exists r; eauto|].
    cbn. repeat split; auto.
    intros Hlen. unfold qa_alerts_dashboard. rewrite slice_to_all by exact Hlen.
    apply ranked_alerts_In. exists r. eauto.
  - exfalso. apply survey_alert_None in E' as [H0 | Hnil]; [contradiction|].
    destruct (flags_of _ _ _ _ m l s c) as [|tag rest] eqn:Ef; [now apply Hf|].
    specialize (Hincl tag (or_introl eq_refl)). rewrite Hnil in Hincl.
    destruct Hincl.
Qed.

Lemma lowering_thresholds_keeps_ranked_witness :
  let t := float_of_int in
  In ranking_alert_1
    (qa_alerts_dashboard ranking_store None (t 20) (t 150) (t 10) (t 10) 1)
  /\ exists a',
       In a' (ranked_alerts ranking_store None (t 20) (t 20) (t 10) (t 10))
       /\ alert_survey_id a' = 1
       /\ alert_total_answers a' = 2
       /\ alert_severity a' = 50%float
       /\ incl ["MISSING"] (alert_flags a')
       /\ (Z.of_nat
             (List.length
                (ranked_alerts ranking_store None (t 20) (t 20) (t 10) (t 10)))
           <= 1 ->
           In a' (qa_alerts_dashboard ranking_store None (t 20) (t 20) (t 10) (t 10) 1)).
Proof.
  cbv zeta.
  assert (H : In ranking_alert_1
                (qa_alerts_dashboard ranking_store None (float_of_int 20)
                   (float_of_int 150) (float_of_int 10) (float_of_int 10) 1)).
  { vm_compute. left. reflexivity. }
  split; [exact H|].
  apply (lowering_thresholds_keeps_ranked ranking_store None
           (float_of_int 20) (float_of_int 150) (float_of_int 10) (float_of_int 10)
           (float_of_int 20) (float_of_int 20) (float_of_int 10) (float_of_int 10)
           1 ranking_alert_1); try reflexivity.
  exact H.
Defined.

(** ** The enumerator performance aggregator *)

Lemma distinct_In (l : list string) (x : string) : In x (distinct l) <-> In x l.
Proof.
  induction l as [|y l IH]; simpl; [tauto|].
  rewrite filter_In, IH. split.
  - intros [H | [H _]]; auto.
  - intros [H | H]; [now left|].
    destruct (String.eqb_spec y x) as [E | E]; [now left|].
    right. now split.
Qed.

Lemma distinct_NoDup (l : list string) : NoDup (distinct l).
Proof.
  induction l as [|y l IH]; simpl; constructor.
  - intros H. apply filter_In in H as [_ H]. now rewrite String.eqb_refl in H.
  - now apply NoDup_filter.
Qed.

Lemma NoDup_firstn {A : Type} (n : nat) (l : list A) : NoDup l -> NoDup (firstn n l).
Proof.
  revert l. induction n as [|n IH]; intros [|x l] H; simpl; try constructor.
  - inversion H as [|? ? Hx Hl]; subst. intros Hin. apply Hx.
    clear -Hin. revert l Hin. induction n as [|n IHn]; intros [|y l]; simpl; try tauto.
    intros [H | H]; auto.
  - apply IH. now inversion H.
Qed.

Lemma scan_names_In (f : string -> option enumerator_record)
  (names : list string) (r : enumerator_record) :
  In r (scan_names f names) <-> exists n, In n names /\ f n = Some r.
Proof.
  induction names as [|n names IH]; simpl.
  - split; [tauto | now intros (n & [] & _)].
  - destruct (f n) as [r0|] eqn:E; simpl; rewrite IH; split.
    + intros [<- | (n' & Hn' & E')]; [exists n; auto | exists n'; auto].
    + intros (n' & [<- | Hn'] & E').
      * left. congruence.
      * right. now exists n'.
    + intros (n' & Hn' & E'). exists n'; auto.
    + intros (n' & [<- | Hn'] & E'); [congruence | now exists n'].
Qed.

Lemma count_of_rows {A B : Type} (f : A -> B) (p : B -> bool) (l : list A) :
  Py.count p (map f l) = Z.of_nat (List.length (filter (fun x => p (f x)) l)).
Proof.
  unfold Py.count. f_equal.
  induction l as [|x l IH]; [reflexivity|]. cbn [map filter].
  destruct (p (f x)); cbn [List.length]; now rewrite IH.
Qed.

Lemma tagged_flags_app mp lp sp cp mt lt_ st_ ct :
  tagged_flags mp lp sp cp mt lt_ st_ ct
  = ((if PrimFloat.leb mt mp then ["MISSING"] else [])
     ++ (if PrimFloat.leb lt_ lp then ["LOW_CONF"] else [])
     ++ (if PrimFloat.leb st_ sp then ["NO_SOURCE"] else [])
     ++ (if PrimFloat.leb ct cp then ["NO_CONF"] else []))%list.
Proof.
  unfold tagged_flags, float_ge. cbn [filter map fst snd].
  destruct (PrimFloat.leb mt mp), (PrimFloat.leb lt_ lp), (PrimFloat.leb st_ sp),
    (PrimFloat.leb ct cp); reflexivity.
Qed.

(** The union of the answers of one enumerator, read off the two tables. *)
Lemma enumerator_answers_filter (st : store) (status name : string) :
  enumerator_answers st status name
  = filter (fun a =>
              existsb (fun sv => s_id sv =? a_survey_id a)
                (filter (fun sv => String.eqb (s_status sv) status
                                   && String.eqb (s_enumerator_name sv) name)
                   (surveys st)))
      (survey_answers st).
Proof.
  unfold enumerator_answers, enumerator_surveys. apply filter_ext. intros a.
  apply Bool.eq_iff_eq_true. rewrite !existsb_exists.
  split; intros (sv & Hsv & E); exists sv; (split; [|exact E]).
  - apply filter_In in Hsv as (Hsv & En).
    apply select_surveys_In in Hsv as (Hsv & Est).
    apply filter_In. split; [exact Hsv|].
    apply andb_true_iff. split; [now apply String.eqb_eq | exact En].
  - apply filter_In in Hsv as (Hsv & Hb).
    apply andb_true_iff in Hb as (Est & En). apply String.eqb_eq in Est.
    apply filter_In. split; [|exact En]. apply select_surveys_In. now split.
Qed.

(** What the aggregator computes for one enumerator from the union [l] of
    the answers. *)
Lemma enumerator_alert_of_answers (st : store) (status : string)
  (mt lt_ nst nct : float) (name : string) (l : list answer_row) :
  enumerator_answers st status name = l ->
  let total := Z.of_nat (List.length l) in
  let percent (p : answer_row -> bool) :=
    (100 * float_of_int (Z.of_nat (List.length (filter p l)))
     / float_of_int total)%float in
  let missing_pct := percent (fun a => a_is_missing a =? 1) in
  let low_conf_pct :=
    percent (fun a => match a_confidence_level a with
                      | Some c => String.eqb (Py.upper c) "LOW"
                      | None => false
                      end) in
  let no_source_pct :=
    percent (fun a => match a_answer_source a with
                      | Some v => String.eqb v ""
                      | None => true
                      end) in
  let no_conf_pct :=
    percent (fun a => match a_confidence_level a with
                      | Some v => String.eqb v ""
                      | None => true
                      end) in
  let flags :=
    ((if PrimFloat.leb mt missing_pct then ["MISSING"] else [])
     ++ (if PrimFloat.leb lt_ low_conf_pct then ["LOW_CONF"] else [])
     ++ (if PrimFloat.leb nst no_source_pct then ["NO_SOURCE"] else [])
     ++ (if PrimFloat.leb nct no_conf_pct then ["NO_CONF"] else []))%list in
  enumerator_alert st status mt lt_ nst nct name
  = if total =? 0 then None
    else match flags with
         | [] => None
         | _ =>
             Some {| enum_enumerator_name := name;
                     enum_total_answers := total;
                     enum_flags := flags;
                     enum_severity :=
                       (missing_pct + low_conf_pct + no_source_pct
                        + no_conf_pct)%float |}
         end.
Proof.
  intros <-. cbv zeta. unfold enumerator_alert, spec_summary.
  cbn [total_answers missing_count low_confidence_count no_source_count
       no_confidence_count].
  rewrite !count_of_rows, length_map, tagged_flags_app. reflexivity.
Qed.

Lemma enumerator_alert_name (st : store) (status : string) m l s c
  (name : string) (r : enumerator_record) :
  enumerator_alert st status m l s c name = Some r -> enum_enumerator_name r = name.
Proof.
  rewrite (enumerator_alert_of_answers st status m l s c name _ eq_refl).
  cbv zeta. destruct (_ =? 0); [discriminate|].
  match goal with |- match ?f with _ => _ end = _ -> _ => destruct f end;
    [discriminate|].
  intros H. injection H as <-. reflexivity.
Qed.

Lemma scan_names_NoDup (st : store) (status : string) m l s c (names : list string) :
  NoDup names ->
  NoDup (map enum_enumerator_name
           (scan_names (enumerator_alert st status m l s c) names)).
Proof.
  induction 1 as [|n names Hn Hnd IH]; simpl; [constructor|].
  destruct (enumerator_alert st status m l s c n) as [r|] eqn:E; [|exact IH].
  simpl. constructor; [|exact IH].
  apply enumerator_alert_name in E. rewrite E.
  intros Hin. apply in_map_iff in Hin as (r' & Er' & Hr').
  apply scan_names_In in Hr' as (n' & Hn' & E').
  apply enumerator_alert_name in E'. congruence.
Qed.

Lemma scan_names_length (f : string -> option enumerator_record)
  (names : list string) :
  (List.length (scan_names f names) <= List.length names)%nat.
Proof.
  induction names as [|n names IH]; simpl; [lia|].
  destruct (f n); simpl; lia.
Qed.

Lemma filter_length_le {A : Type} (p : A -> bool) (l : list A) :
  (List.length (filter p l) <= List.length l)%nat.
Proof.
  induction l as [|x l IH]; simpl; [lia|]. destruct (p x); simpl; lia.
Qed.

Lemma distinct_length (l : list string) :
  (List.length (distinct l) <= List.length l)%nat.
Proof.
  induction l as [|x l IH]; simpl; [lia|].
  pose proof (filter_length_le (fun y => negb (String.eqb x y)) (distinct l)). lia.
Qed.

(** C1: for every status filter, thresholds and limit,
    [enumerator_performance_dashboard] returns the first [limit] records of
    a ranking that holds exactly one record for every enumerator that is
    reported, and none for any other.  The status filter is the given one,
    COMPLETED by default, stripped and upper-cased; the answers of an
    enumerator are the union of the answers of all the surveys of that
    enumerator whose status equals the filter; the counts are those of the
    Quality Summary Calculator over that union; an enumerator is reported
    when the total is not zero and at least one percentage is greater than
    or equal to its threshold; the record carries the name, the total, the
    tags of the thresholds reached in their fixed order and, as severity,
    the sum of the four percentages; the ranking is in descending order of
    severity (no severity being NaN), and the result is the whole ranking
    when [limit] is not smaller than the number of stored surveys. *)
Theorem enumerator_performance_per_enumerator (st : store) (status : option string)
  (missing_threshold_pct low_conf_threshold_pct
   no_source_threshold_pct no_conf_threshold_pct : float) (limit : Z) :
  let wanted := Py.upper (Py.strip (Py.or_str status "COMPLETED")) in
  let surveys_of (name : string) :=
    filter (fun sv => String.eqb (s_status sv) wanted
                      && String.eqb (s_enumerator_name sv) name)
      (surveys st) in
  let union (name : string) :=
    filter (fun a => existsb (fun sv => s_id sv =? a_survey_id a) (surveys_of name))
      (survey_answers st) in
  let total (name : string) := Z.of_nat (List.length (union name)) in
  let percent (p : answer_row -> bool) (name : string) :=
    (100 * float_of_int (Z.of_nat (List.length (filter p (union name))))
     / float_of_int (total name))%float in
  let missing_pct := percent (fun a => a_is_missing a =? 1) in
  let low_conf_pct :=
    percent (fun a => match a_confidence_level a with
                      | Some c => String.eqb (Py.upper c) "LOW"
                      | None => false
                      end) in
  let no_source_pct :=
    percent (fun a => match a_answer_source a with
                      | Some v => String.eqb v ""
                      | None => true
                      end) in
  let no_conf_pct :=
    percent (fun a => match a_confidence_level a with
                      | Some v => String.eqb v ""
                      | None => true
                      end) in
  let flags (name : string) :=
    ((if PrimFloat.leb missing_threshold_pct (missing_pct name)
      then ["MISSING"] else [])
     ++ (if PrimFloat.leb low_conf_threshold_pct (low_conf_pct name)
         then ["LOW_CONF"] else [])
     ++ (if PrimFloat.leb no_source_threshold_pct (no_source_pct name)
         then ["NO_SOURCE"] else [])
     ++ (if PrimFloat.leb no_conf_threshold_pct (no_conf_pct name)
         then ["NO_CONF"] else []))%list in
  let record (name : string) :=
    {| enum_enumerator_name := name;
       enum_total_answers := total name;
       enum_flags := flags name;
       enum_severity :=
         (missing_pct name + low_conf_pct name + no_source_pct name
          + no_conf_pct name)%float |} in
  let reported (name : string) :=
    surveys_of name <> [] /\ total name <> 0 /\ flags name <> [] in
  let out :=
    enumerator_performance_dashboard st status missing_threshold_pct
      low_conf_threshold_pct no_source_threshold_pct no_conf_threshold_pct limit in
  exists ranked,
    out = Py.slice_to limit ranked
    /\ (forall r, In r ranked <-> exists name, reported name /\ r = record name)
    /\ NoDup (map enum_enumerator_name ranked)
    /\ ((forall r, In r ranked -> PrimFloat.is_nan (enum_severity r) = false) ->
        forall i a b,
          nth_error ranked i = Some a -> nth_error ranked (S i) = Some b ->
          float_ge (enum_severity a) (enum_severity b) = true)
    /\ (0 <= limit -> out = firstn (Z.to_nat limit) ranked)
    /\ (0 <= limit -> Z.of_nat (List.length out) <= limit)
    /\ (Z.of_nat (List.length (surveys st)) <= limit -> out = ranked)
    /\ (forall r, In r out -> reported (enum_enumerator_name r)
                              /\ r = record (enum_enumerator_name r)).
Proof.
  intros wanted surveys_of union total percent missing_pct low_conf_pct
    no_source_pct no_conf_pct flags record reported out.
  assert (Halert : forall name,
             enumerator_alert st wanted missing_threshold_pct
               low_conf_threshold_pct no_source_threshold_pct
               no_conf_threshold_pct name
             = if total name =? 0 then None
               else match flags name with
                    | [] => None
                    | _ => Some (record name)
                    end).
  { intros name.
    exact (enumerator_alert_of_answers st wanted missing_threshold_pct
             low_conf_threshold_pct no_source_threshold_pct
             no_conf_threshold_pct name (union name)
             (enumerator_answers_filter st wanted name)). }
  assert (Hwho : forall name,
             In name (distinct (map s_enumerator_name (select_surveys st wanted)))
             <-> surveys_of name <> []).
  { intros name. rewrite distinct_In, in_map_iff. split.
    - intros (sv & En & Hsv) Hnil.
      apply select_surveys_In in Hsv as (Hsv & Est).
      assert (Hin : In sv (surveys_of name)).
      { apply filter_In. split; [exact Hsv|]. apply andb_true_iff.
        split; now apply String.eqb_eq. }
      now rewrite Hnil in Hin.
    - intros Hne. destruct (surveys_of name) as [|sv rest] eqn:E;
        [now contradiction Hne|].
      assert (Hin : In sv (surveys_of name)) by (rewrite E; now left).
      apply filter_In in Hin as (Hsv & Hb).
      apply andb_true_iff in Hb as (Est & En).
      apply String.eqb_eq in Est. apply String.eqb_eq in En.
      exists sv. split; [exact En|]. apply select_surveys_In. now split. }
  set (ranked := ranked_enumerators st status missing_threshold_pct
                   low_conf_threshold_pct no_source_threshold_pct
                   no_conf_threshold_pct).
  assert (Hranked : forall r,
             In r ranked <-> exists name, reported name /\ r = record name).
  { intros r. unfold ranked, ranked_enumerators, normal_status. fold wanted.
    rewrite sort_desc_In, scan_names_In. split.
    - intros (name & Hname & E). exists name. rewrite Halert in E.
      destruct (Z.eqb_spec (total name) 0) as [Ez | Hz]; [discriminate|].
      destruct (flags name) as [|tag tags] eqn:Ef; [discriminate|].
      injection E as <-. split; [|reflexivity].
      split; [now apply Hwho|]. split; [exact Hz|]. rewrite Ef. discriminate.
    - intros (name & (Hs & Hz & Hf) & ->). exists name.
      split; [now apply Hwho|]. rewrite Halert.
      rewrite (proj2 (Z.eqb_neq _ _) Hz).
      destruct (flags name) as [|tag tags] eqn:Ef; [now contradiction Hf|].
      reflexivity. }
  assert (Hnd : NoDup (map enum_enumerator_name ranked)).
  { unfold ranked, ranked_enumerators. eapply Permutation_NoDup.
    - apply Permutation_map, Permutation_sym, sort_desc_perm.
    - apply scan_names_NoDup, distinct_NoDup. }
  assert (Hlen : (List.length ranked <= List.length (surveys st))%nat).
  { unfold ranked, ranked_enumerators.
    rewrite (Permutation_length (sort_desc_perm _ _ _)).
    etransitivity; [apply scan_names_length|].
    etransitivity; [apply distinct_length|].
    rewrite length_map. unfold select_surveys.
    rewrite (Permutation_length (sort_desc_perm _ _ _)). apply filter_length_le. }
  exists ranked. split; [reflexivity|]. split; [exact Hranked|].
  split; [exact Hnd|]. split; [|split; [|split; [|split]]].
  - intros Hnan.
    apply (Sorted_adjacent
             (fun a b => float_ge (enum_severity a) (enum_severity b) = true)).
    apply (sort_desc_sorted PrimFloat.ltb enum_severity float_ge
             (fun x => PrimFloat.is_nan x = false)).
    + apply float_not_lt_ge.
    + apply float_lt_ge_flip.
    + apply Forall_forall. intros x Hx. apply Hnan.
      unfold ranked, ranked_enumerators. now apply sort_desc_In.
  - intros Hlimit. unfold out, enumerator_performance_dashboard, Py.slice_to.
    fold ranked. now rewrite (proj2 (Z.leb_le 0 limit) Hlimit).
  - apply slice_to_length.
  - intros Hall. unfold out, enumerator_performance_dashboard. fold ranked.
    apply slice_to_all. lia.
  - intros r Hr. unfold out, enumerator_performance_dashboard in Hr.
    apply slice_to_In in Hr. fold ranked in Hr.
    apply Hranked in Hr as (name & Hrep & ->). cbn [enum_enumerator_name record].
    now split.
Qed.

(** In [lowercase_store] the one answer of the one completed survey has the
    confidence level [low]; with the status filter [" completed "] the
    enumerator of that survey is reported, with the flag LOW_CONF. *)
Lemma enumerator_performance_per_enumerator_witness :
  let t := float_of_int in
  let ada :=
    {| enum_enumerator_name := "ada"; enum_total_answers := 1;
       enum_flags := ["LOW_CONF"]; enum_severity := 100%float |} in
  exists ranked,
    enumerator_performance_dashboard lowercase_store (Some " completed ")
      (t 20) (t 20) (t 10) (t 10) 50 = ranked
    /\ In ada ranked
    /\ forall r, In r ranked -> enum_enumerator_name r = "ada".
Proof.
  cbv zeta.
  destruct (enumerator_performance_per_enumerator lowercase_store
              (Some " completed ") (float_of_int 20) (float_of_int 20)
              (float_of_int 10) (float_of_int 10) 50)
    as (ranked & _ & Hin & _ & _ & _ & _ & Hall & _).
  exists ranked. split; [apply Hall; cbn; lia|]. split.
  - apply Hin. exists "ada". split; [|vm_compute; reflexivity].
    split; [discriminate|]. split; [discriminate|]. vm_compute. discriminate.
  - intros r Hr. apply Hin in Hr as (name & (Hs & _) & ->).
    cbn [enum_enumerator_name].
    match type of Hs with
    | ?l <> [] => destruct l as [|sv rest] eqn:E; [now contradiction Hs|]
    end.
    assert (Hsv : In sv (sv :: rest)) by now left.
    rewrite <- E in Hsv. apply filter_In in Hsv as (Hsv & Hb).
    apply andb_true_iff in Hb as (_ & En). apply String.eqb_eq in En.
    destruct Hsv as [<- | []]. symmetry. exact En.
Defined.

Lemma enumerator_performance_example :
  let t := float_of_int in
  enumerator_performance_dashboard ranking_store None (t 20) (t 20) (t 10) (t 10) 50
  = [{| enum_enumerator_name := "bob"; enum_total_answers := 1;
        enum_flags := ["LOW_CONF"]; enum_severity := 100%float |};
     {| enum_enumerator_name := "ada"; enum_total_answers := 2;
        enum_flags := ["MISSING"]; enum_severity := 50%float |}]
  /\ enumerator_performance_dashboard lowercase_store None (t 20) (t 20) (t 10)
       (t 10) 50
     = [{| enum_enumerator_name := "ada"; enum_total_answers := 1;
           enum_flags := ["LOW_CONF"]; enum_severity := 100%float |}].
Proof. split; vm_compute; reflexivity. Qed.

(** * Properties of the further functions *)

(** ** Listings *)

Lemma sql_limit_cases {A : Type} (k : Z) (l : list A) :
  exists n, sql_limit k l = firstn n l.
Proof.
  unfold sql_limit. destruct (k <? 0).
  - exists (List.length l). symmetry. apply firstn_all.
  - eauto.
Qed.

Lemma sql_limit_In {A : Type} (k : Z) (l : list A) (a : A) :
  In a (sql_limit k l) -> In a l.
Proof.
  destruct (sql_limit_cases k l) as [n ->]. revert l.
  induction n as [|n IH]; intros [|x l]; simpl; try tauto.
  intros [H | H]; auto.
Qed.

Lemma sql_limit_negative {A : Type} (k : Z) (l : list A) :
  k < 0 -> sql_limit k l = l.
Proof. intros H. unfold sql_limit. now rewrite (proj2 (Z.ltb_lt k 0) H). Qed.

Lemma sql_limit_length {A : Type} (k : Z) (l : list A) :
  0 <= k -> Z.of_nat (List.length (sql_limit k l)) <= k.
Proof.
  intros H. unfold sql_limit. rewrite (proj2 (Z.ltb_ge k 0) H).
  rewrite length_firstn. lia.
Qed.

Lemma sql_limit_all {A : Type} (k : Z) (l : list A) :
  Z.of_nat (List.length l) <= k -> sql_limit k l = l.
Proof.
  intros H. unfold sql_limit. destruct (k <? 0); [reflexivity|].
  apply firstn_all2. lia.
Qed.

Lemma StronglySorted_firstn {A : Type} (R : A -> A -> Prop) (n : nat) (l : list A) :
  StronglySorted R l -> StronglySorted R (firstn n l).
Proof.
  intros Hs. revert n. induction Hs as [|x l Hs IH Hx]; intros [|n]; simpl;
    try constructor.
  - apply IH.
  - apply Forall_forall. intros y Hy. rewrite Forall_forall in Hx. apply Hx.
    clear -Hy. revert l Hy. induction n as [|n IHn]; intros [|z l]; simpl; try tauto.
    intros [H | H]; auto.
Qed.

Lemma StronglySorted_map_key {A B : Type} (f : A -> B) (R : B -> B -> Prop)
  (l : list A) :
  StronglySorted (fun a b => R (f a) (f b)) l -> StronglySorted R (map f l).
Proof.
  induction 1 as [|x l Hs IH Hx]; simpl; constructor; auto.
  apply Forall_forall. intros y Hy. apply in_map_iff in Hy as (z & <- & Hz).
  rewrite Forall_forall in Hx. now apply Hx.
Qed.

Lemma surveys_with_facility_In (st : store) (where_ : survey_row -> bool)
  (s : survey_row) (f : facility_row) :
  In (s, f) (surveys_with_facility st where_)
  <-> In s (surveys st) /\ where_ s = true
      /\ In f (facilities st) /\ f_id f = s_facility_id s.
Proof.
  unfold surveys_with_facility. rewrite in_flat_map. split.
  - intros (s0 & Hs0 & H). destruct (where_ s0) eqn:W; [|destruct H].
    apply in_map_iff in H as (f0 & E & Hf0). injection E as -> ->.
    apply filter_In in Hf0 as [Hf0 Eid]. apply Z.eqb_eq in Eid. auto.
  - intros (Hs & W & Hf & Eid). exists s. split; [exact Hs|]. rewrite W.
    apply in_map. apply filter_In. split; [exact Hf|]. now apply Z.eqb_eq.
Qed.

(** A facility id of a primary key selects at most one facility. *)
Lemma filter_key_at_most_one (facs : list facility_row) (x : Z) :
  NoDup (map f_id facs) ->
  filter (fun f => f_id f =? x) facs = []
  \/ exists f, filter (fun f => f_id f =? x) facs = [f].
Proof.
  induction facs as [|f facs IH]; simpl; intros Hnd; [now left|].
  apply NoDup_cons_iff in Hnd as [Hf Hnd].
  destruct (Z.eqb_spec (f_id f) x) as [E | E]; [|now apply IH].
  right. exists f. f_equal.
  destruct (filter (fun f0 => f_id f0 =? x) facs) as [|g rest] eqn:Eg; [reflexivity|].
  exfalso. apply Hf.
  assert (Hg : In g (filter (fun f0 => f_id f0 =? x) facs)) by (rewrite Eg; now left).
  apply filter_In in Hg as [Hg Egx]. apply Z.eqb_eq in Egx.
  rewrite E, <- Egx. now apply in_map.
Qed.

Lemma surveys_with_facility_keys (st : store) (where_ : survey_row -> bool) :
  NoDup (map s_id (surveys st)) -> NoDup (map f_id (facilities st)) ->
  NoDup (map (fun sf => s_id (fst sf)) (surveys_with_facility st where_)).
Proof.
  intros Hs Hf. unfold surveys_with_facility.
  induction (surveys st) as [|s rest IH]; simpl; [constructor|].
  apply NoDup_cons_iff in Hs as [Hs Hrest]. specialize (IH Hrest).
  rewrite map_app. destruct (where_ s); [|exact IH].
  destruct (filter_key_at_most_one (facilities st) (s_facility_id s) Hf)
    as [-> | [f ->]]; [exact IH|].
  simpl. constructor; [|exact IH].
  intros Hin. apply Hs. apply in_map_iff in Hin as ([s' f'] & E & Hin).
  apply in_flat_map in Hin as (s0 & Hs0 & Hin).
  destruct (where_ s0); [|destruct Hin].
  apply in_map_iff in Hin as (f0 & E0 & _). injection E0 as <- _.
  simpl in E. rewrite <- E. now apply in_map.
Qed.

Lemma surveys_with_facility_length (st : store) (where_ : survey_row -> bool) :
  (List.length (surveys_with_facility st where_)
   <= List.length (surveys_with_facility st (fun _ => true)))%nat.
Proof.
  unfold surveys_with_facility.
  induction (surveys st) as [|s0 rest IH]; simpl; [constructor|].
  rewrite !length_app. destruct (where_ s0); simpl; lia.
Qed.

(** What the three filters of [filter_surveys] ask of a survey: a filter
    that is [None], empty or zero asks nothing. *)
Lemma filter_conditions_spec (status : option string) (template_id : option Z)
  (enumerator : option string) (s : survey_row) :
  status_condition status s && template_condition template_id s
  && enumerator_condition enumerator s = true
  <-> (forall x, status = Some x -> x <> "" ->
         s_status s = Py.upper (Py.strip x))
      /\ (forall t, template_id = Some t -> t <> 0 -> s_template_id s = Some t)
      /\ (forall e, enumerator = Some e -> e <> "" ->
            sql_like ("%" ++ Py.strip e ++ "%") (s_enumerator_name s) = true).
Proof.
  rewrite !andb_true_iff.
  assert (H1 : status_condition status s = true
               <-> forall x, status = Some x -> x <> "" ->
                     s_status s = Py.upper (Py.strip x)).
  { unfold status_condition. destruct status as [[|c x]|];
      cbn [truthy_str Py.or_str].
    - split; [intros _ x E; injection E as <-; congruence | reflexivity].
    - rewrite String.eqb_eq. split.
      + intros H x' E Hne. now injection E as <-.
      + intros H. apply H; [reflexivity | discriminate].
    - split; [discriminate | reflexivity]. }
  assert (H2 : template_condition template_id s = true
               <-> forall t, template_id = Some t -> t <> 0 ->
                     s_template_id s = Some t).
  { unfold template_condition. destruct template_id as [t|]; cbn.
    - destruct (Z.eqb_spec t 0) as [-> | Hne]; cbn.
      + split; [intros _ t E; injection E as <-; congruence | reflexivity].
      + destruct (s_template_id s) as [t'|].
        * rewrite Z.eqb_eq. split.
          -- intros -> t0 E _. now injection E as <-.
          -- intros H. specialize (H t eq_refl Hne). now injection H.
        * split; [discriminate|]. intros H. now specialize (H t eq_refl Hne).
    - split; [discriminate | reflexivity]. }
  assert (H3 : enumerator_condition enumerator s = true
               <-> forall e, enumerator = Some e -> e <> "" ->
                     sql_like ("%" ++ Py.strip e ++ "%") (s_enumerator_name s)
                     = true).
  { unfold enumerator_condition. destruct enumerator as [[|c x]|];
      cbn [truthy_str Py.or_str].
    - split; [intros _ x E; injection E as <-; congruence | reflexivity].
    - split.
      + intros H x' E Hne. now injection E as <-.
      + intros H. apply H; [reflexivity | discriminate].
    - split; [discriminate | reflexivity]. }
  tauto.
Qed.

(** X1: a row of [filter_surveys] is a stored survey, joined with its stored
    facility, that meets every filter given (status after [strip] and
    [upper], template id, enumerator pattern); filters that are [None],
    empty or zero are not applied; with a negative limit every such survey
    is listed. *)
Theorem filter_surveys_selects (status : option string) (template_id : option Z)
  (enumerator : option string) (limit : Z) (st : store) :
  let meets s :=
    (forall x, status = Some x -> x <> "" -> s_status s = Py.upper (Py.strip x))
    /\ (forall t, template_id = Some t -> t <> 0 -> s_template_id s = Some t)
    /\ (forall e, enumerator = Some e -> e <> "" ->
          sql_like ("%" ++ Py.strip e ++ "%") (s_enumerator_name s) = true) in
  (forall row,
     In row (filter_surveys status template_id enumerator limit st) ->
     exists s f,
       In s (surveys st) /\ In f (facilities st) /\ f_id f = s_facility_id s
       /\ row = listing_of (s, f) /\ meets s)
  /\ (limit < 0 \/ Z.of_nat (List.length (surveys_with_facility st (fun _ => true)))
                   <= limit ->
      forall s f,
        In s (surveys st) -> In f (facilities st) -> f_id f = s_facility_id s ->
        meets s ->
        In (listing_of (s, f)) (filter_surveys status template_id enumerator limit st)).
Proof.
  cbv zeta. unfold filter_surveys. split.
  - intros row Hrow. apply in_map_iff in Hrow as ([s f] & <- & Hin).
    apply sql_limit_In, sort_desc_In, surveys_with_facility_In in Hin
      as (Hs & W & Hf & E).
    exists s, f. repeat split; auto; now apply filter_conditions_spec in W.
  - intros Hlimit s f Hs Hf E Hmeets. apply in_map.
    assert (Hall : forall l : list (survey_row * facility_row),
               Z.of_nat (List.length l)
               <= Z.of_nat (List.length (surveys_with_facility st (fun _ => true))) ->
               sql_limit limit l = l).
    { intros l Hl. destruct Hlimit as [Hneg | Hbig];
        [now apply sql_limit_negative | apply sql_limit_all; lia]. }
    rewrite Hall.
    + apply sort_desc_In, surveys_with_facility_In. repeat split; auto.
      now apply filter_conditions_spec.
    + rewrite (Permutation_length (sort_desc_perm _ _ _)).
      apply Nat2Z.inj_le, surveys_with_facility_length.
Qed.

(** X2: with survey ids and facility ids those of primary keys, the rows of
    [filter_surveys] come by strictly decreasing survey id, and there are at
    most [limit] of them when [limit >= 0]. *)
Theorem filter_surveys_newest_first (status : option string) (template_id : option Z)
  (enumerator : option string) (limit : Z) (st : store) :
  NoDup (map s_id (surveys st)) -> NoDup (map f_id (facilities st)) ->
  StronglySorted (fun a b => l_survey_id b < l_survey_id a)
    (filter_surveys status template_id enumerator limit st)
  /\ (0 <= limit ->
      Z.of_nat (List.length (filter_surveys status template_id enumerator limit st))
      <= limit).
Proof.
  intros Hs Hf. unfold filter_surveys. split.
  - apply StronglySorted_map_key.
    destruct (sql_limit_cases limit
                (sort_desc Z.ltb (fun sf => s_id (fst sf))
                   (surveys_with_facility st
                      (fun s => status_condition status s
                                && template_condition template_id s
                                && enumerator_condition enumerator s))))
      as [n ->].
    apply StronglySorted_firstn.
    apply (order_by_id_desc (fun sf : survey_row * facility_row => s_id (fst sf))).
    now apply surveys_with_facility_keys.
  - intros Hk. rewrite length_map. now apply sql_limit_length.
Qed.

Lemma filter_surveys_newest_first_witness :
  map l_survey_id (filter_surveys (Some " completed") None None 2 ranking_store)
  = [4; 2]
  /\ map l_survey_id (filter_surveys None None (Some "A") (-1) ranking_store)
     = [3; 1]
  /\ StronglySorted (fun a b => l_survey_id b < l_survey_id a)
       (filter_surveys (Some " completed") None None 2 ranking_store)
  /\ Z.of_nat
       (List.length (filter_surveys (Some " completed") None None 2 ranking_store))
     <= 2.
Proof.
  split; [reflexivity|]. split; [reflexivity|].
  assert (Hs : NoDup (map s_id (surveys ranking_store))).
  { cbn. repeat constructor; cbn; intuition discriminate. }
  assert (Hf : NoDup (map f_id (facilities ranking_store))).
  { cbn. repeat constructor; cbn; intuition discriminate. }
  destruct (filter_surveys_newest_first (Some " completed") None None 2
              ranking_store Hs Hf) as [Hsorted Hlen].
  split; [exact Hsorted|]. apply Hlen. lia.
Defined.

(** X4: [filter_surveys] with no filter, or with filters that are empty or
    zero, returns what [list_surveys] returns. *)
Theorem filter_surveys_without_filter (status : option string)
  (template_id : option Z) (enumerator : option string) (limit : Z) (st : store) :
  truthy_str status = false -> truthy_int template_id = false ->
  truthy_str enumerator = false ->
  filter_surveys status template_id enumerator limit st = list_surveys limit st.
Proof.
  intros H1 H2 H3. unfold filter_surveys, list_surveys, status_condition,
    template_condition, enumerator_condition.
  rewrite H1, H2, H3. reflexivity.
Qed.

Lemma filter_surveys_without_filter_witness :
  filter_surveys (Some "") (Some 0) None 10 ranking_store
  = list_surveys 10 ranking_store
  /\ map l_survey_id (list_surveys 10 ranking_store) = [4; 3; 2; 1].
Proof.
  split; [|reflexivity].
  apply filter_surveys_without_filter; reflexivity.
Defined.

Lemma sql_like_percent (p s : string) :
  sql_like (String "%" p) s
  = sql_like p s
    || match s with
       | EmptyString => false
       | String _ s' => sql_like (String "%" p) s'
       end.
Proof. destruct s; reflexivity. Qed.

Lemma sql_like_percent_iff (p s : string) :
  sql_like (String "%" p) s = true
  <-> exists a b, s = a ++ b /\ sql_like p b = true.
Proof.
  induction s as [|c s IH]; rewrite sql_like_percent.
  - rewrite orb_false_r. split.
    + intros H. now exists "", "".
    + intros (a & b & E & H). destruct a; [|discriminate]. simpl in E. now subst b.
  - rewrite orb_true_iff, IH. split.
    + intros [H | (a & b & -> & H)].
      * now exists "", (String c s).
      * now exists (String c a), b.
    + intros (a & b & E & H). destruct a as [|d a]; simpl in E.
      * left. now subst b.
      * right. injection E as <- ->. now exists a, b.
Qed.

Lemma append_empty (s : string) : s ++ "" = s.
Proof. induction s as [|c s IH]; simpl; congruence. Qed.

Lemma sql_like_any (s : string) : sql_like "%" s = true.
Proof.
  apply sql_like_percent_iff. exists s, "". now rewrite append_empty.
Qed.

Lemma sql_like_literal (q p s : string) :
  wildcard_free q = true ->
  (sql_like (q ++ p) s = true
   <-> exists m b, s = m ++ b /\ same_ignoring_case q m = true
                   /\ sql_like p b = true).
Proof.
  revert s. induction q as [|c q IH]; intros s Hq.
  - simpl. split.
    + intros H. now exists "", s.
    + intros (m & b & -> & Hm & H). destruct m; [exact H | discriminate].
  - cbn [wildcard_free] in Hq. apply andb_true_iff in Hq as [Hc Hq].
    apply andb_true_iff in Hc as [Hc1 Hc2].
    apply negb_true_iff in Hc1, Hc2.
    cbn [append sql_like]. rewrite Hc1. destruct s as [|d s].
    + split; [discriminate|]. intros (m & b & E & Hm & _).
      destruct m; [discriminate Hm | discriminate E].
    + rewrite Hc2, orb_false_l, andb_true_iff, (IH s Hq). split.
      * intros (Hcd & m & b & -> & Hm & H). exists (String d m), b.
        cbn. now rewrite Hcd.
      * intros (m & b & E & Hm & H). destruct m as [|d' m]; [discriminate Hm|].
        cbn in E, Hm. injection E as <- ->.
        apply andb_true_iff in Hm as [Hcd Hm]. split; [exact Hcd|]. now exists m, b.
Qed.

(** X3: for a query that, stripped, is not empty and holds neither [%] nor
    [_], the enumerator filter of [filter_surveys] holds exactly of the
    surveys whose enumerator name contains the stripped query, the case of
    ASCII letters being ignored. *)
Theorem enumerator_filter_contains (e : string) (s : survey_row) :
  e <> "" -> wildcard_free (Py.strip e) = true ->
  (enumerator_condition (Some e) s = true
   <-> exists a m b,
         s_enumerator_name s = a ++ m ++ b
         /\ same_ignoring_case (Py.strip e) m = true).
Proof.
  intros He Hq. unfold enumerator_condition.
  destruct e as [|c e]; [congruence|]. cbn [truthy_str Py.or_str].
  change ("%" ++ Py.strip (String c e) ++ "%")
    with (String "%" (Py.strip (String c e) ++ "%")).
  rewrite sql_like_percent_iff. split.
  - intros (a & b & E & H). apply (sql_like_literal _ _ _ Hq) in H
      as (m & b' & -> & Hm & _).
    now exists a, m, b'.
  - intros (a & m & b & E & Hm). exists a, (m ++ b). split; [exact E|].
    apply (sql_like_literal _ _ _ Hq). exists m, b.
    repeat split; auto. apply sql_like_any.
Qed.

Lemma enumerator_filter_contains_witness :
  enumerator_condition (Some " DA ") (sample_survey 1 1 "Ada Obi" "DRAFT") = true
  /\ enumerator_condition (Some "a_a") (sample_survey 1 1 "Ada Obi" "DRAFT") = true
  /\ enumerator_condition (Some "dab") (sample_survey 1 1 "Ada Obi" "DRAFT") = false.
Proof.
  split; [|split; reflexivity].
  apply (enumerator_filter_contains " DA " (sample_survey 1 1 "Ada Obi" "DRAFT"));
    [discriminate | reflexivity |].
  exists "A", "da", " Obi". split; reflexivity.
Defined.

(** ** Facilities *)

Lemma rstrip_idempotent (s : string) : Py.rstrip (Py.rstrip s) = Py.rstrip s.
Proof.
  induction s as [|c s IH]; [reflexivity|].
  cbn [Py.rstrip]. destruct (Py.rstrip s) as [|d r] eqn:E.
  - destruct (Py.isspace c) eqn:Ec; [reflexivity|].
    cbn [Py.rstrip]. now rewrite Ec.
  - change (Py.rstrip (String c (String d r)))
      with (match Py.rstrip (String d r) with
            | EmptyString => if Py.isspace c then EmptyString else String c EmptyString
            | String e r' => String c (String e r')
            end).
    now rewrite IH.
Qed.

Lemma lstrip_rstrip_head (c : ascii) (s : string) :
  Py.isspace c = false ->
  Py.lstrip (Py.rstrip (String c s)) = Py.rstrip (String c s).
Proof.
  intros Hc. cbn [Py.rstrip]. destruct (Py.rstrip s); rewrite ?Hc; cbn;
    now rewrite Hc.
Qed.

Lemma strip_idempotent (s : string) : Py.strip (Py.strip s) = Py.strip s.
Proof.
  unfold Py.strip.
  destruct (lstrip_cases s) as [E | (c & s' & E & Hc)]; rewrite E.
  - reflexivity.
  - rewrite (lstrip_rstrip_head c s' Hc). apply rstrip_idempotent.
Qed.

Lemma or_str_some_nonempty (s : string) : s <> "" -> Py.or_str (Some s) "" = s.
Proof. now destruct s. Qed.

Lemma not_str_false_iff (s : string) : Py.not_str s = false <-> s <> "".
Proof. destruct s; simpl; split; congruence. Qed.

Lemma lower_empty_iff (s : string) : lower s = "" <-> s = "".
Proof. destruct s; simpl; split; congruence. Qed.

Lemma facility_lookup_after_append (st : store) (row : facility_row) (x : Z) :
  ~ In (f_id row) (map f_id (facilities st)) ->
  facility_name_or_dash
    {| facilities := facilities st ++ [row];
       surveys := surveys st;
       survey_answers := survey_answers st |} x
  = if x =? f_id row then f_name row else facility_name_or_dash st x.
Proof.
  intros Hfresh. unfold facility_name_or_dash; cbn [facilities].
  rewrite filter_app. cbn [filter]. rewrite (Z.eqb_sym (f_id row) x).
  destruct (Z.eqb_spec x (f_id row)) as [-> | Hne].
  - assert (E : filter (fun f => f_id f =? f_id row) (facilities st) = []).
    { destruct (filter _ (facilities st)) as [|g rest] eqn:Eg; [reflexivity|].
      exfalso. apply Hfresh.
      assert (Hg : In g (filter (fun f => f_id f =? f_id row) (facilities st)))
        by (rewrite Eg; now left).
      apply filter_In in Hg as [Hg Egx]. apply Z.eqb_eq in Egx.
      rewrite <- Egx. now apply in_map. }
    now rewrite E.
  - now rewrite app_nil_r.
Qed.

(** X5: [add_facility] raises on a name that is absent, empty or
    whitespace-only and leaves the store as it was; otherwise it appends one
    facility under an id no facility had and returns that id, after which
    the name looked up for that id is the stripped name and the name looked
    up for every other id is what it was. *)
Theorem add_facility_then_lookup (name : option string) (st : store) :
  (Py.whitespace_only (Py.or_str name "") = true ->
   add_facility name st = (st, Raise "Facility name cannot be empty."))
  /\ (Py.whitespace_only (Py.or_str name "") = false ->
      exists id st',
        add_facility name st = (st', Ok id)
        /\ ~ In id (map f_id (facilities st))
        /\ facilities st' =
             (facilities st ++ [{| f_id := id; f_name := Py.strip (Py.or_str name "") |}])%list
        /\ surveys st' = surveys st /\ survey_answers st' = survey_answers st
        /\ facility_name_or_dash st' id = Py.strip (Py.or_str name "")
        /\ forall x, x <> id ->
             facility_name_or_dash st' x = facility_name_or_dash st x).
Proof.
  unfold add_facility. rewrite not_str_strip. split; intros H; rewrite H.
  - reflexivity.
  - eexists _, _. split; [reflexivity|].
    pose proof (next_rowid_fresh (map f_id (facilities st))) as Hfresh.
    split; [exact Hfresh|]. cbn [facilities surveys survey_answers].
    repeat split.
    + rewrite facility_lookup_after_append by exact Hfresh.
      cbn [f_id f_name]. now rewrite Z.eqb_refl.
    + intros x Hx. rewrite facility_lookup_after_append by exact Hfresh.
      cbn [f_id f_name]. now rewrite (proj2 (Z.eqb_neq _ _) Hx).
Qed.

Lemma hd_error_picks {A : Type} : picks_a_row (@hd_error A).
Proof. intros [|r rows]; [reflexivity | now left]. Qed.

Lemma picked_of_one {A : Type} (first_match : list A -> option A) (r : A) :
  picks_a_row first_match -> first_match [r] = Some r.
Proof.
  intros Hpick. specialize (Hpick [r]).
  destruct (first_match [r]) as [x|]; [|discriminate].
  destruct Hpick as [-> | []]. reflexivity.
Qed.

(** X6: whichever matching row the lookup returns, for a name that is not
    blank [_get_or_create_facility_by_name] returns the id of a stored
    facility whose name is the stripped name up to ASCII case, adding at
    most that one facility; called again on the store it leaves, with the
    same name or any name equal to it up to case and surrounding
    whitespace, it returns the same id and changes nothing. *)
Theorem get_or_create_facility_is_idempotent
  (first_match : list facility_row -> option facility_row)
  (name : option string) (st : store) :
  picks_a_row first_match ->
  Py.whitespace_only (Py.or_str name "") = false ->
  exists id st',
    _get_or_create_facility_by_name first_match name st = (st', Ok id)
    /\ (exists f, In f (facilities st') /\ f_id f = id
                  /\ lower (f_name f) = lower (Py.strip (Py.or_str name "")))
    /\ (st' = st
        \/ facilities st' =
             (facilities st
              ++ [{| f_id := id; f_name := Py.strip (Py.or_str name "") |}])%list)
    /\ surveys st' = surveys st /\ survey_answers st' = survey_answers st
    /\ forall name',
         lower (Py.strip (Py.or_str name' ""))
         = lower (Py.strip (Py.or_str name "")) ->
         _get_or_create_facility_by_name first_match name' st' = (st', Ok id).
Proof.
  intros Hpick Hname.
  set (n := Py.strip (Py.or_str name "")).
  assert (Hn : n <> "").
  { intros E. apply strip_empty_iff in E. congruence. }
  assert (Hagain : forall st1 row name',
             first_match
               (filter (fun f => String.eqb (lower (f_name f)) (lower n))
                  (facilities st1)) = Some row ->
             lower (Py.strip (Py.or_str name' "")) = lower n ->
             _get_or_create_facility_by_name first_match name' st1
             = (st1, Ok (f_id row))).
  { intros st1 row name' Efound Elower.
    unfold _get_or_create_facility_by_name.
    assert (Hn' : Py.strip (Py.or_str name' "") <> "").
    { intros E. apply Hn, lower_empty_iff. now rewrite <- Elower, E. }
    rewrite (proj2 (not_str_false_iff _) Hn'), Elower, Efound. reflexivity. }
  unfold _get_or_create_facility_by_name at 1. fold n.
  rewrite (proj2 (not_str_false_iff n) Hn).
  pose proof (Hpick (filter (fun f => String.eqb (lower (f_name f)) (lower n))
                       (facilities st))) as Hrows.
  destruct (first_match
              (filter (fun f => String.eqb (lower (f_name f)) (lower n))
                 (facilities st))) as [row|] eqn:Efound.
  - exists (f_id row), st. split; [reflexivity|].
    apply filter_In in Hrows as [Hrow Erow]. apply String.eqb_eq in Erow.
    split; [now exists row|]. split; [now left|].
    split; [reflexivity|]. split; [reflexivity|].
    intros name' Elower. now apply (Hagain st row name').
  - unfold add_facility. rewrite (or_str_some_nonempty n Hn).
    unfold n at 1 2. rewrite strip_idempotent. fold n.
    rewrite (proj2 (not_str_false_iff n) Hn).
    set (new := {| f_id := next_rowid (map f_id (facilities st)); f_name := n |}).
    set (st1 := {| facilities := facilities st ++ [new];
                   surveys := surveys st;
                   survey_answers := survey_answers st |}).
    exists (f_id new), st1. split; [reflexivity|].
    split; [|split; [now right|split; [reflexivity|split; [reflexivity|]]]].
    + exists new. split; [apply in_or_app; right; now left|]. now split.
    + intros name' Elower.
      apply (Hagain st1 new name'); [|exact Elower].
      unfold st1; cbn [facilities]. rewrite filter_app, Hrows.
      cbn [filter app new f_name]. rewrite String.eqb_refl.
      now apply picked_of_one.
Qed.

Lemma get_or_create_facility_is_idempotent_witness :
  let st' := fst (_get_or_create_facility_by_name (@hd_error facility_row)
                    (Some " Rural PHC ") ranking_store) in
  _get_or_create_facility_by_name (@hd_error facility_row) (Some " Rural PHC ")
    ranking_store = (st', Ok 2)
  /\ map f_name (facilities st') = ["Clinic A"; "Rural PHC"]
  /\ _get_or_create_facility_by_name (@hd_error facility_row) (Some "rural phc") st'
     = (st', Ok 2)
  /\ _get_or_create_facility_by_name (@hd_error facility_row) (Some "CLINIC A") st'
     = (st', Ok 1).
Proof.
  cbv zeta. split; [reflexivity|]. split; [reflexivity|]. split; [|reflexivity].
  destruct (get_or_create_facility_is_idempotent (@hd_error facility_row)
              (Some " Rural PHC ") ranking_store hd_error_picks eq_refl)
    as (id & st' & E & _ & _ & _ & _ & Hagain).
  change (_get_or_create_facility_by_name (@hd_error facility_row)
            (Some " Rural PHC ") ranking_store)
    with (fst (_get_or_create_facility_by_name (@hd_error facility_row)
                 (Some " Rural PHC ") ranking_store),
          @Ok Z 2) in E.
  injection E as <- <-. apply Hagain. reflexivity.
Defined.

(** ** Drafts of an enumerator *)

Lemma sort_desc_newest_last {A : Type} (key : A -> Z) (l : list A) (x : A) :
  (forall y, In y l -> key y < key x) ->
  sort_desc Z.ltb key (l ++ [x]) = x :: sort_desc Z.ltb key l.
Proof.
  induction l as [|a l IH]; intros Hmax; [reflexivity|].
  change (sort_desc Z.ltb key ((a :: l) ++ [x]))
    with (insert_desc Z.ltb key a (sort_desc Z.ltb key (l ++ [x]))).
  rewrite IH by (intros y Hy; apply Hmax; now right).
  cbn [insert_desc].
  now rewrite (proj2 (Z.ltb_lt (key a) (key x)) (Hmax a (or_introl eq_refl))).
Qed.

Lemma sql_limit_head {A : Type} (k : Z) (x : A) (l : list A) :
  k <> 0 -> hd_error (sql_limit k (x :: l)) = Some x.
Proof.
  intros Hk. unfold sql_limit. destruct (k <? 0) eqn:E; [reflexivity|].
  apply Z.ltb_ge in E. destruct (Z.to_nat k) as [|n] eqn:En; [lia|reflexivity].
Qed.

Lemma same_key_same_row {A : Type} (key : A -> Z) (l : list A) (a b : A) :
  NoDup (map key l) -> In a l -> In b l -> key a = key b -> a = b.
Proof.
  induction l as [|x l IH]; intros Hnd Ha Hb E; [destruct Ha|].
  cbn [map] in Hnd. apply NoDup_cons_iff in Hnd as [Hx Hnd].
  destruct Ha as [-> | Ha], Hb as [-> | Hb].
  - reflexivity.
  - exfalso. apply Hx. rewrite E. now apply in_map.
  - exfalso. apply Hx. rewrite <- E. now apply in_map.
  - now apply IH.
Qed.

Lemma drafts_for_enum_In (q : option string) (limit : Z) (st : store)
  (d : draft_listing) :
  In d (_drafts_for_enum q limit st) ->
  exists s f,
    In s (surveys st) /\ In f (facilities st) /\ f_id f = s_facility_id s
    /\ s_status s = "DRAFT"
    /\ s_enumerator_name s = Py.strip (Py.or_str q "")
    /\ d = draft_of (s, f).
Proof.
  unfold _drafts_for_enum.
  destruct (Py.not_str (Py.strip (Py.or_str q ""))); [intros []|].
  intros Hd. apply in_map_iff in Hd as ([s f] & <- & Hsf).
  apply sql_limit_In, sort_desc_In, surveys_with_facility_In in Hsf
    as (Hs & Hw & Hf & Ef).
  apply andb_true_iff in Hw as [Hst Hen].
  apply String.eqb_eq in Hst, Hen.
  exists s, f. repeat split; assumption.
Qed.

(** X7: [_drafts_for_enum] returns nothing for a blank name; every draft it
    lists is a stored survey of status DRAFT, joined with its stored
    facility, whose enumerator name is exactly the query stripped of
    surrounding whitespace; with a negative limit every such survey is
    listed.  So a draft stored under a name that is not its own stripped
    form is listed for no query. *)
Theorem drafts_for_enum_selects (q : option string) (limit : Z) (st : store) :
  (Py.whitespace_only (Py.or_str q "") = true -> _drafts_for_enum q limit st = [])
  /\ (forall d, In d (_drafts_for_enum q limit st) ->
        exists s f,
          In s (surveys st) /\ In f (facilities st) /\ f_id f = s_facility_id s
          /\ s_status s = "DRAFT"
          /\ s_enumerator_name s = Py.strip (Py.or_str q "")
          /\ d = draft_of (s, f))
  /\ (forall s f,
        limit < 0 -> Py.whitespace_only (Py.or_str q "") = false ->
        In s (surveys st) -> In f (facilities st) -> f_id f = s_facility_id s ->
        s_status s = "DRAFT" ->
        s_enumerator_name s = Py.strip (Py.or_str q "") ->
        In (draft_of (s, f)) (_drafts_for_enum q limit st))
  /\ (forall s,
        NoDup (map s_id (surveys st)) -> In s (surveys st) ->
        Py.strip (s_enumerator_name s) <> s_enumerator_name s ->
        ~ In (s_id s) (map d_id (_drafts_for_enum q limit st))).
Proof.
  split; [|split; [|split]].
  - intros H. unfold _drafts_for_enum. now rewrite not_str_strip, H.
  - apply drafts_for_enum_In.
  - intros s f Hl Hq Hs Hf Ef Hst Hen. unfold _drafts_for_enum.
    rewrite not_str_strip, Hq.
    apply (in_map draft_of). rewrite sql_limit_negative by exact Hl.
    apply sort_desc_In, surveys_with_facility_In.
    repeat split; try assumption.
    apply andb_true_iff. split; apply String.eqb_eq; assumption.
  - intros s Hnodup Hs Hstrip Hin. apply in_map_iff in Hin as (d & Eid & Hd).
    apply drafts_for_enum_In in Hd as (s' & f & Hs' & _ & _ & _ & Hen & ->).
    cbn [draft_of d_id fst] in Eid.
    assert (s' = s) as -> by now apply (same_key_same_row s_id (surveys st)).
    apply Hstrip. rewrite Hen. apply strip_idempotent.
Qed.

(** X8: once [create_survey] has stored a survey for a stored facility
    (facility ids distinct) under an enumerator name that is not empty and
    has no surrounding whitespace, [_drafts_for_enum] for that name, with
    any limit other than zero, lists it first, with the facility's name, the
    template id, the survey type and the creation time given; and once
    [complete_survey] has been called on its id, no draft listing holds that
    id, whatever the name and the limit. *)
Theorem new_draft_listed_until_completed (now : string) (fid : Z)
  (ty en : string) (tid : option Z) (limit : Z) (st : store) (f : facility_row) :
  NoDup (map f_id (facilities st)) -> In f (facilities st) -> f_id f = fid ->
  Py.strip en = en -> en <> "" -> limit <> 0 ->
  let st1 := fst (create_survey now fid ty en tid st) in
  let id := snd (create_survey now fid ty en tid st) in
  hd_error (_drafts_for_enum (Some en) limit st1)
  = Some {| d_id := id; d_facility_name := f_name f; d_template_id := tid;
            d_survey_type := ty; d_created_at := now |}
  /\ forall q k,
       ~ In id (map d_id (_drafts_for_enum q k (complete_survey id st1))).
Proof.
  intros Hnodup Hf Efid Hstrip Hen Hlimit. cbv zeta.
  rewrite create_survey_appends. cbn [fst snd].
  set (id := next_rowid (map s_id (surveys st))).
  set (new := {| s_id := id; s_facility_id := fid; s_template_id := tid;
                 s_survey_type := ty; s_enumerator_name := en;
                 s_status := "DRAFT"; s_created_at := now |}).
  set (st1 := {| facilities := facilities st; surveys := surveys st ++ [new];
                 survey_answers := survey_answers st |}).
  split.
  - unfold _drafts_for_enum.
    rewrite (or_str_some_nonempty en Hen), Hstrip,
      (proj2 (not_str_false_iff en) Hen).
    set (where_ := fun s => (String.eqb (s_status s) "DRAFT"
                             && String.eqb (s_enumerator_name s) en)%bool).
    assert (Ejoin : surveys_with_facility st1 where_
                    = (surveys_with_facility st where_ ++ [(new, f)])%list).
    { unfold surveys_with_facility, st1; cbn [surveys facilities].
      rewrite flat_map_app. f_equal. cbn [flat_map].
      assert (Ew : where_ new = true).
      { unfold where_, new; cbn [s_status s_enumerator_name].
        now rewrite String.eqb_refl, String.eqb_refl. }
      rewrite Ew, app_nil_r. change (s_facility_id new) with fid.
      destruct (filter_key_at_most_one (facilities st) fid Hnodup)
        as [E | (g & E)]; rewrite E.
      - exfalso.
        assert (Hin : In f (filter (fun f => f_id f =? fid) (facilities st))).
        { apply filter_In. split; [exact Hf|]. now apply Z.eqb_eq. }
        now rewrite E in Hin.
      - assert (Hin : In f (filter (fun f => f_id f =? fid) (facilities st))).
        { apply filter_In. split; [exact Hf|]. now apply Z.eqb_eq. }
        rewrite E in Hin. destruct Hin as [-> | []]. reflexivity. }
    rewrite Ejoin, sort_desc_newest_last.
    + pose proof (sql_limit_head limit (new, f)
                    (sort_desc Z.ltb (fun sf => s_id (fst sf))
                       (surveys_with_facility st where_)) Hlimit) as Hh.
      destruct (sql_limit limit ((new, f) :: _)) as [|x rest]; [discriminate|].
      injection Hh as ->. reflexivity.
    + intros [s g] Hsg. apply surveys_with_facility_In in Hsg as (Hs & _).
      cbn [fst new s_id]. apply next_rowid_above. now apply in_map.
  - intros q k Hin. apply in_map_iff in Hin as (d & Ed & Hd).
    apply drafts_for_enum_In in Hd as (s & g & Hs & _ & _ & Hst & _ & ->).
    cbn [draft_of d_id fst] in Ed.
    unfold complete_survey in Hs; cbn [surveys] in Hs.
    apply in_map_iff in Hs as (s0 & <- & _).
    destruct (s_id s0 =? id) eqn:E0.
    + cbn [s_status] in Hst. discriminate.
    + apply Z.eqb_neq in E0. now apply E0.
Qed.

Lemma new_draft_listed_until_completed_witness :
  let st1 := fst (create_survey "2024-05-01T10:00:00" 1 "Manual Survey" "ada" None
                    ranking_store) in
  map d_id (_drafts_for_enum (Some " ada ") 50 st1) = [5; 3]
  /\ hd_error (_drafts_for_enum (Some "ada") 50 st1)
     = Some {| d_id := 5; d_facility_name := "Clinic A"; d_template_id := None;
               d_survey_type := "Manual Survey";
               d_created_at := "2024-05-01T10:00:00" |}
  /\ map d_id (_drafts_for_enum (Some "ada") 50 (complete_survey 5 st1)) = [3].
Proof.
  cbv zeta. split; [reflexivity|]. split; [|reflexivity].
  refine (proj1 (new_draft_listed_until_completed "2024-05-01T10:00:00" 1
                   "Manual Survey" "ada" None 50 ranking_store
                   {| f_id := 1; f_name := "Clinic A" |} _ _ _ _ _ _)).
  - repeat constructor. intros [].
  - now left.
  - reflexivity.
  - reflexivity.
  - discriminate.
  - discriminate.
Defined.

(** ** The guided survey flow *)

Section ValidationProperties.
Variable float_of_str : string -> result float.

(** X9: an answer [_validate_by_type] accepts is in normal form: it has no
    surrounding whitespace, it is [YES] or [NO] for a yes/no question, it is
    not empty for a question that is neither yes/no nor a number, and
    validating it again for the same question type returns it unchanged. *)
Theorem validated_answer_is_normal (qtype raw : option string) (v : string) :
  _validate_by_type float_of_str qtype raw = Ok v ->
  Py.strip v = v
  /\ (Py.upper (Py.strip (Py.or_str qtype "")) = "YESNO" -> v = "YES" \/ v = "NO")
  /\ (Py.upper (Py.strip (Py.or_str qtype "")) <> "YESNO" ->
      Py.upper (Py.strip (Py.or_str qtype "")) <> "NUMBER" -> v <> "")
  /\ _validate_by_type float_of_str qtype (Some v) = Ok v.
Proof.
  unfold _validate_by_type.
  set (qt := Py.upper (Py.strip (Py.or_str qtype ""))).
  destruct (String.eqb_spec qt "YESNO") as [Eyn | Nyn].
  - destruct (py_in (lower (Py.strip (Py.or_str raw ""))) ["yes"; "y"; "true"; "1"]).
    + intros [= <-]. repeat split; try reflexivity; [now left | congruence].
    + destruct (py_in (lower (Py.strip (Py.or_str raw ""))) ["no"; "n"; "false"; "0"]);
        [|discriminate].
      intros [= <-]. repeat split; try reflexivity; [now right | congruence].
  - destruct (String.eqb_spec qt "NUMBER") as [Enum | Nnum].
    + destruct (float_of_str (Py.strip (Py.or_str raw ""))) as [x|msg] eqn:Ef;
        [|discriminate].
      intros [= <-].
      assert (Eagain : Py.strip (Py.or_str (Some (Py.strip (Py.or_str raw ""))) "")
                       = Py.strip (Py.or_str raw "")).
      { destruct (Py.strip (Py.or_str raw "")) as [|c s] eqn:Es; [reflexivity|].
        cbn [Py.or_str]. rewrite <- Es. apply strip_idempotent. }
      repeat split.
      * apply strip_idempotent.
      * congruence.
      * congruence.
      * now rewrite Eagain, Ef.
    + destruct (Py.strip (Py.or_str raw "")) as [|c s] eqn:Es; [discriminate|].
      cbn [Py.not_str]. intros [= <-].
      assert (Estrip : Py.strip (String c s) = String c s)
        by (rewrite <- Es; apply strip_idempotent).
      repeat split.
      * exact Estrip.
      * congruence.
      * discriminate.
      * cbn [Py.or_str]. now rewrite Estrip.
Qed.

End ValidationProperties.

Lemma validated_answer_is_normal_witness :
  let float_of_str (s : string) : result float :=
    if String.eqb s "12.5" then Ok 12.5%float
    else Raise "could not convert string to float" in
  _validate_by_type float_of_str (Some " yesno") (Some " Y ") = Ok "YES"
  /\ _validate_by_type float_of_str (Some "number") (Some " 12.5 ") = Ok "12.5"
  /\ _validate_by_type float_of_str (Some "number") (Some "12.5") = Ok "12.5"
  /\ _validate_by_type float_of_str None (Some "  ")
     = Raise "Response is required.".
Proof.
  cbv zeta. split; [reflexivity|]. split; [reflexivity|]. split; [|reflexivity].
  apply (validated_answer_is_normal _ (Some "number") (Some " 12.5 ") "12.5").
  reflexivity.
Defined.

Lemma first_index_none {A : Type} (p : A -> bool) (l : list A) :
  first_index p l = None <-> forall x, In x l -> p x = false.
Proof.
  induction l as [|a l IH]; cbn [first_index].
  - split; [intros _ x [] | reflexivity].
  - destruct (p a) eqn:Ea.
    + split; [discriminate|]. intros H. rewrite (H a (or_introl eq_refl)) in Ea.
      discriminate.
    + destruct (first_index p l) as [i|].
      * split; [discriminate|]. intros H.
        assert (Hc : Some i = None) by (apply IH; intros x Hx; apply H; now right).
        discriminate.
      * split; [|reflexivity]. intros _ x [<- | Hx]; [exact Ea|].
        now apply (proj1 IH).
Qed.

Lemma first_index_some {A : Type} (p : A -> bool) (l : list A) (i : Z) :
  first_index p l = Some i ->
  0 <= i < Z.of_nat (List.length l)
  /\ (exists x, nth_error l (Z.to_nat i) = Some x /\ p x = true)
  /\ (forall j y, 0 <= j < i -> nth_error l (Z.to_nat j) = Some y -> p y = false).
Proof.
  revert i. induction l as [|a l IH]; intros i; cbn [first_index]; [discriminate|].
  destruct (p a) eqn:Ea.
  - intros [= <-]. cbn [List.length]. split; [lia|].
    split; [exists a; now split | intros j y Hj; lia].
  - destruct (first_index p l) as [k|]; [|discriminate].
    intros [= <-]. destruct (IH k eq_refl) as (Hk & (x & Hx & Px) & Hbefore).
    cbn [List.length]. split; [lia|].
    assert (Ek : Z.to_nat (k + 1) = S (Z.to_nat k)) by lia.
    split.
    + exists x. rewrite Ek. now split.
    + intros j y Hj Hy. destruct (Z.eq_dec j 0) as [-> | Hj0].
      * cbn in Hy. now injection Hy as <-.
      * assert (Ej : Z.to_nat j = S (Z.to_nat (j - 1))) by lia.
        rewrite Ej in Hy. cbn [nth_error] in Hy.
        apply (Hbefore (j - 1) y); [lia | exact Hy].
Qed.

(** X10: the index [_find_next_unanswered_index] returns is never negative
    and lies within a non-empty question list.  When some required question
    has no entry in the map, it is the position of the first such question;
    when only optional questions have no entry, it is the position of the
    first of them; when every question has an entry (or there is no
    question), it is 0. *)
Theorem next_unanswered_index_cases {V : Type}
  (qs : list template_question) (m : dict V) :
  let i := _find_next_unanswered_index qs m in
  let unanswered q := dict_in (q_id q) m = false in
  0 <= i
  /\ (qs <> [] -> i < Z.of_nat (List.length qs))
  /\ ((exists q, In q qs /\ q_is_required q = 1 /\ unanswered q) ->
      exists q, nth_error qs (Z.to_nat i) = Some q
                /\ q_is_required q = 1 /\ unanswered q
                /\ forall j q', 0 <= j < i -> nth_error qs (Z.to_nat j) = Some q' ->
                     ~ (q_is_required q' = 1 /\ unanswered q'))
  /\ ((exists q, In q qs /\ unanswered q) ->
      (forall q, In q qs -> q_is_required q = 1 -> ~ unanswered q) ->
      exists q, nth_error qs (Z.to_nat i) = Some q /\ unanswered q
                /\ forall j q', 0 <= j < i -> nth_error qs (Z.to_nat j) = Some q' ->
                     ~ unanswered q')
  /\ ((forall q, In q qs -> ~ unanswered q) -> i = 0).
Proof.
  cbv zeta. unfold _find_next_unanswered_index.
  set (required_open :=
         fun q => (q_is_required q =? 1) && negb (dict_in (q_id q) m)).
  set (open := fun q : template_question => negb (dict_in (q_id q) m)).
  assert (Hreq : forall q, required_open q = true
                           <-> q_is_required q = 1 /\ dict_in (q_id q) m = false).
  { intros q. unfold required_open.
    rewrite andb_true_iff, Z.eqb_eq, negb_true_iff. reflexivity. }
  assert (Hopen : forall q, open q = true <-> dict_in (q_id q) m = false).
  { intros q. unfold open. apply negb_true_iff. }
  destruct (first_index required_open qs) as [i|] eqn:E1.
  - destruct (first_index_some _ _ _ E1) as (Hi & (x & Hx & Px) & Hbefore).
    split; [lia|]. split; [lia|]. split; [|split].
    + intros _. exists x. apply Hreq in Px as [Pr Pu].
      repeat split; try assumption.
      intros j q' Hj Hq' Hc. apply Hreq in Hc.
      rewrite (Hbefore j q' Hj Hq') in Hc. discriminate.
    + intros _ Hnone. exfalso. apply Hreq in Px as [Pr Pu].
      apply (Hnone x); [now apply nth_error_In in Hx | exact Pr | exact Pu].
    + intros Hall. exfalso. apply Hreq in Px as [_ Pu].
      apply (Hall x); [now apply nth_error_In in Hx | exact Pu].
  - pose proof (proj1 (first_index_none _ _) E1) as Hnone1.
    assert (Hno_required : forall q, In q qs ->
               ~ (q_is_required q = 1 /\ dict_in (q_id q) m = false)).
    { intros q Hq Hc. apply Hreq in Hc. rewrite (Hnone1 q Hq) in Hc. discriminate. }
    destruct (first_index open qs) as [i|] eqn:E2.
    + destruct (first_index_some _ _ _ E2) as (Hi & (x & Hx & Px) & Hbefore).
      split; [lia|]. split; [lia|]. split; [|split].
      * intros (q & Hq & Hr & Hu). exfalso. now apply (Hno_required q Hq).
      * intros _ _. exists x. apply Hopen in Px. split; [exact Hx|].
        split; [exact Px|]. intros j q' Hj Hq' Hc. apply Hopen in Hc.
        rewrite (Hbefore j q' Hj Hq') in Hc. discriminate.
      * intros Hall. exfalso. apply Hopen in Px.
        apply (Hall x); [now apply nth_error_In in Hx | exact Px].
    + pose proof (proj1 (first_index_none _ _) E2) as Hnone2.
      split; [lia|]. split.
      { intros Hne. destruct qs; [congruence | cbn [List.length]; lia]. }
      split; [|split].
      * intros (q & Hq & Hr & Hu). exfalso. now apply (Hno_required q Hq).
      * intros (q & Hq & Hu) _. exfalso. apply Hopen in Hu.
        rewrite (Hnone2 q Hq) in Hu. discriminate.
      * reflexivity.
Qed.

(** ** Template answers *)

Lemma dict_get_set {V : Type} (k k' : Z) (v : V) (m : dict V) :
  dict_get k (dict_set k' v m) = if k' =? k then Some v else dict_get k m.
Proof.
  induction m as [|[k0 v0] m IH]; cbn [dict_set dict_get]; [reflexivity|].
  destruct (Z.eqb_spec k0 k') as [-> | Hne]; cbn [dict_get].
  - now destruct (k' =? k).
  - rewrite IH. destruct (Z.eqb_spec k0 k) as [-> | Hne']; [|reflexivity].
    now rewrite (proj2 (Z.eqb_neq k' k)) by congruence.
Qed.

Lemma dict_get_fold_rows (k : Z) (rows : list answer_row) (m0 : dict answer_entry) :
  dict_get k
    (fold_left
       (fun m r =>
          match a_template_question_id r with
          | Some tqid => dict_set tqid (answer_entry_of r) m
          | None => m
          end) rows m0)
  = match hd_error (rev (filter (for_question k) rows)) with
    | Some r => Some (answer_entry_of r)
    | None => dict_get k m0
    end.
Proof.
  revert m0. induction rows as [|r rows IH]; intros m0; [reflexivity|].
  cbn [fold_left filter]. rewrite IH.
  replace (for_question k r)
    with (match a_template_question_id r with
          | Some t => t =? k
          | None => false
          end) by reflexivity.
  destruct (a_template_question_id r) as [t|] eqn:Et.
  - rewrite dict_get_set. destruct (t =? k); [|reflexivity].
    cbn [rev]. destruct (rev (filter (for_question k) rows)); reflexivity.
  - reflexivity.
Qed.

Lemma template_answer_map_get (sid k : Z) (st : store) :
  dict_get k (_template_answer_map sid st)
  = option_map answer_entry_of (hd_error (rev (answers_of_question sid k st))).
Proof.
  unfold _template_answer_map. rewrite dict_get_fold_rows. cbn [dict_get].
  assert (E : filter (for_question k)
                (filter (fun r => (a_survey_id r =? sid)
                                  && match a_template_question_id r with
                                     | Some _ => true
                                     | None => false
                                     end) (survey_answers st))
              = answers_of_question sid k st).
  { unfold answers_of_question.
    induction (survey_answers st) as [|r l IH]; [reflexivity|].
    cbn [filter].
    destruct (a_survey_id r =? sid); cbn [andb]; [|exact IH].
    destruct (a_template_question_id r) as [t|] eqn:Et; [|exact IH].
    cbn [filter]. unfold for_question at 1. rewrite Et, IH. reflexivity. }
  rewrite E. now destruct (hd_error (rev (answers_of_question sid k st))).
Qed.

Lemma add_answer_cases now survey_id question answer template_question_id
  answer_source confidence_level is_missing missing_reason st :
  (exists msg,
      add_answer now survey_id question answer template_question_id answer_source
        confidence_level is_missing missing_reason st = (st, Raise msg))
  \/ add_answer now survey_id question answer template_question_id answer_source
       confidence_level is_missing missing_reason st
     = ({| facilities := facilities st;
           surveys := surveys st;
           survey_answers :=
             survey_answers st
             ++ [added_answer now survey_id question answer template_question_id
                   answer_source confidence_level is_missing missing_reason st] |},
        Ok (next_rowid (map a_id (survey_answers st)))).
Proof.
  destruct (Py.whitespace_only (Py.or_str question "")) eqn:Eq.
  - left. unfold add_answer. rewrite whitespace_only_not_str, Eq. eauto.
  - destruct (Py.whitespace_only (Py.or_str answer "")) eqn:Ea.
    + destruct (Z.eqb_spec is_missing 0) as [-> | Hm].
      * left. unfold add_answer.
        rewrite whitespace_only_not_str, Eq, eqb_empty_whitespace, Ea. cbn. eauto.
      * destruct (answer_ints_fit survey_id template_question_id is_missing)
          eqn:Efit.
        -- right. apply add_answer_inserts; [exact Eq | now right | exact Efit].
        -- left. exists overflow_message.
           apply add_answer_overflows; [exact Eq | now right | exact Efit].
    + destruct (answer_ints_fit survey_id template_question_id is_missing)
        eqn:Efit.
      * right. apply add_answer_inserts; [exact Eq | now left | exact Efit].
      * left. exists overflow_message.
        apply add_answer_overflows; [exact Eq | now left | exact Efit].
Qed.

Lemma filter_map_same {A : Type} (p : A -> bool) (g : A -> A) (l : list A) :
  (forall x, p (g x) = p x) -> filter p (map g l) = map g (filter p l).
Proof.
  intros Hg. induction l as [|x l IH]; [reflexivity|].
  cbn [map filter]. rewrite Hg, IH. now destruct (p x).
Qed.

(** The row an [UPDATE survey_answers SET ... WHERE id=?] leaves. *)
Lemma upsert_cases now sid tq question_text answer source confidence is_missing
  missing_reason st :
  (exists r0 rest,
      answers_of_question sid tq st = r0 :: rest
      /\ _upsert_template_answer now sid tq question_text answer source confidence
           is_missing missing_reason st
         = ({| facilities := facilities st;
               surveys := surveys st;
               survey_answers :=
                 map (fun r =>
                        if a_id r =? a_id r0 then
                          {| a_id := a_id r;
                             a_survey_id := a_survey_id r;
                             a_template_question_id := a_template_question_id r;
                             a_question := question_text;
                             a_answer := Some answer;
                             a_answer_source := source;
                             a_confidence_level := confidence;
                             a_is_missing := is_missing;
                             a_missing_reason := missing_reason;
                             a_created_at := a_created_at r |}
                        else r)
                   (survey_answers st) |}, Ok tt))
  \/ (answers_of_question sid tq st = []
      /\ ((exists msg,
              _upsert_template_answer now sid tq question_text answer source
                confidence is_missing missing_reason st = (st, Raise msg))
          \/ _upsert_template_answer now sid tq question_text answer source
               confidence is_missing missing_reason st
             = ({| facilities := facilities st;
                   surveys := surveys st;
                   survey_answers :=
                     survey_answers st
                     ++ [added_answer now sid (Some question_text) (Some answer)
                           (Some tq) source confidence is_missing missing_reason
                           st] |}, Ok tt))).
Proof.
  unfold _upsert_template_answer.
  change (filter _ (survey_answers st)) with (answers_of_question sid tq st).
  destruct (answers_of_question sid tq st) as [|r0 rest] eqn:E; cbn [hd_error].
  - right. split; [reflexivity|].
    destruct (add_answer_cases now sid (Some question_text) (Some answer) (Some tq)
                source confidence is_missing missing_reason st)
      as [(msg & ->) | ->]; [left; eauto | now right].
  - left. exists r0, rest. now split.
Qed.

(** X11: [_upsert_template_answer] keeps the store free of a second row for
    a template question of a survey: if no survey holds two rows for one
    template question before the call, none does after it, whether the call
    updates a row, inserts one or raises. *)
Theorem upsert_keeps_one_answer_per_question now sid tq question_text answer
  source confidence is_missing missing_reason st :
  one_answer_per_question st ->
  one_answer_per_question
    (fst (_upsert_template_answer now sid tq question_text answer source
            confidence is_missing missing_reason st)).
Proof.
  intros Hinv sid' tq'.
  destruct (upsert_cases now sid tq question_text answer source confidence
              is_missing missing_reason st)
    as [(r0 & rest & _ & ->) | (Enone & [(msg & ->) | ->])]; cbn [fst].
  - unfold answers_of_question; cbn [survey_answers].
    rewrite filter_map_same.
    + rewrite length_map. apply (Hinv sid' tq').
    + intros x. now destruct (a_id x =? a_id r0).
  - apply Hinv.
  - unfold answers_of_question; cbn [survey_answers].
    rewrite filter_app, length_app. cbn [filter added_answer a_survey_id
                                          a_template_question_id].
    destruct (Z.eqb_spec sid sid') as [<- | Hs]; cbn [andb].
    + destruct (Z.eqb_spec tq tq') as [<- | Ht].
      * change (filter _ (survey_answers st)) with (answers_of_question sid tq st).
        now rewrite Enone.
      * cbn [List.length]. rewrite Nat.add_0_r. apply (Hinv sid tq').
    + cbn [List.length]. rewrite Nat.add_0_r. apply (Hinv sid' tq').
Qed.

Lemma upsert_keeps_one_answer_per_question_witness :
  let st1 := fst (_upsert_template_answer "2024-05-01T10:00:00" 1 7 "Beds?" " 12 "
                    (Some "RECORD") (Some "HIGH") 0 None ranking_store) in
  let st2 := fst (_upsert_template_answer "2024-05-01T10:05:00" 1 7 "Beds?" " 14 "
                    (Some "RECORD") (Some "LOW") 0 None st1) in
  one_answer_per_question st1
  /\ map a_answer (answers_of_question 1 7 st1) = [Some "12"]
  /\ map a_answer (answers_of_question 1 7 st2) = [Some " 14 "].
Proof.
  cbv zeta. split; [|split; reflexivity].
  apply upsert_keeps_one_answer_per_question.
  intros sid tq. unfold answers_of_question, ranking_store; cbn [survey_answers].
  unfold sample_answer; cbn [filter a_survey_id a_template_question_id andb].
  repeat match goal with
         | |- context [?a =? sid] => destruct (a =? sid); cbn [andb List.length filter]
         end; lia.
Defined.

Lemma at_most_one_row {A : Type} (l : list A) :
  (List.length l <= 1)%nat -> l = [] \/ exists x, l = [x].
Proof.
  destruct l as [|x [|y l]]; cbn [List.length]; intros H;
    [now left | right; now exists x | lia].
Qed.

Lemma answers_of_question_In (sid k : Z) (st : store) (r : answer_row) :
  In r (answers_of_question sid k st)
  <-> In r (survey_answers st) /\ a_survey_id r = sid
      /\ a_template_question_id r = Some k.
Proof.
  unfold answers_of_question. rewrite filter_In, andb_true_iff, Z.eqb_eq.
  destruct (a_template_question_id r) as [t|].
  - rewrite Z.eqb_eq. split.
    + intros (H1 & H2 & ->). auto.
    + intros (H1 & H2 & [= ->]). auto.
  - split; [intros (_ & _ & [=]) | intros (_ & _ & [=])].
Qed.

(** X12: when no survey holds two rows for one template question and answer
    ids are distinct, a call of [_upsert_template_answer] that returns is
    read back by [_template_answer_map]: the entry of the template question
    carries the source, confidence, missing flag and missing reason given;
    its answer is the answer as given when a row was updated and the answer
    stripped of surrounding whitespace when a row was inserted; and the
    entries of the other template questions of the survey are what they
    were. *)
Theorem upsert_then_answer_map now sid tq question_text answer source
  confidence is_missing missing_reason st st' :
  one_answer_per_question st ->
  NoDup (map a_id (survey_answers st)) ->
  _upsert_template_answer now sid tq question_text answer source confidence
    is_missing missing_reason st = (st', Ok tt) ->
  (exists e,
      dict_get tq (_template_answer_map sid st') = Some e
      /\ e_answer e = Some (match answers_of_question sid tq st with
                            | [] => Py.strip answer
                            | _ :: _ => answer
                            end)
      /\ e_source e = source /\ e_confidence e = confidence
      /\ e_is_missing e = is_missing /\ e_missing_reason e = missing_reason)
  /\ forall k, k <> tq ->
       dict_get k (_template_answer_map sid st')
       = dict_get k (_template_answer_map sid st).
Proof.
  intros Hinv Hnodup Hrun.
  destruct (upsert_cases now sid tq question_text answer source confidence
              is_missing missing_reason st)
    as [(r0 & rest & Esome & E) | (Enone & [(msg & E) | E])];
    rewrite E in Hrun; [|discriminate|]; injection Hrun as <-.
  - (* a row is updated *)
    destruct (at_most_one_row _ (Hinv sid tq)) as [E0 | (x & E1)];
      [congruence|]. rewrite Esome in E1. injection E1 as <- ->.
    set (upd := fun r : answer_row => if a_id r =? a_id r0 then _ else r).
    assert (Hupd : forall k,
               answers_of_question sid k
                 {| facilities := facilities st; surveys := surveys st;
                    survey_answers := map upd (survey_answers st) |}
               = map upd (answers_of_question sid k st)).
    { intros k. unfold answers_of_question; cbn [survey_answers].
      apply filter_map_same. intros y. unfold upd.
      now destruct (a_id y =? a_id r0). }
    split.
    + rewrite template_answer_map_get, Hupd, Esome. cbn [map rev app hd_error].
      unfold upd. rewrite Z.eqb_refl. cbn [option_map].
      eexists. split; [reflexivity|]. now repeat split.
    + intros k Hk. rewrite !template_answer_map_get, Hupd.
      destruct (at_most_one_row _ (Hinv sid k)) as [-> | (y & Ey)]; [reflexivity|].
      rewrite Ey. cbn [map rev app hd_error option_map]. f_equal. f_equal.
      unfold upd. destruct (Z.eqb_spec (a_id y) (a_id r0)) as [Eid | _];
        [|reflexivity].
      exfalso.
      assert (Hy : In y (answers_of_question sid k st)) by (rewrite Ey; now left).
      assert (Hr : In r0 (answers_of_question sid tq st))
        by (rewrite Esome; now left).
      apply answers_of_question_In in Hy as (Hy & _ & Ky).
      apply answers_of_question_In in Hr as (Hr & _ & Kr).
      assert (y = r0) by now apply (same_key_same_row a_id (survey_answers st)).
      subst y. congruence.
  - (* a row is inserted *)
    set (new := added_answer now sid (Some question_text) (Some answer) (Some tq)
                  source confidence is_missing missing_reason st).
    assert (Happ : forall k,
               answers_of_question sid k
                 {| facilities := facilities st; surveys := surveys st;
                    survey_answers := survey_answers st ++ [new] |}
               = (answers_of_question sid k st
                  ++ (if tq =? k then [new] else []))%list).
    { intros k. unfold answers_of_question; cbn [survey_answers].
      rewrite filter_app. f_equal.
      cbn [filter new added_answer a_survey_id a_template_question_id].
      rewrite Z.eqb_refl. cbn [andb]. now destruct (tq =? k). }
    split.
    + rewrite template_answer_map_get, Happ, Enone, Z.eqb_refl.
      cbn [app rev hd_error option_map].
      eexists. split; [reflexivity|].
      cbn [answer_entry_of new added_answer e_answer a_answer e_source
             a_answer_source e_confidence a_confidence_level e_is_missing
             a_is_missing e_missing_reason a_missing_reason Py.or_int].
      repeat split. f_equal. f_equal. now destruct answer.
    + intros k Hk. rewrite !template_answer_map_get, Happ.
      rewrite (proj2 (Z.eqb_neq tq k)) by congruence.
      now rewrite app_nil_r.
Qed.

Lemma upsert_then_answer_map_witness :
  let st1 := fst (_upsert_template_answer "2024-05-01T10:00:00" 1 7 "Beds?" " 12 "
                    (Some "RECORD") (Some "HIGH") 0 None ranking_store) in
  _upsert_template_answer "2024-05-01T10:00:00" 1 7 "Beds?" " 12 "
    (Some "RECORD") (Some "HIGH") 0 None ranking_store = (st1, Ok tt)
  /\ option_map e_answer (dict_get 7 (_template_answer_map 1 st1))
     = Some (Some "12")
  /\ _upsert_template_answer "2024-05-01T10:00:00" 1 8 "Staff?" "  "
       None None 0 None st1
     = (st1, Raise "answer is required unless is_missing=1")
  /\ exists e,
       dict_get 7 (_template_answer_map 1
                     (fst (_upsert_template_answer "2024-05-01T10:05:00" 1 7
                             "Beds?" "  " None None 0 None st1))) = Some e
       /\ e_answer e = Some "  ".
Proof.
  cbv zeta. split; [reflexivity|]. split; [reflexivity|]. split; [reflexivity|].
  set (st1 := fst (_upsert_template_answer "2024-05-01T10:00:00" 1 7 "Beds?" " 12 "
                     (Some "RECORD") (Some "HIGH") 0 None ranking_store)).
  destruct (upsert_then_answer_map "2024-05-01T10:05:00" 1 7 "Beds?" "  " None None
              0 None st1
              (fst (_upsert_template_answer "2024-05-01T10:05:00" 1 7 "Beds?" "  "
                      None None 0 None st1)))
    as [(e & He & Ha & _) _].
  - intros sid tq. unfold answers_of_question. vm_compute survey_answers.
    cbn [filter a_survey_id a_template_question_id andb].
    destruct (1 =? sid), (2 =? sid), (3 =? sid); cbn [andb List.length filter];
      try lia; destruct (7 =? tq); cbn [List.length]; lia.
  - vm_compute. repeat constructor; cbn; intuition discriminate.
  - reflexivity.
  - exists e. split; [exact He|]. exact Ha.
Defined.

(** ** QA alert export *)

Section QaExportProperties.
Variable format_1f : float -> string.
Variable exports_path : string -> string.

Lemma csv_row_raises (a : alert) :
  csv_row format_1f a csv_row_elements = Raise "'missing'".
Proof. destruct a. destruct alert_template_id0; reflexivity. Qed.

(** X13: [export_qa_alerts_csv] never writes a data row.  The file holds the
    header row alone; the call returns the path of the file, that is
    [str(_exports_dir() / filename)], when [qa_alerts_dashboard] finds no
    alert for the given filter, thresholds and limit, and raises
    [KeyError('missing')] as soon as there is one, since the alert
    dictionary has no key [missing]. *)
Theorem export_qa_alerts_writes_header_only (filename : string)
  (status_filter : option string) (mt lt_ st_ ct : float) (limit : Z) (st : store) :
  fst (export_qa_alerts_csv format_1f exports_path filename status_filter mt lt_
         st_ ct limit st)
  = [map VText csv_headers]
  /\ (qa_alerts_dashboard st status_filter mt lt_ st_ ct limit = [] ->
      snd (export_qa_alerts_csv format_1f exports_path filename status_filter mt
             lt_ st_ ct limit st) = Ok (exports_path filename))
  /\ (qa_alerts_dashboard st status_filter mt lt_ st_ ct limit <> [] ->
      snd (export_qa_alerts_csv format_1f exports_path filename status_filter mt
             lt_ st_ ct limit st) = Raise "'missing'").
Proof.
  unfold export_qa_alerts_csv.
  destruct (qa_alerts_dashboard st status_filter mt lt_ st_ ct limit)
    as [|a alerts]; cbn [write_alert_rows].
  - repeat split. intros H. now contradiction H.
  - rewrite csv_row_raises. repeat split. discriminate.
Qed.

End QaExportProperties.

(** ** Survey templates *)

Lemma NoDup_append_fresh {A : Type} (l : list A) (x : A) :
  NoDup l -> ~ In x l -> NoDup (l ++ [x]).
Proof.
  intros Hl Hx. apply (Permutation_NoDup (l := x :: l)).
  - apply Permutation_cons_append.
  - now constructor.
Qed.

Lemma filter_nil_no_match {A : Type} (p : A -> bool) (l : list A) :
  existsb p l = false -> filter p l = [].
Proof.
  induction l as [|x l IH]; [reflexivity|]. cbn [existsb filter].
  intros H. apply orb_false_iff in H as [-> H]. now apply IH.
Qed.

Lemma filter_head_match {A : Type} (p : A -> bool) (l : list A) :
  existsb p l = true -> exists x rest, filter p l = x :: rest /\ In x l /\ p x = true.
Proof.
  intros H. apply existsb_exists in H as (x & Hx & Px).
  destruct (filter p l) as [|y rest] eqn:E.
  - assert (Hin : In x (filter p l)) by (apply filter_In; now split).
    now rewrite E in Hin.
  - exists y, rest. split; [reflexivity|].
    assert (Hy : In y (filter p l)) by (rewrite E; now left).
    now apply filter_In in Hy.
Qed.

Lemma next_rowid_after (seq : Z) (ids : list Z) :
  (forall id, In id ids -> id <= seq) -> 0 <= seq ->
  next_rowid (seq :: ids) = seq + 1.
Proof.
  intros Hids Hseq. unfold next_rowid. cbn [fold_right].
  assert (H : 0 <= fold_right Z.max 0 ids <= seq).
  { induction ids as [|x ids IH]; cbn [fold_right]; [lia|].
    assert (x <= seq) by (apply Hids; now left).
    assert (0 <= fold_right Z.max 0 ids <= seq)
      by (apply IH; intros id Hid; apply Hids; now right).
    lia. }
  lia.
Qed.

Lemma next_rowid_positive (ids : list Z) : 0 < next_rowid ids.
Proof.
  unfold next_rowid.
  assert (0 <= fold_right Z.max 0 ids)
    by (induction ids as [|x ids IH]; cbn [fold_right]; lia).
  lia.
Qed.

(** What [create_template] does when templates of the name are stored: it
    returns the id of the first and takes an id from the sequence. *)
Lemma create_template_found (n : string) (ts1 : Templates.template_store)
  (row : Templates.template_row) (rest : list Templates.template_row)
  (now' : string) (name' description' : option string) :
  n <> "" ->
  filter (fun t => String.eqb (Templates.t_name t) n)
    (Templates.survey_templates ts1) = row :: rest ->
  Py.strip (Py.or_str name' "") = n ->
  Templates.create_template now' name' description' ts1
  = ({| Templates.survey_templates := Templates.survey_templates ts1;
        Templates.template_questions := Templates.template_questions ts1;
        Templates.templates_seq :=
          next_rowid (Templates.templates_seq ts1
                      :: map Templates.t_id (Templates.survey_templates ts1)) |},
     Ok (Templates.t_id row)).
Proof.
  intros Hn Efilter En. unfold Templates.create_template.
  rewrite En, (proj2 (not_str_false_iff n) Hn).
  assert (Ex : existsb (fun t => String.eqb (Templates.t_name t) n)
                 (Templates.survey_templates ts1) = true).
  { apply existsb_exists. exists row.
    assert (Hrow : In row (filter (fun t => String.eqb (Templates.t_name t) n)
                             (Templates.survey_templates ts1)))
      by (rewrite Efilter; now left).
    now apply filter_In in Hrow. }
  cbn [Templates.survey_templates]. now rewrite Ex, Efilter.
Qed.

(** What [create_template] does when no template of the name is stored. *)
Lemma create_template_stores (n : string) (ts : Templates.template_store)
  (now : string) (name description : option string) :
  n <> "" ->
  existsb (fun t => String.eqb (Templates.t_name t) n)
    (Templates.survey_templates ts) = false ->
  Py.strip (Py.or_str name "") = n ->
  let id := next_rowid (Templates.templates_seq ts
                        :: map Templates.t_id (Templates.survey_templates ts)) in
  Templates.create_template now name description ts
  = ({| Templates.survey_templates :=
          Templates.survey_templates ts
          ++ [{| Templates.t_id := id;
                 Templates.t_name := n;
                 Templates.t_description :=
                   Some (Py.strip (Py.or_str description ""));
                 Templates.t_created_at := now |}];
        Templates.template_questions := Templates.template_questions ts;
        Templates.templates_seq := id |},
     Ok id).
Proof.
  intros Hn Ex En id. unfold Templates.create_template.
  rewrite En, (proj2 (not_str_false_iff n) Hn).
  cbn [Templates.survey_templates]. rewrite Ex.
  rewrite filter_app, (filter_nil_no_match _ _ Ex).
  cbn [filter app Templates.t_name]. now rewrite String.eqb_refl.
Qed.

Lemma name_stored_iff (n : string) (l : list Templates.template_row) :
  existsb (fun t => String.eqb (Templates.t_name t) n) l = true
  <-> In n (map Templates.t_name l).
Proof.
  rewrite existsb_exists, in_map_iff. split.
  - intros (t & Ht & E). apply String.eqb_eq in E. now exists t.
  - intros (t & E & Ht). exists t. split; [exact Ht|]. now apply String.eqb_eq.
Qed.

(** X14: for a name that is not blank, [create_template] returns the id of a
    stored template whose name is the stripped name and never raises; it
    stores a template, under an id no template had, only when no template
    had that name, so distinct names stay distinct, and it leaves the
    questions alone; in both cases its [INSERT] takes the next id of the
    AUTOINCREMENT sequence, also when [INSERT OR IGNORE] then stores
    nothing.  Called again on the store it leaves, with a name that strips
    to the same name and any description, it returns the same id and leaves
    the templates and the questions as they are, and the ignored [INSERT]
    advances the sequence by one.  For a blank name it raises and leaves the
    store as it was. *)
Theorem create_template_is_idempotent (now : string) (name description : option string)
  (ts : Templates.template_store) :
  (Py.whitespace_only (Py.or_str name "") = true ->
   Templates.create_template now name description ts
   = (ts, Raise "Template name is required."))
  /\ (Py.whitespace_only (Py.or_str name "") = false ->
      exists id ts',
        Templates.create_template now name description ts = (ts', Ok id)
        /\ (exists t, In t (Templates.survey_templates ts')
                      /\ Templates.t_id t = id
                      /\ Templates.t_name t = Py.strip (Py.or_str name ""))
        /\ (In (Py.strip (Py.or_str name ""))
              (map Templates.t_name (Templates.survey_templates ts)) ->
            Templates.survey_templates ts' = Templates.survey_templates ts)
        /\ (~ In (Py.strip (Py.or_str name ""))
                (map Templates.t_name (Templates.survey_templates ts)) ->
            ~ In id (map Templates.t_id (Templates.survey_templates ts))
            /\ Templates.survey_templates ts' =
               (Templates.survey_templates ts
                ++ [{| Templates.t_id := id;
                       Templates.t_name := Py.strip (Py.or_str name "");
                       Templates.t_description :=
                         Some (Py.strip (Py.or_str description ""));
                       Templates.t_created_at := now |}])%list)
        /\ Templates.template_questions ts' = Templates.template_questions ts
        /\ Templates.templates_seq ts'
           = next_rowid (Templates.templates_seq ts
                         :: map Templates.t_id (Templates.survey_templates ts))
        /\ (NoDup (map Templates.t_name (Templates.survey_templates ts)) ->
            NoDup (map Templates.t_name (Templates.survey_templates ts')))
        /\ forall now' name' description',
             Py.strip (Py.or_str name' "") = Py.strip (Py.or_str name "") ->
             exists ts'',
               Templates.create_template now' name' description' ts' = (ts'', Ok id)
               /\ Templates.survey_templates ts'' = Templates.survey_templates ts'
               /\ Templates.template_questions ts''
                  = Templates.template_questions ts'
               /\ Templates.templates_seq ts''
                  = Templates.templates_seq ts' + 1).
Proof.
  split.
  - intros H. unfold Templates.create_template. now rewrite not_str_strip, H.
  - intros Hname.
    set (n := Py.strip (Py.or_str name "")).
    assert (Hn : n <> "").
    { intros E. apply strip_empty_iff in E. congruence. }
    set (id := next_rowid (Templates.templates_seq ts
                           :: map Templates.t_id (Templates.survey_templates ts))).
    assert (Hfresh : ~ In id (map Templates.t_id (Templates.survey_templates ts))).
    { intros Hin. apply (next_rowid_fresh
                           (Templates.templates_seq ts
                            :: map Templates.t_id (Templates.survey_templates ts))).
      now right. }
    assert (Hseq : forall rows,
               (forall t, In t rows -> Templates.t_id t <= id) ->
               next_rowid (id :: map Templates.t_id rows) = id + 1).
    { intros rows Hrows. apply next_rowid_after.
      - intros i Hi. apply in_map_iff in Hi as (t & <- & Ht). now apply Hrows.
      - pose proof (next_rowid_positive
                      (Templates.templates_seq ts
                       :: map Templates.t_id (Templates.survey_templates ts))).
        fold id in H. lia. }
    assert (Hbelow : forall t, In t (Templates.survey_templates ts) ->
                       Templates.t_id t <= id).
    { intros t Ht.
      assert (Templates.t_id t < id); [|lia].
      apply next_rowid_above. right. now apply in_map. }
    destruct (existsb (fun t => String.eqb (Templates.t_name t) n)
                (Templates.survey_templates ts)) eqn:Ex.
    + destruct (filter_head_match _ _ Ex) as (row & rest & Efilter & Hrow & Prow).
      apply String.eqb_eq in Prow. apply name_stored_iff in Ex.
      rewrite (create_template_found n ts row rest now name description Hn Efilter
                 eq_refl).
      eexists _, _. split; [reflexivity|].
      cbn [Templates.survey_templates Templates.template_questions
             Templates.templates_seq].
      split; [now exists row|]. split; [reflexivity|].
      split; [intros Hnot; now contradiction Hnot|].
      split; [reflexivity|]. split; [reflexivity|]. split; [auto|].
      intros now' name' description' En.
      erewrite create_template_found;
        [|exact Hn | cbn [Templates.survey_templates]; exact Efilter | exact En].
      eexists. split; [reflexivity|].
      cbn [Templates.survey_templates Templates.template_questions
             Templates.templates_seq].
      split; [reflexivity|]. split; [reflexivity|].
      apply Hseq. exact Hbelow.
    + pose proof (filter_nil_no_match _ _ Ex) as Enone.
      assert (Hnot : ~ In n (map Templates.t_name (Templates.survey_templates ts))).
      { intros Hin. apply name_stored_iff in Hin. congruence. }
      rewrite (create_template_stores n ts now name description Hn Ex eq_refl).
      fold id.
      set (new := {| Templates.t_id := id;
                     Templates.t_name := n;
                     Templates.t_description :=
                       Some (Py.strip (Py.or_str description ""));
                     Templates.t_created_at := now |}).
      eexists _, _. split; [reflexivity|].
      cbn [Templates.survey_templates Templates.template_questions
             Templates.templates_seq].
      split; [exists new; split; [apply in_or_app; right; now left | now split]|].
      split; [intros Hin; now contradiction Hnot|].
      split; [intros _; now split|].
      split; [reflexivity|]. split; [reflexivity|]. split.
      * intros Hnd. rewrite map_app. cbn [map Templates.t_name].
        now apply NoDup_append_fresh.
      * intros now' name' description' En.
        erewrite (create_template_found n _ new []); [|exact Hn| |exact En].
        -- eexists. split; [reflexivity|].
           cbn [Templates.survey_templates Templates.template_questions
                  Templates.templates_seq].
           split; [reflexivity|]. split; [reflexivity|].
           apply Hseq. intros t Ht.
           apply in_app_or in Ht as [Ht | [<- | []]]; [now apply Hbelow|].
           cbn [Templates.t_id new]. lia.
        -- cbn [Templates.survey_templates]. rewrite filter_app, Enone.
           cbn [filter app new Templates.t_name]. now rewrite String.eqb_refl.
Qed.

Lemma pair_ltb_false (a b : Z * Z) :
  Templates.pair_ltb b a = false <->
  fst a < fst b \/ (fst a = fst b /\ snd a <= snd b).
Proof.
  unfold Templates.pair_ltb.
  rewrite orb_false_iff, Z.ltb_ge, andb_false_iff, Z.eqb_neq, Z.ltb_ge. lia.
Qed.

Lemma insert_asc_pairs_sorted {A : Type} (key : A -> Z * Z) (x : A) (l : list A) :
  Sorted (fun a b => Templates.pair_ltb (key b) (key a) = false) l ->
  Sorted (fun a b => Templates.pair_ltb (key b) (key a) = false)
    (insert_asc Templates.pair_ltb key x l).
Proof.
  induction l as [|y l IH]; intros Hs; cbn [insert_asc].
  - repeat constructor.
  - destruct (Templates.pair_ltb (key y) (key x)) eqn:E.
    + apply Sorted_inv in Hs as [Hs Hd]. constructor; [now apply IH|].
      destruct l as [|z l]; cbn [insert_asc].
      * constructor. apply pair_ltb_false.
        unfold Templates.pair_ltb in E.
        apply orb_true_iff in E as [E | E].
        -- apply Z.ltb_lt in E. lia.
        -- apply andb_true_iff in E as [E1 E2].
           apply Z.eqb_eq in E1. apply Z.ltb_lt in E2. lia.
      * destruct (Templates.pair_ltb (key z) (key x)).
        -- constructor. now apply HdRel_inv in Hd.
        -- constructor. apply pair_ltb_false.
           unfold Templates.pair_ltb in E.
           apply orb_true_iff in E as [E | E].
           ++ apply Z.ltb_lt in E. lia.
           ++ apply andb_true_iff in E as [E1 E2].
              apply Z.eqb_eq in E1. apply Z.ltb_lt in E2. lia.
    + constructor; [exact Hs|]. constructor. exact E.
Qed.

Lemma sort_asc_pairs_sorted {A : Type} (key : A -> Z * Z) (l : list A) :
  StronglySorted (fun a b => Templates.pair_ltb (key b) (key a) = false)
    (sort_asc Templates.pair_ltb key l).
Proof.
  apply Sorted_StronglySorted.
  - intros a b c Hab Hbc. apply pair_ltb_false in Hab, Hbc.
    apply pair_ltb_false. lia.
  - induction l as [|x l IH]; [constructor|].
    cbn [sort_asc fold_right]. now apply insert_asc_pairs_sorted.
Qed.

Lemma StronglySorted_weaken {A : Type} (R S : A -> A -> Prop) (l : list A) :
  (forall a b, R a b -> S a b) -> StronglySorted R l -> StronglySorted S l.
Proof.
  intros HRS. induction 1 as [|a l Hl IH Ha]; constructor; [exact IH|].
  eapply Forall_impl; [|exact Ha]. intros b. apply HRS.
Qed.


(** X15: [get_template_questions] lists the questions of a template in
    ascending [order_no], questions of equal [order_no] in ascending id:
    of two listed questions, the earlier one has the smaller [order_no], or
    the same [order_no] and an id that is not greater. *)
Theorem template_questions_in_order (template_id : Z) (ts : Templates.template_store) :
  StronglySorted Templates.in_order (Templates.get_template_questions template_id ts).
Proof.
  unfold Templates.get_template_questions.
  apply StronglySorted_map_key.
  eapply StronglySorted_weaken;
    [|apply (sort_asc_pairs_sorted
               (fun r => (Templates.tq_order_no r, Templates.tq_id r)))].
  intros a b H. apply pair_ltb_false in H. exact H.
Qed.


(** ** Stores the writers reach *)

Lemma increasing_append_next (ids : list Z) :
  StronglySorted Z.lt ids -> StronglySorted Z.lt (ids ++ [next_rowid ids]).
Proof.
  intros Hs.
  assert (Habove : forall x, In x ids -> x < next_rowid ids)
    by (intros x; apply next_rowid_above).
  revert Habove. generalize (next_rowid ids) as n.
  induction Hs as [|a l Hl IH Ha]; intros n Habove; cbn [app].
  - repeat constructor.
  - constructor.
    + apply IH. intros x Hx. apply Habove. now right.
    + apply Forall_app. split; [exact Ha|].
      constructor; [|constructor]. apply Habove. now left.
Qed.

Lemma increasing_NoDup (ids : list Z) : StronglySorted Z.lt ids -> NoDup ids.
Proof.
  induction 1 as [|a l Hl IH Ha]; constructor; [|exact IH].
  intros Hin. rewrite Forall_forall in Ha. specialize (Ha a Hin). lia.
Qed.

Lemma step_ids (o : op) (st : store) :
  (map f_id (facilities (step o st)) = map f_id (facilities st)
   \/ map f_id (facilities (step o st))
      = (map f_id (facilities st) ++ [next_rowid (map f_id (facilities st))])%list)
  /\ (map s_id (surveys (step o st)) = map s_id (surveys st)
      \/ map s_id (surveys (step o st))
         = (map s_id (surveys st) ++ [next_rowid (map s_id (surveys st))])%list)
  /\ (map a_id (survey_answers (step o st)) = map a_id (survey_answers st)
      \/ map a_id (survey_answers (step o st))
         = (map a_id (survey_answers st)
            ++ [next_rowid (map a_id (survey_answers st))])%list).
Proof.
  destruct o as [name | now fid ty en tid | now sid q a tq src conf im mr
                 | now sid tq q a src conf im mr | sid]; cbn [step].
  - unfold add_facility. destruct (Py.not_str _); cbn [fst facilities surveys
                                                         survey_answers].
    + auto.
    + rewrite map_app. cbn [map f_id]. auto.
  - rewrite create_survey_appends. cbn [fst facilities surveys survey_answers].
    rewrite map_app. cbn [map s_id]. auto.
  - destruct (add_answer_cases now sid q a tq src conf im mr st)
      as [(msg & ->) | ->]; cbn [fst facilities surveys survey_answers].
    + auto.
    + rewrite map_app. cbn [map added_answer a_id]. auto.
  - destruct (upsert_cases now sid tq q a src conf im mr st)
      as [(r0 & rest & _ & ->) | (_ & [(msg & ->) | ->])];
      cbn [fst facilities surveys survey_answers].
    + split; [auto|]. split; [auto|]. left. rewrite map_map.
      apply map_ext. intros r. now destruct (a_id r =? a_id r0).
    + auto.
    + rewrite map_app. cbn [map added_answer a_id]. auto.
  - unfold complete_survey; cbn [facilities surveys survey_answers].
    split; [auto|]. split; [|auto]. left. rewrite map_map.
    apply map_ext. intros r. now destruct (s_id r =? sid).
Qed.

Lemma step_ids_increasing (o : op) (st : store) :
  ids_increasing st -> ids_increasing (step o st).
Proof.
  intros (Hf & Hs & Ha).
  destruct (step_ids o st) as ([Ef | Ef] & [Es | Es] & [Ea | Ea]);
    unfold ids_increasing; rewrite Ef, Es, Ea;
    repeat split; auto using increasing_append_next.
Qed.

(** X17: along any sequence of calls of [add_facility], [create_survey],
    [add_answer], [_upsert_template_answer] and [complete_survey], returning
    or raising, the ids of every table keep growing with the insertion
    order; so the facility, survey and answer ids of a store reached that
    way are distinct. *)
Theorem run_keeps_ids_increasing (ops : list op) (st : store) :
  ids_increasing st ->
  ids_increasing (run ops st)
  /\ NoDup (map f_id (facilities (run ops st)))
  /\ NoDup (map s_id (surveys (run ops st)))
  /\ NoDup (map a_id (survey_answers (run ops st))).
Proof.
  intros H.
  assert (Hrun : ids_increasing (run ops st)).
  { revert st H. unfold run. induction ops as [|o ops IH]; intros st H; cbn [fold_left].
    - exact H.
    - apply IH. now apply step_ids_increasing. }
  split; [exact Hrun|]. destruct Hrun as (Hf & Hs & Ha).
  repeat split; now apply increasing_NoDup.
Qed.

Lemma run_keeps_ids_increasing_witness :
  let ops :=
    [Add_facility (Some "Clinic A");
     Create_survey "2024-05-01T10:00:00" 1 "Manual Survey" "ada" None;
     Add_answer "2024-05-01T10:01:00" 1 (Some "Water source?") (Some "Borehole")
       None (Some "RECORD") (Some "HIGH") 0 None;
     Add_answer "2024-05-01T10:02:00" 1 (Some "Beds?") None
       None None None 0 None;
     Upsert_template_answer "2024-05-01T10:03:00" 1 7 "Staff?" "4" None None 0 None;
     Complete_survey 1] in
  map a_id (survey_answers (run ops empty_store)) = [1; 2]
  /\ ids_increasing (run ops empty_store).
Proof.
  cbv zeta. split; [reflexivity|].
  apply run_keeps_ids_increasing.
  repeat split; constructor.
Defined.

(** ** Answers and the detail view *)

Lemma StronglySorted_by_key {A B : Type} (f : A -> B) (R : B -> B -> Prop)
  (l : list A) :
  StronglySorted R (map f l) -> StronglySorted (fun a b => R (f a) (f b)) l.
Proof.
  induction l as [|x l IH]; cbn [map]; intros H; [constructor|].
  apply StronglySorted_inv in H as [Hl Hx]. constructor; [now apply IH|].
  rewrite Forall_forall in *. intros y Hy. apply Hx. now apply in_map.
Qed.

Lemma select_answers_increasing (st : store) (survey_id : Z) :
  StronglySorted Z.lt (map a_id (survey_answers st)) ->
  select_answers st survey_id
  = filter (fun r => a_survey_id r =? survey_id) (survey_answers st).
Proof.
  intros H. apply select_answers_insertion_order.
  now apply (StronglySorted_by_key a_id Z.lt).
Qed.

(** X18: on a store whose ids grow with the insertion order, an [add_answer]
    that returns shows in [get_survey_details] of its survey as one more
    answer at the end of the list, carrying the returned id, the template
    question, source, confidence, missing flag and reason given and the
    stripped question and answer, under the same header and with
    [total_answers] one greater; the details of every other survey are what
    they were.  [add_answer] does not look the survey up: when
    [get_survey_details] raised for the survey before, it still raises, and
    the answer is stored all the same. *)
Theorem added_answer_shows_in_details (now : string) (sid : Z)
  (question answer : option string) (tq : option Z) (src conf : option string)
  (im : Z) (mr : option string) (st st' : store) (id : Z) :
  ids_increasing st ->
  add_answer now sid question answer tq src conf im mr st = (st', Ok id) ->
  let t := {| t0_id := id; t1_template_question_id := tq;
              t2_question := Py.strip (Py.or_str question "");
              t3_answer := Some (Py.strip (Py.or_str answer ""));
              t4_answer_source := src; t5_confidence_level := conf;
              t6_is_missing := im; t7_missing_reason := mr |} in
  (forall h answers qa,
      get_survey_details st sid = Ok (h, answers, qa) ->
      get_survey_details st' sid
      = Ok (h, (answers ++ [t])%list, qa_of (answers ++ [t]))
      /\ total_answers (qa_of (answers ++ [t])) = total_answers qa + 1)
  /\ (forall msg,
        get_survey_details st sid = Raise msg ->
        get_survey_details st' sid = Raise msg
        /\ In id (map a_id (survey_answers st')))
  /\ forall other, other <> sid ->
       get_survey_details st' other = get_survey_details st other.
Proof.
  intros Hids Hadd. cbv zeta.
  destruct (add_answer_cases now sid question answer tq src conf im mr st)
    as [(msg & E) | E]; rewrite E in Hadd; [discriminate|].
  injection Hadd as <- <-.
  set (new := added_answer now sid question answer tq src conf im mr st).
  set (st' := {| facilities := facilities st; surveys := surveys st;
                 survey_answers := survey_answers st ++ [new] |}).
  destruct Hids as (_ & _ & Ha).
  assert (Ha' : StronglySorted Z.lt (map a_id (survey_answers st'))).
  { unfold st'; cbn [survey_answers]. rewrite map_app.
    now apply increasing_append_next. }
  assert (Hsel : forall x,
             select_answers st' x
             = (select_answers st x
                ++ (if sid =? x then [new] else []))%list).
  { intros x. rewrite (select_answers_increasing st' x Ha'),
      (select_answers_increasing st x Ha).
    unfold st'; cbn [survey_answers]. rewrite filter_app. f_equal. }
  assert (Hdet : forall x,
             get_survey_details st' x
             = match hd_error (select_header st x) with
               | None => Raise "Survey not found."
               | Some h =>
                   Ok (h, map answer_tuple_of (select_answers st' x),
                       qa_of (map answer_tuple_of (select_answers st' x)))
               end) by reflexivity.
  split; [|split].
  - intros h answers qa Hget. rewrite Hdet.
    unfold get_survey_details in Hget.
    destruct (hd_error (select_header st sid)) as [h0|]; [|discriminate].
    injection Hget as <- <- <-.
    rewrite Hsel, Z.eqb_refl, map_app. cbn [map]. split; [reflexivity|].
    cbn [qa_of total_answers]. rewrite length_app. cbn [List.length]. lia.
  - intros msg Hget. rewrite Hdet. unfold get_survey_details in Hget.
    destruct (hd_error (select_header st sid)) as [h0|]; [discriminate|].
    split; [exact Hget|]. unfold st'; cbn [survey_answers].
    rewrite map_app. apply in_or_app. right. now left.
  - intros other Hother. rewrite Hdet. unfold get_survey_details.
    rewrite Hsel, (proj2 (Z.eqb_neq sid other)) by congruence.
    now rewrite app_nil_r.
Qed.

Lemma added_answer_shows_in_details_witness :
  let st' := fst (add_answer "2024-05-02T09:00:00" 2 (Some " Beds? ") (Some " 12 ")
                    None (Some "RECORD") (Some "LOW") 0 None ranking_store) in
  (exists h answers qa,
      get_survey_details ranking_store 2 = Ok (h, answers, qa)
      /\ total_answers qa = 1)
  /\ (exists h answers qa,
         get_survey_details st' 2 = Ok (h, answers, qa)
         /\ map t3_answer answers = [Some "Borehole"; Some "12"]
         /\ total_answers qa = 2 /\ low_confidence_count qa = 2)
  /\ get_survey_details st' 1 = get_survey_details ranking_store 1.
Proof.
  cbv zeta. split; [|split].
  - eexists _, _, _. split; reflexivity.
  - eexists _, _, _. split; [reflexivity|]. split; [reflexivity|].
    split; reflexivity.
  - refine (proj2 (proj2 (added_answer_shows_in_details "2024-05-02T09:00:00" 2
                            (Some " Beds? ") (Some " 12 ") None (Some "RECORD")
                            (Some "LOW") 0 None ranking_store _ 5 _ eq_refl))
              1 _).
    + repeat split; repeat constructor; cbn; lia.
    + discriminate.
Defined.

Lemma select_header_completed (sid x : Z) (st : store) :
  select_header (complete_survey sid st) x
  = map (fun h => if x =? sid then completed_header h else h) (select_header st x).
Proof.
  unfold select_header, complete_survey; cbn [surveys facilities].
  induction (surveys st) as [|s l IH]; [reflexivity|].
  cbn [map flat_map]. rewrite map_app, IH. f_equal.
  destruct (Z.eqb_spec (s_id s) sid) as [Es | Es]; cbn [s_id s_facility_id].
  - destruct (Z.eqb_spec (s_id s) x) as [Ex | Ex]; [|reflexivity].
    rewrite map_map. apply map_ext. intros f.
    rewrite (proj2 (Z.eqb_eq x sid)) by congruence. reflexivity.
  - destruct (Z.eqb_spec (s_id s) x) as [Ex | Ex]; [|reflexivity].
    rewrite map_map. apply map_ext. intros f.
    rewrite (proj2 (Z.eqb_neq x sid)) by congruence. reflexivity.
Qed.

(** X19: [complete_survey] changes nothing but a status.  Calling it twice
    is calling it once; on an id no survey has it leaves the store as it
    was; and after it [get_survey_details] raises for the surveys it raised
    for before and returns, for the others, the same answers and QA summary
    under the same header, whose status is COMPLETED for the completed
    survey. *)
Theorem complete_survey_changes_status_only (sid : Z) (st : store) :
  complete_survey sid (complete_survey sid st) = complete_survey sid st
  /\ (~ In sid (map s_id (surveys st)) -> complete_survey sid st = st)
  /\ forall x,
       get_survey_details (complete_survey sid st) x
       = match get_survey_details st x with
         | Ok (h, answers, qa) =>
             Ok (if x =? sid then completed_header h else h, answers, qa)
         | Raise msg => Raise msg
         end.
Proof.
  split; [|split].
  - unfold complete_survey; cbn [facilities surveys survey_answers]. f_equal.
    rewrite map_map. apply map_ext. intros s.
    destruct (Z.eqb_spec (s_id s) sid) as [E | E]; cbn [s_id].
    + now rewrite (proj2 (Z.eqb_eq (s_id s) sid) E).
    + now rewrite (proj2 (Z.eqb_neq (s_id s) sid) E).
  - intros Hno. destruct st as [fs ss ans]. unfold complete_survey.
    cbn [facilities surveys survey_answers] in *. f_equal.
    rewrite <- (map_id ss) at 2. apply map_ext_in. intros s Hs.
    destruct (Z.eqb_spec (s_id s) sid) as [E | E]; [|reflexivity].
    exfalso. apply Hno. rewrite <- E. now apply in_map.
  - intros x. unfold get_survey_details at 1 2.
    rewrite select_header_completed.
    change (select_answers (complete_survey sid st) x) with (select_answers st x).
    now destruct (select_header st x).
Qed.

(** ** JSON exports *)

Lemma joined_by_id_is_header (st : store) (survey_id : Z) :
  map header_of (surveys_with_facility st (fun s => s_id s =? survey_id))
  = select_header st survey_id.
Proof.
  unfold surveys_with_facility, select_header.
  induction (surveys st) as [|s l IH]; [reflexivity|].
  cbn [flat_map]. rewrite map_app, IH. f_equal.
  destruct (s_id s =? survey_id); [|reflexivity].
  rewrite map_map. reflexivity.
Qed.

(** X20: [export_one_survey_json] exports what [get_survey_details] shows.
    It raises "Survey not found." exactly when [get_survey_details] does
    (so also for a stored survey whose facility is not stored), and
    otherwise the document holds the same header and, in the same order,
    the same answers, each with its creation time added. *)
Theorem export_one_survey_matches_details (filepath : string) (survey_id : Z)
  (st : store) :
  match get_survey_details st survey_id with
  | Raise msg =>
      msg = "Survey not found."
      /\ export_one_survey_json filepath survey_id st = Raise "Survey not found."
  | Ok (h, answers, qa) =>
      exists doc,
        export_one_survey_json filepath survey_id st = Ok (doc, filepath)
        /\ x_survey doc = h
        /\ map tuple_of_export (x_answers doc) = answers
        /\ map x_created_at (x_answers doc)
           = map a_created_at (select_answers st survey_id)
  end.
Proof.
  unfold get_survey_details, export_one_survey_json.
  rewrite <- joined_by_id_is_header.
  destruct (surveys_with_facility st (fun s => s_id s =? survey_id)) as [|s rest];
    cbn [map hd_error].
  - now split.
  - eexists. split; [reflexivity|]. cbn [x_survey x_answers].
    split; [reflexivity|]. rewrite !map_map. split; reflexivity.
Qed.

Lemma joined_by_id_single (st : store) (s : survey_row) (f : facility_row) :
  NoDup (map s_id (surveys st)) -> NoDup (map f_id (facilities st)) ->
  In (s, f) (surveys_with_facility st (fun _ => true)) ->
  surveys_with_facility st (fun x => s_id x =? s_id s) = [(s, f)].
Proof.
  intros Hs Hf Hin.
  apply surveys_with_facility_In in Hin as (Hs_in & _ & Hf_in & Ef).
  pose proof (surveys_with_facility_keys st (fun x => s_id x =? s_id s) Hs Hf) as Hkeys.
  assert (Hmem : In (s, f) (surveys_with_facility st (fun x => s_id x =? s_id s))).
  { apply surveys_with_facility_In. repeat split; try assumption. apply Z.eqb_refl. }
  assert (Hall : forall sf, In sf (surveys_with_facility st (fun x => s_id x =? s_id s)) ->
                            s_id (fst sf) = s_id s).
  { intros [s' f'] H. apply surveys_with_facility_In in H as (_ & E & _).
    now apply Z.eqb_eq in E. }
  destruct (surveys_with_facility st (fun x => s_id x =? s_id s)) as [|a [|b l]].
  - destruct Hmem.
  - destruct Hmem as [-> | []]. reflexivity.
  - exfalso. cbn [map] in Hkeys. apply NoDup_cons_iff in Hkeys as [Hab _].
    apply Hab. left. rewrite (Hall a), (Hall b); [reflexivity | right; now left | now left].
Qed.

(** X21: when survey ids and facility ids are distinct,
    [export_surveys_answers_json] writes the documents
    [export_one_survey_json] writes one by one: every element of the list is
    the document of the single export of its survey; the elements come by
    strictly decreasing survey id; and with a negative limit every survey
    the single export accepts is in the list. *)
Theorem bulk_export_lists_single_exports (filepath : string) (limit : Z) (st : store) :
  NoDup (map s_id (surveys st)) -> NoDup (map f_id (facilities st)) ->
  let docs := fst (export_surveys_answers_json filepath limit st) in
  (forall doc path,
      In doc docs ->
      export_one_survey_json path (h_id (x_survey doc)) st = Ok (doc, path))
  /\ StronglySorted (fun a b => h_id (x_survey b) < h_id (x_survey a)) docs
  /\ (limit < 0 ->
      forall sid doc path,
        export_one_survey_json path sid st = Ok (doc, path) -> In doc docs).
Proof.
  intros Hs Hf. cbv zeta. unfold export_surveys_answers_json. cbn [fst].
  split; [|split].
  - intros doc path Hdoc. apply in_map_iff in Hdoc as ([s f] & <- & Hsf).
    apply sql_limit_In, sort_desc_In in Hsf.
    cbn [x_survey header_of h_id fst]. unfold export_one_survey_json.
    now rewrite (joined_by_id_single st s f Hs Hf Hsf).
  - apply StronglySorted_map_key.
    destruct (sql_limit_cases limit
                (sort_desc Z.ltb (fun sf => s_id (fst sf))
                   (surveys_with_facility st (fun _ => true)))) as (n & ->).
    apply StronglySorted_firstn. cbn [x_survey header_of h_id].
    apply (order_by_id_desc (fun sf : survey_row * facility_row => s_id (fst sf))).
    now apply surveys_with_facility_keys.
  - intros Hl sid doc path Hone. unfold export_one_survey_json in Hone.
    destruct (surveys_with_facility st (fun s => s_id s =? sid)) as [|[s f] rest] eqn:E;
      cbn [hd_error] in Hone; [discriminate|].
    injection Hone as <-.
    assert (Hin : In (s, f) (surveys_with_facility st (fun s => s_id s =? sid)))
      by (rewrite E; now left).
    apply surveys_with_facility_In in Hin as (Hs_in & Eid & Hf_in & Ef).
    apply Z.eqb_eq in Eid. subst sid.
    apply in_map_iff. exists (s, f). split; [reflexivity|].
    rewrite sql_limit_negative by exact Hl.
    apply sort_desc_In, surveys_with_facility_In. now repeat split.
Qed.

Lemma bulk_export_lists_single_exports_witness :
  map (fun d => h_id (x_survey d))
    (fst (export_surveys_answers_json "surveys.json" 3 ranking_store)) = [4; 3; 2]
  /\ forall doc path,
       In doc (fst (export_surveys_answers_json "surveys.json" 3 ranking_store)) ->
       export_one_survey_json path (h_id (x_survey doc)) ranking_store
       = Ok (doc, path).
Proof.
  split; [reflexivity|].
  refine (proj1 (bulk_export_lists_single_exports "surveys.json" 3 ranking_store _ _)).
  - cbn. repeat constructor; cbn; intuition discriminate.
  - cbn. repeat constructor; cbn; intuition.
Defined.

(** ** Seeding the built-in templates *)

Lemma or_str_some (s : string) : Py.or_str (Some s) "" = s.
Proof. now destruct s. Qed.

Lemma unique_by_name (rows : list Templates.template_row) (t : Templates.template_row) :
  NoDup (map Templates.t_name rows) -> In t rows ->
  filter (fun r => String.eqb (Templates.t_name r) (Templates.t_name t)) rows = [t].
Proof.
  induction rows as [|r rows IH]; intros Hnd Hin; [destruct Hin|].
  cbn [map] in Hnd. apply NoDup_cons_iff in Hnd as [Hr Hnd]. cbn [filter].
  destruct Hin as [-> | Hin].
  - rewrite String.eqb_refl. f_equal.
    apply filter_nil_no_match.
    destruct (existsb _ rows) eqn:E; [|reflexivity].
    apply existsb_exists in E as (x & Hx & Ex). apply String.eqb_eq in Ex.
    exfalso. apply Hr. rewrite <- Ex. now apply in_map.
  - destruct (String.eqb_spec (Templates.t_name r) (Templates.t_name t)) as [E | _].
    + exfalso. apply Hr. rewrite E. now apply in_map.
    + now apply IH.
Qed.

Lemma extends_refl (ts : Templates.template_store) : extends ts ts.
Proof. split; exists []; now rewrite app_nil_r. Qed.

Lemma extends_trans (a b c : Templates.template_store) :
  extends a b -> extends b c -> extends a c.
Proof.
  intros [(t1 & E1) (q1 & F1)] [(t2 & E2) (q2 & F2)]. split.
  - exists (t1 ++ t2)%list. now rewrite E2, E1, app_assoc.
  - exists (q1 ++ q2)%list. now rewrite F2, F1, app_assoc.
Qed.

Lemma seeded_extends (name : string) (a b : Templates.template_store) :
  extends a b -> seeded name a -> seeded name b.
Proof.
  intros [(t1 & E1) (q1 & F1)] (t & q & Ht & En & Hq & Eq).
  exists t, q. rewrite E1, F1.
  repeat split; try assumption; apply in_or_app; now left.
Qed.

Lemma add_template_question_appends (now : string) (tid : Z) (q qt : string)
  (order_no required : Z) (ts : Templates.template_store) :
  Py.whitespace_only q = false ->
  exists row id,
    Templates.add_template_question now tid (Some q) (Some qt) order_no required ts
    = ({| Templates.survey_templates := Templates.survey_templates ts;
          Templates.template_questions :=
            Templates.template_questions ts ++ [row];
          Templates.templates_seq := Templates.templates_seq ts |}, Ok id)
    /\ Templates.tq_template_id row = tid.
Proof.
  intros Hq. unfold Templates.add_template_question.
  rewrite not_str_strip, or_str_some, Hq.
  eexists _, _. split; reflexivity.
Qed.

Section SeedingProperties.
Variable clock : Templates.template_store -> string.

Lemma add_questions_appends (tid : Z) (questions : list (string * string * Z * Z))
  (ts : Templates.template_store) :
  Forall (fun q => Py.whitespace_only (fst (fst (fst q))) = false) questions ->
  exists added,
    snd (add_questions clock tid questions ts) = Ok tt
    /\ Templates.survey_templates (fst (add_questions clock tid questions ts))
       = Templates.survey_templates ts
    /\ Templates.template_questions (fst (add_questions clock tid questions ts))
       = (Templates.template_questions ts ++ added)%list
    /\ Forall (fun r => Templates.tq_template_id r = tid) added
    /\ List.length added = List.length questions.
Proof.
  revert ts. induction questions as [|[[[q qt] o] r] qs IH]; intros ts Hall.
  - exists []. cbn. now rewrite app_nil_r.
  - apply Forall_cons_iff in Hall as [Hq Hall]. cbn [fst] in Hq.
    cbn [add_questions].
    destruct (add_template_question_appends (clock ts) tid q qt o r ts Hq)
      as (row & id & -> & Erow).
    destruct (IH {| Templates.survey_templates := Templates.survey_templates ts;
                    Templates.template_questions :=
                      Templates.template_questions ts ++ [row];
                    Templates.templates_seq := Templates.templates_seq ts |} Hall)
      as (added & Hok & Ht & Hqs & Hadded & Hlen).
    exists (row :: added). split; [exact Hok|]. split; [exact Ht|].
    split; [rewrite Hqs; cbn [Templates.template_questions];
            now rewrite <- app_assoc|].
    split; [now constructor | cbn [List.length]; now rewrite Hlen].
Qed.

End SeedingProperties.

Lemma create_template_cases (now name : string) (description : option string)
  (ts : Templates.template_store) :
  name <> "" -> Py.strip name = name ->
  NoDup (map Templates.t_name (Templates.survey_templates ts)) ->
  exists ts1 t,
    Templates.create_template now (Some name) description ts
    = (ts1, Ok (Templates.t_id t))
    /\ extends ts ts1
    /\ Templates.template_questions ts1 = Templates.template_questions ts
    /\ NoDup (map Templates.t_name (Templates.survey_templates ts1))
    /\ In t (Templates.survey_templates ts1) /\ Templates.t_name t = name.
Proof.
  intros Hne Hstrip Hnd.
  destruct (existsb (fun t => String.eqb (Templates.t_name t) name)
              (Templates.survey_templates ts)) eqn:Ex.
  - destruct (filter_head_match _ _ Ex) as (row & rest & Efilter & Hrow & Prow).
    apply String.eqb_eq in Prow.
    rewrite (create_template_found name ts row rest now (Some name) description
               Hne Efilter); [|now rewrite or_str_some].
    eexists _, row. split; [reflexivity|].
    cbn [Templates.survey_templates Templates.template_questions].
    split; [split; cbn [Templates.survey_templates Templates.template_questions];
            exists []; now rewrite app_nil_r|].
    now repeat split.
  - rewrite (create_template_stores name ts now (Some name) description Hne Ex);
      [|now rewrite or_str_some].
    eexists _, (Templates.Build_template_row _ _ _ _). split; [reflexivity|].
    cbn [Templates.survey_templates Templates.template_questions].
    split; [split; cbn [Templates.survey_templates Templates.template_questions];
            [eexists; reflexivity | exists []; now rewrite app_nil_r]|].
    split; [reflexivity|]. split.
    + rewrite map_app. cbn [map Templates.t_name].
      apply NoDup_append_fresh; [exact Hnd|].
      intros Hin. apply name_stored_iff in Hin. congruence.
    + split; [apply in_or_app; right; now left | reflexivity].
Qed.

Lemma seed_template_ok (clock : Templates.template_store -> string)
  (existing : string -> option Z) (t : default_template)
  (ts : Templates.template_store) :
  well_formed t ->
  NoDup (map Templates.t_name (Templates.survey_templates ts)) ->
  (forall id, existing (fst (fst t)) = Some id ->
     exists r, In r (Templates.survey_templates ts)
               /\ Templates.t_name r = fst (fst t) /\ Templates.t_id r = id) ->
  snd (seed_template clock existing t ts) = Ok tt
  /\ extends ts (fst (seed_template clock existing t ts))
  /\ NoDup (map Templates.t_name
              (Templates.survey_templates (fst (seed_template clock existing t ts))))
  /\ seeded (fst (fst t)) (fst (seed_template clock existing t ts)).
Proof.
  destruct t as [[name desc] questions]. cbn [fst well_formed].
  intros (Hne & Hstrip & Hqs & Hall) Hnd Hexisting.
  assert (Hfound : exists ts1 r,
             (match existing name with
              | Some tid => (ts, Ok tid)
              | None => Templates.create_template (clock ts) (Some name) (Some desc) ts
              end) = (ts1, Ok (Templates.t_id r))
             /\ extends ts ts1
             /\ NoDup (map Templates.t_name (Templates.survey_templates ts1))
             /\ In r (Templates.survey_templates ts1) /\ Templates.t_name r = name).
  { destruct (existing name) as [id|] eqn:Eex.
    - destruct (Hexisting id eq_refl) as (r & Hr & En & <-).
      exists ts, r. split; [reflexivity|]. split; [apply extends_refl|].
      split; [exact Hnd|]. now split.
    - destruct (create_template_cases (clock ts) name (Some desc) ts Hne Hstrip Hnd)
        as (ts1 & r & E & Hext & _ & Hnd1 & Hr & En).
      exists ts1, r. split; [exact E|]. split; [exact Hext|].
      split; [exact Hnd1|]. now split. }
  destruct Hfound as (ts1 & r & E & Hext & Hnd1 & Hr & En).
  unfold seed_template. rewrite E.
  destruct (filter (fun q => Templates.tq_template_id q =? Templates.t_id r)
              (Templates.template_questions ts1)) as [|q0 rest] eqn:Ecount.
  - cbn [List.length Z.of_nat Z.ltb Z.compare].
    destruct (add_questions_appends clock (Templates.t_id r) questions ts1 Hall)
      as (added & Hok & Ht & Hq & Hadded & Hlen).
    split; [exact Hok|].
    assert (Hext1 : extends ts1 (fst (add_questions clock (Templates.t_id r)
                                        questions ts1))).
    { split; [exists []; now rewrite Ht, app_nil_r | now exists added]. }
    split; [now apply (extends_trans ts ts1)|].
    split; [now rewrite Ht|].
    destruct added as [|a added];
      [destruct questions; [congruence | discriminate]|].
    exists r, a. rewrite Ht, Hq. split; [exact Hr|]. split; [exact En|].
    split; [apply in_or_app; right; now left|].
    now apply Forall_inv in Hadded.
  - assert (Hpos : (0 <? Z.of_nat (List.length (q0 :: rest))) = true)
      by (apply Z.ltb_lt; cbn [List.length]; lia).
    rewrite Hpos. cbn [fst snd]. split; [reflexivity|]. split; [exact Hext|].
    split; [exact Hnd1|].
    assert (Hq0 : In q0 (filter (fun q => Templates.tq_template_id q =? Templates.t_id r)
                           (Templates.template_questions ts1)))
      by (rewrite Ecount; now left).
    apply filter_In in Hq0 as [Hq0 Eq0]. apply Z.eqb_eq in Eq0.
    now exists r, q0.
Qed.

Lemma seed_loop_fixed (clock : Templates.template_store -> string)
  (defaults : list default_template) (ts : Templates.template_store) :
  NoDup (map Templates.t_name (Templates.survey_templates ts)) ->
  Forall (fun t => seeded (fst (fst t)) ts) defaults ->
  seed_loop clock (existing_id (Templates.survey_templates ts)) defaults ts
  = (ts, Ok tt).
Proof.
  intros Hnd. induction defaults as [|[[name desc] questions] defaults IH];
    intros Hall; [reflexivity|].
  apply Forall_cons_iff in Hall as [(t & q & Ht & En & Hq & Eq) Hall].
  cbn [fst] in En. cbn [seed_loop seed_template].
  unfold existing_id. rewrite <- En, (unique_by_name _ t Hnd Ht).
  cbn [rev app hd_error option_map].
  destruct (filter (fun q => Templates.tq_template_id q =? Templates.t_id t)
              (Templates.template_questions ts)) as [|q0 rest] eqn:Ecount.
  - exfalso.
    assert (Hin : In q (filter (fun q => Templates.tq_template_id q =? Templates.t_id t)
                          (Templates.template_questions ts)))
      by (apply filter_In; split; [exact Hq | now apply Z.eqb_eq]).
    now rewrite Ecount in Hin.
  - assert (Hpos : (0 <? Z.of_nat (List.length (q0 :: rest))) = true)
      by (apply Z.ltb_lt; cbn [List.length]; lia).
    rewrite Hpos. now apply IH.
Qed.

Lemma existing_id_found (rows more : list Templates.template_row) (name : string)
  (id : Z) :
  existing_id rows name = Some id ->
  exists r, In r (rows ++ more) /\ Templates.t_name r = name /\ Templates.t_id r = id.
Proof.
  unfold existing_id. intros H.
  destruct (rev (filter (fun t => String.eqb (Templates.t_name t) name) rows))
    as [|r rest] eqn:E; [discriminate|].
  injection H as <-.
  assert (Hr : In r (filter (fun t => String.eqb (Templates.t_name t) name) rows)).
  { apply in_rev. rewrite E. now left. }
  apply filter_In in Hr as [Hr En]. apply String.eqb_eq in En.
  exists r. split; [apply in_or_app; now left | now split].
Qed.

Lemma seed_loop_ok (clock : Templates.template_store -> string)
  (defaults : list default_template) (ts0 ts : Templates.template_store) :
  Forall well_formed defaults -> extends ts0 ts ->
  NoDup (map Templates.t_name (Templates.survey_templates ts)) ->
  let res := seed_loop clock (existing_id (Templates.survey_templates ts0))
               defaults ts in
  snd res = Ok tt /\ extends ts (fst res)
  /\ NoDup (map Templates.t_name (Templates.survey_templates (fst res)))
  /\ Forall (fun t => seeded (fst (fst t)) (fst res)) defaults.
Proof.
  cbv zeta. revert ts. induction defaults as [|t defaults IH];
    intros ts Hwf Hext Hnd.
  - cbn. split; [reflexivity|]. split; [apply extends_refl|]. now split.
  - apply Forall_cons_iff in Hwf as [Hwf_t Hwf].
    cbn [seed_loop].
    destruct (seed_template_ok clock (existing_id (Templates.survey_templates ts0))
                t ts Hwf_t Hnd) as (Hok & Hext1 & Hnd1 & Hseeded).
    { intros id Hid. destruct Hext as [(more & Emore) _]. rewrite Emore.
      now apply existing_id_found. }
    destruct (seed_template clock (existing_id (Templates.survey_templates ts0)) t ts)
      as [ts1 r]. cbn [fst snd] in *. subst r.
    destruct (IH ts1 Hwf (extends_trans _ _ _ Hext Hext1) Hnd1)
      as (Hok2 & Hext2 & Hnd2 & Hall2).
    split; [exact Hok2|]. split; [now apply (extends_trans ts ts1)|].
    split; [exact Hnd2|]. constructor; [|exact Hall2].
    now apply (seeded_extends _ ts1).
Qed.

Lemma default_templates_well_formed : Forall well_formed default_templates.
Proof.
  repeat constructor; cbn; try discriminate; reflexivity.
Qed.

(** X22: on a store whose template names are distinct (the UNIQUE
    constraint), [_seed_default_templates] returns without raising; it
    leaves every stored template and question in place and adds rows only
    after them; afterwards each built-in template is stored under its name
    and has at least one question, and the names are still distinct; and
    seeding again, at any later time, changes nothing. *)
Theorem seeding_is_idempotent (clock clock' : Templates.template_store -> string)
  (ts : Templates.template_store) :
  NoDup (map Templates.t_name (Templates.survey_templates ts)) ->
  let ts1 := fst (_seed_default_templates clock ts) in
  snd (_seed_default_templates clock ts) = Ok tt
  /\ extends ts ts1
  /\ NoDup (map Templates.t_name (Templates.survey_templates ts1))
  /\ Forall (fun t => seeded (fst (fst t)) ts1) default_templates
  /\ _seed_default_templates clock' ts1 = (ts1, Ok tt).
Proof.
  intros Hnd. cbv zeta. unfold _seed_default_templates at 1 2 3 4.
  destruct (seed_loop_ok clock default_templates ts ts
              default_templates_well_formed (extends_refl ts) Hnd)
    as (Hok & Hext & Hnd1 & Hall).
  repeat split; try assumption.
  - now destruct Hext.
  - now destruct Hext.
  - unfold _seed_default_templates. now apply seed_loop_fixed.
Qed.

Lemma seeding_is_idempotent_witness :
  let clock (ts : Templates.template_store) := "2024-05-01T10:00:00" in
  let empty := {| Templates.survey_templates := [];
                  Templates.template_questions := [];
                  Templates.templates_seq := 0 |} in
  let ts1 := fst (_seed_default_templates clock empty) in
  map Templates.t_id (Templates.survey_templates ts1) = [1; 2; 3]
  /\ map Templates.tq_template_id (Templates.template_questions ts1)
     = [1; 1; 1; 1; 2; 2; 2; 2; 3; 3; 3]
  /\ _seed_default_templates clock ts1 = (ts1, Ok tt).
Proof.
  cbv zeta. split; [reflexivity|]. split; [reflexivity|].
  refine (proj2 (proj2 (proj2 (proj2
            (seeding_is_idempotent (fun _ => "2024-05-01T10:00:00")
               (fun _ => "2024-05-01T10:00:00")
               {| Templates.survey_templates := [];
                  Templates.template_questions := [];
                  Templates.templates_seq := 0 |} _))))).
  constructor.
Defined.

(** ** The enumerator routes *)

Lemma allowed_or_In (allowed : list string) (default x : string) :
  In default allowed -> In (allowed_or allowed default x) allowed.
Proof.
  intros Hd. unfold allowed_or, py_in.
  destruct (existsb (String.eqb x) allowed) eqn:E; cbn [negb]; [|exact Hd].
  apply existsb_exists in E as (y & Hy & Exy). apply String.eqb_eq in Exy.
  now subst y.
Qed.

Lemma upsert_rows now sid tq question_text answer source confidence is_missing
  missing_reason st (r : answer_row) :
  In r (survey_answers
          (fst (_upsert_template_answer now sid tq question_text answer source
                  confidence is_missing missing_reason st))) ->
  In r (survey_answers st)
  \/ (a_answer_source r = source /\ a_confidence_level r = confidence
      /\ a_is_missing r = is_missing).
Proof.
  destruct (upsert_cases now sid tq question_text answer source confidence
              is_missing missing_reason st)
    as [(r0 & rest & _ & ->) | (_ & [(msg & ->) | ->])];
    cbn [fst survey_answers]; intros Hr.
  - apply in_map_iff in Hr as (x & <- & Hx).
    destruct (a_id x =? a_id r0); [right; now repeat split | now left].
  - now left.
  - apply in_app_or in Hr as [Hr | [<- | []]]; [now left|].
    right. now repeat split.
Qed.

Lemma add_answer_rows now sid question answer tq source confidence is_missing
  missing_reason st (r : answer_row) :
  In r (survey_answers
          (fst (add_answer now sid question answer tq source confidence
                  is_missing missing_reason st))) ->
  In r (survey_answers st)
  \/ (a_answer_source r = source /\ a_confidence_level r = confidence
      /\ a_is_missing r = is_missing).
Proof.
  destruct (add_answer_cases now sid question answer tq source confidence
              is_missing missing_reason st) as [(msg & ->) | ->];
    cbn [fst survey_answers]; intros Hr.
  - now left.
  - apply in_app_or in Hr as [Hr | [<- | []]]; [now left|].
    right. now repeat split.
Qed.

Lemma allowed_texts_normal :
  Forall (fun s => normal_text (Some s)) ENUM_ALLOWED_SOURCES
  /\ Forall (fun s => normal_text (Some s)) ENUM_ALLOWED_CONF.
Proof. split; repeat constructor. Qed.

Section RoutesProperties.
Variable int_of_str : string -> result Z.
Variable float_of_str : string -> result float.

Lemma serve_keeps_rows_normal (r : request) (st : store) :
  (forall x, In x (survey_answers st) -> normal_row x) ->
  forall x, In x (survey_answers (serve int_of_str float_of_str r st)) ->
            normal_row x.
Proof.
  intros Hst x.
  destruct r as [now form sid | now form sid | now form sid | sid]; cbn [serve].
  - unfold enum_manual_add.
    destruct (negb _ && negb _); [|apply Hst].
    destruct (add_answer now sid _ _ None None None 0 None st) as [st' res] eqn:E.
    assert (Est : st' = fst (add_answer now sid
                               (Some (Py.strip (Py.or_str (form "question") "")))
                               (Some (Py.strip (Py.or_str (form "answer") "")))
                               None None None 0 None st)) by now rewrite E.
    assert (Hx : In x (survey_answers st') -> normal_row x).
    { rewrite Est. intros Hx. apply add_answer_rows in Hx as [Hx | (Es & Ec & Em)];
        [now apply Hst|].
      unfold normal_row. rewrite Es, Ec, Em. cbn. auto. }
    now destruct res.
  - unfold enum_template_answer.
    destruct (form_q_index int_of_str form) as [q_index|]; [|apply Hst].
    destruct (form_template_question_id int_of_str form) as [tqid|]; [|apply Hst].
    destruct (_validate_by_type float_of_str _ _) as [cleaned|]; [|apply Hst].
    destruct (_upsert_template_answer now sid tqid _ cleaned _ _ 0 None st)
      as [st' res] eqn:E.
    apply (f_equal fst) in E. cbn [fst] in E.
    assert (Hx : In x (survey_answers st') -> normal_row x).
    { rewrite <- E. intros Hx. apply upsert_rows in Hx as [Hx | (Es & Ec & Em)];
        [now apply Hst|].
      unfold normal_row. rewrite Es, Ec, Em.
      destruct allowed_texts_normal as [Hsrc Hconf].
      rewrite Forall_forall in Hsrc, Hconf.
      split; [now left|]. split.
      - apply Hsrc, allowed_or_In. cbn. auto.
      - apply Hconf, allowed_or_In. cbn. auto. }
    now destruct res.
  - unfold enum_template_skip.
    destruct (form_q_index int_of_str form) as [q_index|]; [|apply Hst].
    destruct (form_template_question_id int_of_str form) as [tqid|]; [|apply Hst].
    destruct (_upsert_template_answer now sid tqid _ "__MISSING__" None None 1 _ st)
      as [st' res] eqn:E.
    apply (f_equal fst) in E. cbn [fst] in E.
    assert (Hx : In x (survey_answers st') -> normal_row x).
    { rewrite <- E. intros Hx. apply upsert_rows in Hx as [Hx | (Es & Ec & Em)];
        [now apply Hst|].
      unfold normal_row. rewrite Es, Ec, Em. cbn. auto. }
    now destruct res.
  - apply Hst.
Qed.

(** X23: the enumerator routes keep the answers in the form the alert engine
    compares.  When every stored answer has a missing flag of 0 or 1 and a
    source and a confidence level that are absent or stripped and in upper
    case, the same holds after any sequence of requests to
    [enum_manual_add], [enum_template_answer], [enum_template_skip] and
    [enum_submit_post], whatever the forms hold; and for every survey the
    aggregate query of [qa_alerts_dashboard] then counts what the QA
    summary of [get_survey_details] counts. *)
Theorem routes_keep_answers_normal (rs : list request) (st : store) :
  (forall x, In x (survey_answers st) -> normal_row x) ->
  (forall x, In x (survey_answers (serve_all int_of_str float_of_str rs st)) ->
             normal_row x)
  /\ forall sid,
       aggregate_counts
         (answer_aggregate (serve_all int_of_str float_of_str rs st) sid)
       = qa_of (map answer_tuple_of
                  (select_answers (serve_all int_of_str float_of_str rs st) sid)).
Proof.
  intros Hst.
  assert (Hall : forall x,
             In x (survey_answers (serve_all int_of_str float_of_str rs st)) ->
             normal_row x).
  { revert st Hst. unfold serve_all.
    induction rs as [|r rs IH]; intros st Hst; cbn [fold_left]; [exact Hst|].
    apply IH. now apply serve_keeps_rows_normal. }
  split; [exact Hall|]. intros sid.
  apply aggregate_matches_summary_on_normal_rows. intros x Hx _. now apply Hall.
Qed.

End RoutesProperties.

Lemma routes_keep_answers_normal_witness :
  let int_of_str (s : string) : result Z :=
    if String.eqb s "7" then Ok 7 else if String.eqb s "0" then Ok 0
    else Raise "invalid literal for int() with base 10" in
  let float_of_str (s : string) : result float :=
    Raise "could not convert string to float" in
  let form (k : string) : option string :=
    if String.eqb k "e" then Some "ada"
    else if String.eqb k "q_index" then Some "0"
    else if String.eqb k "template_question_id" then Some "7"
    else if String.eqb k "question_text" then Some "Is power supply available now?"
    else if String.eqb k "question_type" then Some "yesno"
    else if String.eqb k "answer" then Some " y "
    else if String.eqb k "confidence_level" then Some " low "
    else None in
  let st' := serve_all int_of_str float_of_str
               [Template_answer "2024-05-02T09:00:00" form 2; Submit 2]
               ranking_store in
  map (fun r => (a_answer r, a_answer_source r, a_confidence_level r))
    (answers_of_question 2 7 st')
  = [(Some "YES", Some "INTERVIEW", Some "LOW")]
  /\ aggregate_counts (answer_aggregate st' 2)
     = qa_of (map answer_tuple_of (select_answers st' 2)).
Proof.
  cbv zeta. split; [reflexivity|].
  refine (proj2 (routes_keep_answers_normal _ _ _ ranking_store _) 2).
  intros x Hx. cbn in Hx. unfold normal_row.
  repeat (destruct Hx as [<- | Hx]; [cbn; auto|]). destruct Hx.
Defined.

(** ** Starting a survey *)

Lemma get_or_create_cases
  (first_match : list facility_row -> option facility_row)
  (name : option string) (st : store) :
  picks_a_row first_match ->
  (exists msg,
      _get_or_create_facility_by_name first_match name st = (st, Raise msg))
  \/ exists st1 f,
       _get_or_create_facility_by_name first_match name st = (st1, Ok (f_id f))
       /\ surveys st1 = surveys st /\ survey_answers st1 = survey_answers st
       /\ In f (facilities st1)
       /\ lower (f_name f) = lower (Py.strip (Py.or_str name ""))
       /\ (StronglySorted Z.lt (map f_id (facilities st)) ->
           StronglySorted Z.lt (map f_id (facilities st1))).
Proof.
  intros Hpick. unfold _get_or_create_facility_by_name.
  set (n := Py.strip (Py.or_str name "")).
  destruct (Py.not_str n) eqn:En; [left; eauto|]. right.
  assert (Hn : n <> "") by now apply not_str_false_iff.
  pose proof (Hpick (filter (fun f => String.eqb (lower (f_name f)) (lower n))
                       (facilities st))) as Hrows.
  destruct (first_match
              (filter (fun f => String.eqb (lower (f_name f)) (lower n))
                 (facilities st))) as [row|].
  - exists st, row.
    apply filter_In in Hrows as [Hrow Erow]. apply String.eqb_eq in Erow.
    now repeat split.
  - unfold add_facility. rewrite (or_str_some_nonempty n Hn).
    unfold n at 1 2. rewrite strip_idempotent. fold n. rewrite En.
    exists {| facilities := facilities st
                ++ [{| f_id := next_rowid (map f_id (facilities st)); f_name := n |}];
              surveys := surveys st; survey_answers := survey_answers st |},
      {| f_id := next_rowid (map f_id (facilities st)); f_name := n |}.
    cbn [facilities surveys survey_answers f_id f_name].
    split; [reflexivity|]. split; [reflexivity|]. split; [reflexivity|].
    split; [apply in_or_app; right; now left|]. split; [reflexivity|].
    intros Hs. rewrite map_app. now apply increasing_append_next.
Qed.

Lemma details_of_new_survey (st : store) (f : facility_row) (new : survey_row) :
  NoDup (map f_id (facilities st)) -> In f (facilities st) ->
  s_facility_id new = f_id f ->
  (forall s, In s (surveys st) -> s_id s <> s_id new) ->
  hd_error (select_header
              {| facilities := facilities st;
                 surveys := surveys st ++ [new];
                 survey_answers := survey_answers st |} (s_id new))
  = Some (header_of (new, f)).
Proof.
  intros Hnd Hf Efid Hfresh. unfold select_header; cbn [facilities surveys].
  rewrite flat_map_app.
  assert (Eold : flat_map
                   (fun s =>
                      if s_id s =? s_id new then
                        map (fun f0 =>
                               {| h_id := s_id s; h_facility_id := s_facility_id s;
                                  h_facility_name := f_name f0;
                                  h_template_id := s_template_id s;
                                  h_survey_type := s_survey_type s;
                                  h_enumerator_name := s_enumerator_name s;
                                  h_status := s_status s;
                                  h_created_at := s_created_at s |})
                          (filter (fun f0 => f_id f0 =? s_facility_id s) (facilities st))
                      else []) (surveys st) = []).
  { induction (surveys st) as [|s l IH]; [reflexivity|]. cbn [flat_map].
    rewrite (proj2 (Z.eqb_neq (s_id s) (s_id new)))
      by (apply Hfresh; now left).
    apply IH. intros x Hx. apply Hfresh. now right. }
  rewrite Eold. cbn [app flat_map]. rewrite Z.eqb_refl, app_nil_r, Efid.
  destruct (filter_key_at_most_one (facilities st) (f_id f) Hnd) as [E | (g & E)];
    assert (Hin : In f (filter (fun f0 => f_id f0 =? f_id f) (facilities st)))
      by (apply filter_In; split; [exact Hf | apply Z.eqb_refl]);
    rewrite E in *.
  - destruct Hin.
  - destruct Hin as [-> | []]. unfold header_of. cbn [map hd_error fst snd].
    now rewrite Efid.
Qed.

Section StartProperties.
Variable int_of_str : string -> result Z.
Variable str_of_int : Z -> string.
Variable first_match : list facility_row -> option facility_row.

(** X24: a survey started through [enum_start_post] can be opened.  On a
    store whose ids grow with the insertion order, whichever matching
    facility the lookup returns, when the route sends the
    enumerator to a survey, that survey is new, and [get_survey_details]
    returns for it, with status DRAFT, the stripped enumerator name of the
    form, and the name of a stored facility equal to the stripped facility
    name of the form up to ASCII case; when the route answers anything
    else, or raises, no survey has been stored.  The route stores no
    answer. *)
Theorem started_survey_has_details (now : string) (form : string -> option string)
  (ts : Templates.template_store) (st : store) :
  picks_a_row first_match -> ids_increasing st ->
  let st' := fst (enum_start_post int_of_str str_of_int first_match now form ts st) in
  survey_answers st' = survey_answers st
  /\ match snd (enum_start_post int_of_str str_of_int first_match now form ts st) with
     | Ok (To_enum_survey sid e) =>
         e = Py.strip (Py.or_str (form "e") "") /\ e <> ""
         /\ ~ In sid (map s_id (surveys st))
         /\ exists h answers qa,
              get_survey_details st' sid = Ok (h, answers, qa)
              /\ h_id h = sid /\ h_status h = "DRAFT" /\ h_enumerator_name h = e
              /\ lower (h_facility_name h)
                 = lower (Py.strip (Py.or_str (form "facility_name") ""))
     | _ => surveys st' = surveys st
     end.
Proof.
  intros Hpick (Hf & Hs & Ha). cbv zeta. unfold enum_start_post.
  destruct (Py.not_str (Py.strip (Py.or_str (form "e") ""))) eqn:Ee;
    [now split|].
  assert (He : Py.strip (Py.or_str (form "e") "") <> "")
    by now apply not_str_false_iff.
  destruct (get_or_create_cases first_match
              (Some (Py.strip (Py.or_str (form "facility_name") ""))) st Hpick)
    as [(msg & ->) | (st1 & f & -> & Es1 & Ea1 & Hf1 & Ename & Hsorted)];
    [now split|].
  rewrite or_str_some, strip_idempotent in Ename.
  assert (Hnew : forall ty tid,
             let res := create_survey now (f_id f) ty
                          (Py.strip (Py.or_str (form "e") "")) tid st1 in
             survey_answers (fst res) = survey_answers st
             /\ ~ In (snd res) (map s_id (surveys st))
             /\ exists h answers qa,
                  get_survey_details (fst res) (snd res) = Ok (h, answers, qa)
                  /\ h_id h = snd res /\ h_status h = "DRAFT"
                  /\ h_enumerator_name h = Py.strip (Py.or_str (form "e") "")
                  /\ lower (h_facility_name h)
                     = lower (Py.strip (Py.or_str (form "facility_name") ""))).
  { intros ty tid. cbv zeta. rewrite create_survey_appends. cbn [fst snd].
    cbn [survey_answers]. split; [exact Ea1|].
    split; [rewrite <- Es1; apply next_rowid_fresh|].
    unfold get_survey_details.
    set (new := {| s_id := next_rowid (map s_id (surveys st1));
                   s_facility_id := f_id f; s_template_id := tid;
                   s_survey_type := ty;
                   s_enumerator_name := Py.strip (Py.or_str (form "e") "");
                   s_status := "DRAFT"; s_created_at := now |}).
    change (next_rowid (map s_id (surveys st1))) with (s_id new).
    rewrite (details_of_new_survey st1 f new).
    - eexists _, _, _. split; [reflexivity|]. cbn. now repeat split.
    - apply increasing_NoDup. now apply Hsorted.
    - exact Hf1.
    - reflexivity.
    - intros s Hs_in E.
      apply (next_rowid_fresh (map s_id (surveys st1))).
      change (next_rowid (map s_id (surveys st1))) with (s_id new).
      rewrite <- E. now apply in_map. }
  destruct (String.eqb _ MODE_MANUAL).
  - specialize (Hnew (if Py.not_str (Py.strip (Py.or_str (form "survey_title") ""))
                      then "Manual Survey"
                      else Py.strip (Py.or_str (form "survey_title") "")) None).
    cbv zeta in Hnew.
    destruct (create_survey now (f_id f) _ _ None st1) as [st2 sid].
    cbn [fst snd] in *. destruct Hnew as (H1 & H2 & H3).
    split; [exact H1|]. now repeat split.
  - match goal with
    | |- context [if ?c then (st1, Ok (To_enum_start _)) else _] => destruct c
    end; [cbn [fst snd]; now split|].
    destruct (int_of_str _) as [template_id|msg]; [|cbn [fst snd]; now split].
    match goal with
    | |- context [create_survey now (f_id f) ?ty _ (Some template_id) st1] =>
        specialize (Hnew ty (Some template_id))
    end.
    cbv zeta in Hnew.
    destruct (create_survey now (f_id f) _ _ (Some template_id) st1) as [st2 sid].
    cbn [fst snd] in *. destruct Hnew as (H1 & H2 & H3).
    split; [exact H1|]. now repeat split.
Qed.

End StartProperties.

Lemma started_survey_has_details_witness :
  let int_of_str (s : string) : result Z :=
    if String.eqb s "2" then Ok 2
    else Raise "invalid literal for int() with base 10" in
  let str_of_int (n : Z) : string := if n =? 2 then "2" else "1" in
  let form (k : string) : option string :=
    if String.eqb k "e" then Some " dele "
    else if String.eqb k "facility_name" then Some "clinic a"
    else if String.eqb k "template_id" then Some "2"
    else None in
  let ts := {| Templates.survey_templates :=
                 [{| Templates.t_id := 2; Templates.t_name := "Service Availability";
                     Templates.t_description := None;
                     Templates.t_created_at := "2024-05-01T10:00:00" |}];
               Templates.template_questions := [];
               Templates.templates_seq := 2 |} in
  snd (enum_start_post int_of_str str_of_int (@hd_error facility_row)
         "2024-05-02T09:00:00" form ts ranking_store)
  = Ok (To_enum_survey 5 "dele")
  /\ survey_answers
       (fst (enum_start_post int_of_str str_of_int (@hd_error facility_row)
               "2024-05-02T09:00:00" form ts ranking_store))
     = survey_answers ranking_store.
Proof.
  cbv zeta. split; [reflexivity|].
  refine (proj1 (started_survey_has_details _ _ (@hd_error facility_row)
                   "2024-05-02T09:00:00" _ _ ranking_store hd_error_picks _)).
  repeat split; repeat constructor; cbn; lia.
Defined.

(** ** The schema *)

Lemma same_name_refl (a : string) : same_name a a = true.
Proof. apply String.eqb_refl. Qed.

Lemma columns_of_app (table : string) (tabs more : list (string * list string)) :
  columns_of table (tabs ++ more)
  = match columns_of table tabs with
    | Some cols => Some cols
    | None => columns_of table more
    end.
Proof.
  induction tabs as [|[name cols] tabs IH]; [reflexivity|].
  cbn [app columns_of]. now destruct (same_name name table).
Qed.

Lemma columns_of_add_column (table col x : string) (tabs : list (string * list string)) :
  (columns_of x (add_column_to table col tabs) = None
   <-> columns_of x tabs = None)
  /\ (forall cols, columns_of x tabs = Some cols ->
        exists more, columns_of x (add_column_to table col tabs)
                     = Some (cols ++ more)%list).
Proof.
  induction tabs as [|[name c] tabs IH]; cbn [add_column_to columns_of].
  - split; [reflexivity | discriminate].
  - destruct (same_name name table); cbn [columns_of];
      destruct (same_name name x).
    + split; [split; discriminate|]. intros cols [= <-]. now exists [col].
    + split; [reflexivity|]. intros cols H. exists []. now rewrite app_nil_r.
    + split; [split; discriminate|]. intros cols [= <-]. exists [].
      now rewrite app_nil_r.
    + exact IH.
Qed.

Lemma columns_of_added (table col : string) (tabs : list (string * list string))
  (cols : list string) :
  columns_of table tabs = Some cols ->
  columns_of table (add_column_to table col tabs) = Some (cols ++ [col])%list.
Proof.
  induction tabs as [|[name c] tabs IH]; cbn [add_column_to columns_of];
    [discriminate|].
  destruct (same_name name table) eqn:E; cbn [columns_of]; rewrite E.
  - now intros [= <-].
  - exact IH.
Qed.

Lemma py_in_app (x : string) (l more : list string) :
  py_in x l = true -> py_in x (l ++ more) = true.
Proof. unfold py_in. rewrite existsb_app. now intros ->. Qed.

Lemma keeps_columns_refl (s : db_schema) : keeps_columns s s.
Proof. intros table cols H. exists []. now rewrite app_nil_r. Qed.

Lemma keeps_columns_trans (a b c : db_schema) :
  keeps_columns a b -> keeps_columns b c -> keeps_columns a c.
Proof.
  intros Hab Hbc table cols H.
  destruct (Hab table cols H) as (m1 & H1).
  destruct (Hbc table _ H1) as (m2 & H2).
  exists (m1 ++ m2)%list. now rewrite app_assoc.
Qed.

Section SchemaProperties.
Variable no_table_message : string -> string.
Variable no_column_message : string -> string -> string.

Local Abbreviation execute := (execute no_table_message no_column_message).
Local Abbreviation execute_all := (execute_all no_table_message no_column_message).

Lemma execute_effect (c : statement) (s : db_schema) :
  keeps_columns s (fst (execute c s))
  /\ (forall i, existsb (same_name i) (indexes s) = true ->
                existsb (same_name i) (indexes (fst (execute c s))) = true)
  /\ (is_create c = false ->
      forall x, columns_of x (tables s) = None ->
                columns_of x (tables (fst (execute c s))) = None).
Proof.
  destruct c as [table cols | index table col | table col col_def]; cbn [execute is_create].
  - unfold create_table.
    destruct (columns_of table (tables s)) eqn:E; cbn [fst];
      [split; [apply keeps_columns_refl | split; [auto | discriminate]]|].
    destruct (existsb (same_name table) (indexes s)); cbn [fst tables indexes];
      [split; [apply keeps_columns_refl | split; [auto | discriminate]]|].
    split; [|split; [auto | discriminate]].
    intros x c Hx. exists []. cbn [tables].
    now rewrite columns_of_app, Hx, app_nil_r.
  - unfold create_index.
    destruct (columns_of table (tables s)); cbn [fst];
      [|split; [apply keeps_columns_refl | auto]].
    destruct (columns_of index (tables s)); cbn [fst];
      [split; [apply keeps_columns_refl | auto]|].
    destruct (existsb (same_name index) (indexes s)); cbn [fst];
      [split; [apply keeps_columns_refl | auto]|].
    destruct (existsb (same_name col) l); cbn [fst tables indexes];
      [|split; [apply keeps_columns_refl | auto]].
    split; [intros x c Hx; exists []; cbn [tables]; now rewrite app_nil_r|].
    split; [|auto].
    intros i Hi. rewrite existsb_app, Hi. reflexivity.
  - unfold _add_column_if_missing.
    destruct (negb _); cbn [fst]; [|split; [apply keeps_columns_refl | auto]].
    destruct (columns_of table (tables s)); cbn [fst];
      [|split; [apply keeps_columns_refl | auto]].
    destruct (existsb (same_name col) l); cbn [fst tables indexes];
      [split; [apply keeps_columns_refl | auto]|].
    split; [|split; [auto|]].
    + intros x c Hx. cbn [tables]. now apply columns_of_add_column.
    + intros _ x Hx. cbn [tables]. now apply columns_of_add_column.
Qed.

Lemma execute_settles (c : statement) (s s' : db_schema) :
  execute c s = (s', Ok tt) -> settled c s'.
Proof.
  destruct c as [table cols | index table col | table col col_def];
    cbn [execute settled].
  - unfold create_table.
    destruct (columns_of table (tables s)) eqn:E.
    + intros [= <-]. congruence.
    + destruct (existsb (same_name table) (indexes s)); [discriminate|].
      intros [= <-]. cbn [tables]. rewrite columns_of_app, E. cbn [columns_of].
      rewrite same_name_refl. discriminate.
  - unfold create_index.
    destruct (columns_of table (tables s)) eqn:Et; [|discriminate].
    destruct (columns_of index (tables s)) eqn:Ei; [discriminate|].
    destruct (existsb (same_name index) (indexes s)) eqn:Ex.
    + intros [= <-]. rewrite Et. repeat split; [discriminate | assumption..].
    + destruct (existsb (same_name col) l); [|discriminate].
      intros [= <-]. cbn [tables indexes]. rewrite Et.
      split; [discriminate|]. split; [exact Ei|].
      rewrite existsb_app. cbn [existsb]. rewrite same_name_refl.
      now rewrite orb_true_r.
  - unfold _add_column_if_missing.
    destruct (py_in col (_columns s table)) eqn:Ein; cbn [negb].
    + now intros [= <-].
    + destruct (columns_of table (tables s)) eqn:Et; [|discriminate].
      destruct (existsb (same_name col) l); [discriminate|].
      intros [= <-]. unfold _columns. cbn [tables].
      rewrite (columns_of_added table col (tables s) l Et).
      unfold py_in. rewrite existsb_app. cbn [existsb].
      rewrite String.eqb_refl. now rewrite orb_true_r.
Qed.

Lemma settled_is_done (c : statement) (s : db_schema) :
  settled c s -> execute c s = (s, Ok tt).
Proof.
  destruct c as [table cols | index table col | table col col_def];
    cbn [execute settled].
  - unfold create_table. now destruct (columns_of table (tables s)).
  - unfold create_index. intros (Ht & -> & ->).
    now destruct (columns_of table (tables s)).
  - unfold _add_column_if_missing. now intros ->.
Qed.

Lemma settled_stays (c d : statement) (s : db_schema) :
  is_create c = true \/ is_create d = false ->
  settled c s -> settled c (fst (execute d s)).
Proof.
  intros Horder.
  destruct (execute_effect d s) as (Hkeep & Hidx & Hnames).
  destruct c as [table cols | index table col | table col col_def]; cbn [settled].
  - intros H. destruct (columns_of table (tables s)) as [c|] eqn:E; [|congruence].
    destruct (Hkeep table c E) as (more & ->). discriminate.
  - destruct Horder as [Hc | Hd]; [discriminate|].
    intros (Ht & Hi & Hx). split; [|split; [now apply Hnames | now apply Hidx]].
    destruct (columns_of table (tables s)) as [c|] eqn:E; [|congruence].
    destruct (Hkeep table c E) as (more & ->). discriminate.
  - unfold _columns.
    destruct (columns_of table (tables s)) as [c|] eqn:E; [|discriminate].
    destruct (Hkeep table c E) as (more & ->). apply py_in_app.
Qed.

Lemma execute_all_settles (cs : list statement) (s s' : db_schema) :
  Forall (fun c => is_create c = false) cs \/ Forall (fun c => is_create c = true) cs ->
  execute_all cs s = (s', Ok tt) ->
  Forall (fun c => settled c s') cs
  /\ keeps_columns s s'
  /\ (forall c, is_create c = true \/ Forall (fun d => is_create d = false) cs ->
                settled c s -> settled c s').
Proof.
  revert s. induction cs as [|d cs IH]; intros s Hkind; cbn [execute_all].
  - intros [= <-]. split; [constructor|]. split; [apply keeps_columns_refl | auto].
  - destruct (execute d s) as [s1 [[]|msg]] eqn:E; [|discriminate].
    intros Hrun.
    assert (Hkind' : Forall (fun c => is_create c = false) cs
                     \/ Forall (fun c => is_create c = true) cs).
    { destruct Hkind as [H | H]; [left | right]; now apply Forall_inv_tail in H. }
    destruct (IH s1 Hkind' Hrun) as (Hall & Hkeep & Hstay).
    assert (Es1 : s1 = fst (execute d s)) by now rewrite E.
    split; [|split].
    + constructor; [|exact Hall]. apply Hstay.
      * destruct Hkind as [H | H].
        -- right. now apply Forall_inv_tail in H.
        -- left. now apply Forall_inv in H.
      * now apply (execute_settles d s).
    + apply (keeps_columns_trans s s1); [|exact Hkeep].
      rewrite Es1. apply execute_effect.
    + intros c Hc Hs. apply Hstay.
      * destruct Hc as [Hc | Hc]; [now left | right; now apply Forall_inv_tail in Hc].
      * rewrite Es1. apply settled_stays; [|exact Hs].
        destruct Hc as [Hc | Hc]; [now left | right; now apply Forall_inv in Hc].
Qed.

Lemma execute_all_app (a b : list statement) (s : db_schema) :
  execute_all (a ++ b) s
  = match execute_all a s with
    | (s1, Ok _) => execute_all b s1
    | (s1, Raise msg) => (s1, Raise msg)
    end.
Proof.
  revert s. induction a as [|c a IH]; intros s; cbn [app execute_all]; [reflexivity|].
  destruct (execute c s) as [s1 [[]|msg]]; [apply IH | reflexivity].
Qed.

Lemma execute_all_done (cs : list statement) (s : db_schema) :
  Forall (fun c => settled c s) cs -> execute_all cs s = (s, Ok tt).
Proof.
  induction 1 as [|c cs Hc Hall IH]; cbn [execute_all]; [reflexivity|].
  now rewrite (settled_is_done c s Hc).
Qed.

(** X25: when [init_db] returns, the schema it leaves is settled: each of
    its five tables exists, each of its six indexes exists, and every
    column of its migration lists is among the columns [_columns] returns
    for its table; the tables that existed keep their columns, in their
    places, new columns coming after them; and running [init_db] again
    returns and changes nothing. *)
Theorem init_db_settles_schema (s s' : db_schema) :
  init_db no_table_message no_column_message s = (s', Ok tt) ->
  Forall (fun c => settled c s') init_db_statements
  /\ keeps_columns s s'
  /\ init_db no_table_message no_column_message s' = (s', Ok tt).
Proof.
  unfold init_db.
  change init_db_statements
    with (firstn 5 init_db_statements ++ skipn 5 init_db_statements)%list.
  rewrite execute_all_app.
  destruct (execute_all (firstn 5 init_db_statements) s) as [s1 [[]|msg]] eqn:E1;
    [|discriminate].
  intros E2.
  destruct (execute_all_settles (firstn 5 init_db_statements) s s1) as (H1 & K1 & _);
    [right; repeat constructor | exact E1 |].
  destruct (execute_all_settles (skipn 5 init_db_statements) s1 s') as (H2 & K2 & S2);
    [left; repeat constructor | exact E2 |].
  assert (Hall : Forall (fun c => settled c s')
                   (firstn 5 init_db_statements ++ skipn 5 init_db_statements)).
  { apply Forall_app. split; [|exact H2].
    eapply Forall_impl; [|exact H1]. intros c Hc. apply S2; [|exact Hc].
    right. repeat constructor. }
  split; [exact Hall|]. split; [now apply (keeps_columns_trans s s1)|].
  now apply execute_all_done.
Qed.

End SchemaProperties.

Lemma init_db_settles_schema_witness :
  let no_table (t : string) := "no such table: " ++ t in
  let no_column (t c : string) := "no such column: " ++ c in
  let fresh := {| tables := []; indexes := [] |} in
  let s := fst (init_db no_table no_column fresh) in
  snd (init_db no_table no_column fresh) = Ok tt
  /\ _columns s "surveys" = surveys_columns
  /\ _columns s "survey_answers" = survey_answers_columns
  /\ _columns s "template_questions" = Templates.template_questions_columns
  /\ init_db no_table no_column s = (s, Ok tt).
Proof.
  cbv zeta. split; [reflexivity|]. split; [reflexivity|]. split; [reflexivity|].
  split; [reflexivity|].
  refine (proj2 (proj2 (init_db_settles_schema _ _ {| tables := []; indexes := [] |}
                          _ eq_refl))).
Defined.

(** ** Question types inferred from the text *)

Lemma prefix_append (x q s : string) :
  String.prefix x q = true -> String.prefix x (q ++ s) = true.
Proof.
  revert q. induction x as [|c x IH]; intros q; [intros _; now destruct (q ++ s)|].
  destruct q as [|d q]; cbn [String.prefix append]; [discriminate|].
  destruct (Ascii.ascii_dec c d); [apply IH | discriminate].
Qed.

Lemma contains_append_right (x q s : string) :
  contains x q = true -> contains x (q ++ s) = true.
Proof.
  induction q as [|d q IH]; cbn [contains append].
  - rewrite orb_false_r. intros H. destruct x; [|discriminate].
    now destruct s.
  - intros H. apply orb_true_iff in H as [H | H]; apply orb_true_iff.
    + left. now apply (prefix_append x (String d q) s).
    + right. now apply IH.
Qed.

Lemma contains_append_left (x p q : string) :
  contains x q = true -> contains x (p ++ q) = true.
Proof.
  intros H. induction p as [|d p IH]; cbn [append contains]; [exact H|].
  rewrite IH. apply orb_true_r.
Qed.

Lemma lower_append (a b : string) : lower (a ++ b) = lower a ++ lower b.
Proof. induction a as [|c a IH]; cbn [append lower]; congruence. Qed.

Lemma same_ignoring_case_lower (a b : string) :
  same_ignoring_case a b = true -> lower a = lower b.
Proof.
  revert b. induction a as [|c a IH]; intros [|d b]; cbn [same_ignoring_case lower];
    try discriminate; [reflexivity|].
  intros H. apply andb_true_iff in H as [Hc H]. unfold like_char in Hc.
  apply Ascii.eqb_eq in Hc. now rewrite Hc, (IH b H).
Qed.

Lemma any_in_embedded (words : list string) (p q s : string) :
  any_in words q = true -> any_in words (p ++ q ++ s) = true.
Proof.
  unfold any_in. intros H. apply existsb_exists in H as (x & Hx & Hc).
  apply existsb_exists. exists x. split; [exact Hx|].
  now apply contains_append_left, contains_append_right.
Qed.

(** X26: [infer_question_type] returns YESNO, NUMBER or TEXT, and TEXT for
    an absent or empty text; two texts that differ only in the case of
    ASCII letters get the same type; and text added before or after a question never loses what
    was detected: a question typed YESNO stays YESNO, and a question typed
    NUMBER becomes YESNO or stays NUMBER. *)
Theorem inferred_type_is_stable (q : string) :
  In (infer_question_type (Some q)) ["YESNO"; "NUMBER"; "TEXT"]
  /\ infer_question_type None = "TEXT" /\ infer_question_type (Some "") = "TEXT"
  /\ (forall q', same_ignoring_case q q' = true ->
                  infer_question_type (Some q') = infer_question_type (Some q))
  /\ forall before after,
       (infer_question_type (Some q) = "YESNO" ->
        infer_question_type (Some (before ++ q ++ after)) = "YESNO")
       /\ (infer_question_type (Some q) = "NUMBER" ->
           infer_question_type (Some (before ++ q ++ after)) <> "TEXT").
Proof.
  assert (Hor : forall s, lower (Py.or_str (Some s) "") = lower s)
    by (intros s; now rewrite or_str_some).
  unfold infer_question_type. rewrite !Hor.
  split; [|split; [reflexivity|split; [reflexivity|split]]].
  - destruct (any_in _ (lower q)); [now left|].
    destruct (any_in _ (lower q)); [right; now left | right; right; now left].
  - intros q' Hq. now rewrite !Hor, (same_ignoring_case_lower q q' Hq).
  - intros before after. rewrite !Hor, !lower_append.
    set (yes := ["yes/no"; "yes or no"; "is the"; "are you"; "do you"; "does the";
                 "did you"; "was the"; "were the"]).
    set (num := ["how many"; "number of"; "minutes"; "hours"; "age"; "count";
                 "quantity"; "rate"; "percentage"; "%"]).
    split.
    + destruct (any_in yes (lower q)) eqn:Ey.
      * intros _. now rewrite (any_in_embedded yes _ _ _ Ey).
      * destruct (any_in num (lower q)); discriminate.
    + destruct (any_in yes (lower q)) eqn:Ey; [discriminate|].
      destruct (any_in num (lower q)) eqn:En; [|discriminate].
      intros _.
      destruct (any_in yes (lower before ++ lower q ++ lower after));
        [intros H; discriminate H|].
      rewrite (any_in_embedded num _ _ _ En). intros H; discriminate H.
Qed.

Lemma columns_of_add_column_cases (table col x : string)
  (tabs : list (string * list string)) (cols : list string) :
  columns_of x tabs = Some cols ->
  columns_of x (add_column_to table col tabs) = Some cols
  \/ columns_of x (add_column_to table col tabs) = Some (cols ++ [col])%list.
Proof.
  induction tabs as [|[name c] tabs IH]; cbn [add_column_to columns_of];
    [discriminate|].
  destruct (same_name name table); cbn [columns_of]; destruct (same_name name x).
  - intros [= <-]. now right.
  - intros H. now left.
  - intros [= <-]. now left.
  - exact IH.
Qed.

Section LegacySchema.
Variable no_table_message : string -> string.
Variable no_column_message : string -> string -> string.

Local Abbreviation run_one := (execute no_table_message no_column_message).
Local Abbreviation run_all := (execute_all no_table_message no_column_message).

Lemma execute_all_invariant (I : db_schema -> Prop) (ok : statement -> bool)
  (cs : list statement) (s : db_schema) :
  (forall d s0, ok d = true -> I s0 -> I (fst (run_one d s0))) ->
  forallb ok cs = true -> I s -> I (fst (run_all cs s)).
Proof.
  intros Hstep. revert s. induction cs as [|d cs IH]; intros s Hok Hs;
    cbn [execute_all]; [exact Hs|].
  cbn [forallb] in Hok. apply andb_true_iff in Hok as [Hd Hok].
  pose proof (Hstep d s Hd Hs) as H1.
  destruct (run_one d s) as [s1 [[]|msg]]; cbn [fst] in *; [now apply IH | exact H1].
Qed.

Lemma status_index_not_made (cols : list string) (d : statement) (s : db_schema) :
  before_status_index d = true ->
  columns_of "surveys" (tables s) = Some cols
  /\ existsb (same_name "idx_surveys_status") (indexes s) = false ->
  columns_of "surveys" (tables (fst (run_one d s))) = Some cols
  /\ existsb (same_name "idx_surveys_status") (indexes (fst (run_one d s))) = false.
Proof.
  intros Hd [Hc Hi].
  destruct d as [table c | index table col | table col col_def];
    cbn [before_status_index execute] in *; [| |discriminate].
  - unfold create_table. destruct (columns_of table (tables s)); [now split|].
    destruct (existsb (same_name table) (indexes s)); [now split|].
    cbn [fst tables indexes]. split; [|exact Hi].
    now rewrite columns_of_app, Hc.
  - unfold create_index. destruct (columns_of table (tables s)); [|now split].
    destruct (columns_of index (tables s)); [now split|].
    destruct (existsb (same_name index) (indexes s)); [now split|].
    destruct (existsb (same_name col) l); [|now split].
    cbn [fst tables indexes]. split; [exact Hc|].
    rewrite existsb_app, Hi. cbn [existsb].
    apply negb_true_iff in Hd. now rewrite Hd.
Qed.

Lemma status_not_added (cols : list string) (d : statement) (s : db_schema) :
  negb (adds_status d) = true ->
  (exists more, columns_of "surveys" (tables s) = Some (cols ++ more)%list
                /\ py_in "status" more = false) ->
  exists more, columns_of "surveys" (tables (fst (run_one d s)))
               = Some (cols ++ more)%list
               /\ py_in "status" more = false.
Proof.
  intros Hd (more & Hc & Hm).
  destruct d as [table c | index table col | table col col_def];
    cbn [adds_status execute] in *.
  - unfold create_table. destruct (columns_of table (tables s)); [now exists more|].
    destruct (existsb (same_name table) (indexes s)); [now exists more|].
    cbn [fst tables]. exists more. now rewrite columns_of_app, Hc.
  - unfold create_index. destruct (columns_of table (tables s)); [|now exists more].
    destruct (columns_of index (tables s)); [now exists more|].
    destruct (existsb (same_name index) (indexes s)); [now exists more|].
    destruct (existsb (same_name col) l); now exists more.
  - unfold _add_column_if_missing. destruct (negb (py_in col _)); [|now exists more].
    destruct (columns_of table (tables s)); [|now exists more].
    destruct (existsb (same_name col) l); [now exists more|].
    cbn [fst tables].
    destruct (columns_of_add_column_cases table col "surveys" (tables s) _ Hc)
      as [-> | ->]; [now exists more|].
    exists (more ++ [col])%list. split; [now rewrite app_assoc|].
    unfold py_in in *. rewrite existsb_app, Hm. cbn [existsb].
    apply negb_true_iff in Hd. rewrite String.eqb_sym in Hd. now rewrite Hd.
Qed.

(** X27: [init_db] cannot give an existing [surveys] table its [status]
    column.  When the table is there and [_columns] finds no column
    [status] in it (an index existing only with its column), [init_db]
    raises: if no column has that name in any case, creating
    [idx_surveys_status] fails before the migrations run; if a column has
    that name in another case, the migration's [ALTER TABLE] fails on a
    duplicate column, unless an earlier statement has failed already. *)
Theorem init_db_cannot_add_status (s : db_schema) (cols : list string) :
  columns_of "surveys" (tables s) = Some cols ->
  py_in "status" cols = false ->
  (existsb (same_name "idx_surveys_status") (indexes s) = true ->
   existsb (same_name "status") cols = true) ->
  exists msg, snd (init_db no_table_message no_column_message s) = Raise msg.
Proof.
  intros Hc Hin Hindex. unfold init_db.
  destruct (existsb (same_name "status") cols) eqn:Ecol.
  - (* a column of that name in another case: the migration fails *)
    change init_db_statements
      with (firstn 25 init_db_statements
            ++ Add_column_if_missing "surveys" "status" "TEXT NOT NULL DEFAULT 'DRAFT'"
            :: skipn 26 init_db_statements)%list.
    rewrite execute_all_app.
    pose proof (execute_all_invariant
                  (fun s0 => exists more,
                       columns_of "surveys" (tables s0) = Some (cols ++ more)%list
                       /\ py_in "status" more = false)
                  (fun d => negb (adds_status d))
                  (firstn 25 init_db_statements) s
                  (status_not_added cols) eq_refl) as Hinv.
    destruct (run_all (firstn 25 init_db_statements) s) as [s1 [[]|msg]];
      [|now exists msg].
    destruct Hinv as (more & Hc1 & Hm1).
    { exists []. now rewrite app_nil_r. }
    cbn [fst] in Hc1. cbn [execute_all execute].
    unfold _add_column_if_missing, _columns. rewrite Hc1.
    assert (E1 : py_in "status" (cols ++ more) = false)
      by (unfold py_in in *; now rewrite existsb_app, Hin, Hm1).
    assert (E2 : existsb (same_name "status") (cols ++ more) = true)
      by now rewrite existsb_app, Ecol.
    rewrite E1, E2. cbn. eauto.
  - (* no column of that name: the index cannot be created *)
    assert (Hno_index : existsb (same_name "idx_surveys_status") (indexes s) = false).
    { destruct (existsb (same_name "idx_surveys_status") (indexes s)); [|reflexivity].
      now specialize (Hindex eq_refl). }
    change init_db_statements
      with (firstn 7 init_db_statements
            ++ Create_index "idx_surveys_status" "surveys" "status"
            :: skipn 8 init_db_statements)%list.
    rewrite execute_all_app.
    pose proof (execute_all_invariant
                  (fun s0 =>
                     columns_of "surveys" (tables s0) = Some cols
                     /\ existsb (same_name "idx_surveys_status") (indexes s0) = false)
                  before_status_index
                  (firstn 7 init_db_statements) s
                  (status_index_not_made cols) eq_refl (conj Hc Hno_index)) as Hinv.
    destruct (run_all (firstn 7 init_db_statements) s) as [s1 [[]|msg]];
      [|now exists msg].
    destruct Hinv as (Hc1 & Hi1). cbn [fst] in Hc1, Hi1.
    cbn [execute_all execute]. unfold create_index.
    rewrite Hc1.
    destruct (columns_of "idx_surveys_status" (tables s1)); [cbn; eauto|].
    rewrite Hi1, Ecol. cbn. eauto.
Qed.

End LegacySchema.

Lemma init_db_cannot_add_status_witness :
  let no_table (t : string) := "no such table: " ++ t in
  let no_column (t c : string) := "no such column: " ++ c in
  let legacy :=
    {| tables := [("surveys", ["id"; "facility_id"; "survey_type";
                               "enumerator_name"; "Status"; "created_at"])];
       indexes := [] |} in
  snd (init_db no_table no_column legacy) = Raise "duplicate column name: status"
  /\ exists msg, snd (init_db no_table no_column legacy) = Raise msg.
Proof.
  cbv zeta. split; [reflexivity|].
  apply (init_db_cannot_add_status _ _ _
           ["id"; "facility_id"; "survey_type"; "enumerator_name"; "Status";
            "created_at"]).
  - reflexivity.
  - reflexivity.
  - discriminate.
Defined.

(** ** The question a template survey shows *)

Lemma py_index_in_range {A : Type} (l : list A) (i : Z) :
  0 <= i < Z.of_nat (List.length l) ->
  exists x, py_index l i = Ok x /\ nth_error l (Z.to_nat i) = Some x.
Proof.
  intros Hi. unfold py_index.
  rewrite (proj2 (Z.leb_le 0 i)), (proj2 (Z.ltb_lt i _)) by lia. cbn [andb].
  destruct (nth_error l (Z.to_nat i)) as [x|] eqn:E; [now exists x|].
  apply nth_error_None in E. lia.
Qed.

Lemma find_next_spec {V : Type} (qs : list template_question) (m : dict V) :
  qs <> [] ->
  0 <= _find_next_unanswered_index qs m < Z.of_nat (List.length qs)
  /\ ((exists x, In x qs /\ q_is_required x = 1 /\ dict_in (q_id x) m = false) ->
      exists x, nth_error qs (Z.to_nat (_find_next_unanswered_index qs m)) = Some x
                /\ q_is_required x = 1 /\ dict_in (q_id x) m = false).
Proof.
  intros Hne. unfold _find_next_unanswered_index.
  destruct (first_index _ qs) as [i|] eqn:E1.
  - destruct (first_index_some _ _ _ E1) as (Hi & (x & Hx & Px) & _).
    split; [exact Hi|]. intros _. exists x. split; [exact Hx|].
    apply andb_true_iff in Px as [Pr Pu]. apply Z.eqb_eq in Pr.
    apply negb_true_iff in Pu. now split.
  - pose proof (proj1 (first_index_none _ _) E1) as Hnone.
    assert (Hrange : 0 <= match first_index
                                  (fun q => negb (dict_in (q_id q) m)) qs with
                          | Some i => i
                          | None => 0
                          end < Z.of_nat (List.length qs)).
    { destruct (first_index (fun q => negb (dict_in (q_id q) m)) qs) as [i|] eqn:E2.
      - now destruct (first_index_some _ _ _ E2).
      - destruct qs; [congruence | cbn [List.length]; lia]. }
    split; [exact Hrange|]. intros (x & Hx & Hr & Hu). exfalso.
    specialize (Hnone x Hx). cbn beta in Hnone.
    rewrite Hr, Hu in Hnone. discriminate.
Qed.

Section QuestionViewProperties.
Variable int_of_str : string -> result Z.

(** X28: the template mode of [enum_survey] never indexes outside the
    question list.  It shows no question exactly when the template has
    none; it raises only when [int()] does, on a [q] made of digit
    characters; otherwise the index is within the list, the question shown
    is the question of the template at that index, the previous and next
    indexes are within the list on either side of it, and the question is
    marked as answered exactly when [_template_answer_map] has an entry for
    it.  When [q] is not made of digits and a required question of the
    template has no entry, the question shown is required and not yet
    answered. *)
Theorem shown_question_is_in_range (q : option string) (template_id sid : Z)
  (ts : Templates.template_store) (st : store) :
  let tq := Templates.get_template_questions template_id ts in
  let answered_map := _template_answer_map sid st in
  match enum_survey_question int_of_str q template_id sid ts st with
  | Ok No_questions => tq = []
  | Ok (Question_view idx question has_existing prev_idx next_idx) =>
      0 <= idx < Z.of_nat (List.length tq)
      /\ nth_error tq (Z.to_nat idx) = Some question
      /\ 0 <= prev_idx <= idx /\ idx <= next_idx < Z.of_nat (List.length tq)
      /\ has_existing = dict_in (q_id question) answered_map
      /\ (isdigit (Py.strip (Py.or_str q "")) = false ->
          (exists x, In x tq /\ q_is_required x = 1
                     /\ dict_in (q_id x) answered_map = false) ->
          q_is_required question = 1 /\ has_existing = false)
  | Raise msg =>
      isdigit (Py.strip (Py.or_str q "")) = true
      /\ int_of_str (Py.strip (Py.or_str q "")) = Raise msg
  end.
Proof.
  cbv zeta. unfold enum_survey_question.
  set (tq := Templates.get_template_questions template_id ts).
  set (m := _template_answer_map sid st).
  destruct tq as [|q0 rest] eqn:Etq; [reflexivity|]. rewrite <- Etq.
  assert (Hne : tq <> []) by (rewrite Etq; discriminate).
  assert (Hlen : 0 < Z.of_nat (List.length tq))
    by (rewrite Etq; cbn [List.length]; lia).
  assert (Hshow : forall idx,
             0 <= idx < Z.of_nat (List.length tq) ->
             exists question,
               nth_error tq (Z.to_nat idx) = Some question
               /\ bind (py_index tq idx)
                    (fun question =>
                       Ok (Question_view idx question
                             match dict_get (q_id question) m with
                             | Some _ => true
                             | None => false
                             end
                             (if 0 <? idx then idx - 1 else 0)
                             (if idx <? Z.of_nat (List.length tq) - 1
                              then idx + 1
                              else Z.of_nat (List.length tq) - 1)))
                  = Ok (Question_view idx question (dict_in (q_id question) m)
                          (if 0 <? idx then idx - 1 else 0)
                          (if idx <? Z.of_nat (List.length tq) - 1
                           then idx + 1
                           else Z.of_nat (List.length tq) - 1))
               /\ 0 <= (if 0 <? idx then idx - 1 else 0) <= idx
               /\ idx <= (if idx <? Z.of_nat (List.length tq) - 1
                          then idx + 1
                          else Z.of_nat (List.length tq) - 1)
                  < Z.of_nat (List.length tq)).
  { intros idx Hidx. destruct (py_index_in_range tq idx Hidx) as (x & -> & Hx).
    exists x. split; [exact Hx|]. split; [reflexivity|].
    destruct (Z.ltb_spec 0 idx), (Z.ltb_spec idx (Z.of_nat (List.length tq) - 1)); lia. }
  destruct (isdigit (Py.strip (Py.or_str q ""))) eqn:Edigit.
  - destruct (int_of_str (Py.strip (Py.or_str q ""))) as [n|msg] eqn:En;
      cbn [bind]; [|now split].
    assert (Hidx : 0 <= Z.max 0 (Z.min n (Z.of_nat (List.length tq) - 1))
                   < Z.of_nat (List.length tq)) by lia.
    destruct (Hshow _ Hidx) as (question & Hq & -> & Hprev & Hnext).
    split; [exact Hidx|]. split; [exact Hq|]. split; [exact Hprev|].
    split; [exact Hnext|]. split; [reflexivity | discriminate].
  - cbn [bind]. destruct (find_next_spec tq m Hne) as (Hidx & Hreq).
    destruct (Hshow _ Hidx) as (question & Hq & -> & Hprev & Hnext).
    split; [exact Hidx|]. split; [exact Hq|]. split; [exact Hprev|].
    split; [exact Hnext|]. split; [reflexivity|].
    intros _ Hex. destruct (Hreq Hex) as (x & Hx & Hr & Hu).
    rewrite Hq in Hx. injection Hx as <-. now split.
Qed.

End QuestionViewProperties.

(** ** Templates looked up by id *)

(** X29: when template ids are distinct, the id [create_template] returns
    for a name that is not blank is the id of a template [get_template]
    finds, under the stripped name.  If a template of that name was stored,
    the templates and the questions are unchanged, so the description and
    the creation time found are those of a stored template of that name and
    id, not the ones given, and only the AUTOINCREMENT sequence moves, to
    the id the ignored [INSERT] took; otherwise they are the stripped
    description and the time of the call, and the id is the one the sequence
    gives. *)
Theorem created_template_is_found (now : string) (name description : option string)
  (ts : Templates.template_store) :
  NoDup (map Templates.t_id (Templates.survey_templates ts)) ->
  Py.whitespace_only (Py.or_str name "") = false ->
  exists id ts' d c,
    Templates.create_template now name description ts = (ts', Ok id)
    /\ Templates.get_template id ts'
       = Some (id, Py.strip (Py.or_str name ""), d, c)
    /\ Templates.templates_seq ts'
       = next_rowid (Templates.templates_seq ts
                     :: map Templates.t_id (Templates.survey_templates ts))
    /\ Templates.template_questions ts' = Templates.template_questions ts
    /\ (In (Py.strip (Py.or_str name ""))
          (map Templates.t_name (Templates.survey_templates ts)) ->
        Templates.survey_templates ts' = Templates.survey_templates ts
        /\ exists t, In t (Templates.survey_templates ts)
                     /\ Templates.t_id t = id
                     /\ Templates.t_name t = Py.strip (Py.or_str name "")
                     /\ Templates.t_description t = d
                     /\ Templates.t_created_at t = c)
    /\ (~ In (Py.strip (Py.or_str name ""))
            (map Templates.t_name (Templates.survey_templates ts)) ->
        d = Some (Py.strip (Py.or_str description "")) /\ c = now
        /\ id = Templates.templates_seq ts').
Proof.
  intros Hids Hname.
  set (n := Py.strip (Py.or_str name "")).
  assert (Hn : n <> "").
  { intros E. apply strip_empty_iff in E. congruence. }
  assert (Hfound : forall ts1 t,
             NoDup (map Templates.t_id (Templates.survey_templates ts1)) ->
             In t (Templates.survey_templates ts1) ->
             Templates.get_template (Templates.t_id t) ts1
             = Some (Templates.t_id t, Templates.t_name t,
                     Templates.t_description t, Templates.t_created_at t)).
  { intros ts1 t Hnd Ht. unfold Templates.get_template.
    destruct (filter (fun x => Templates.t_id x =? Templates.t_id t)
                (Templates.survey_templates ts1)) as [|x rest] eqn:E.
    - assert (Hin : In t (filter (fun x => Templates.t_id x =? Templates.t_id t)
                            (Templates.survey_templates ts1)))
        by (apply filter_In; split; [exact Ht | apply Z.eqb_refl]).
      now rewrite E in Hin.
    - assert (Hx : In x (filter (fun x => Templates.t_id x =? Templates.t_id t)
                           (Templates.survey_templates ts1)))
        by (rewrite E; now left).
      apply filter_In in Hx as [Hx Ex]. apply Z.eqb_eq in Ex.
      assert (x = t)
        by now apply (same_key_same_row Templates.t_id (Templates.survey_templates ts1)).
      subst x. reflexivity. }
  destruct (existsb (fun t => String.eqb (Templates.t_name t) n)
              (Templates.survey_templates ts)) eqn:Ex.
  - destruct (filter_head_match _ _ Ex) as (row & rest & Efilter & Hrow & Prow).
    apply String.eqb_eq in Prow.
    rewrite (create_template_found n ts row rest now name description Hn Efilter
               eq_refl).
    eexists (Templates.t_id row), _, (Templates.t_description row),
      (Templates.t_created_at row).
    split; [reflexivity|].
    cbn [Templates.survey_templates Templates.template_questions
           Templates.templates_seq].
    split; [rewrite Hfound; [now rewrite Prow | exact Hids | exact Hrow]|].
    split; [reflexivity|]. split; [reflexivity|]. split.
    + intros _. split; [reflexivity|]. exists row. now repeat split.
    + intros Hno. exfalso. apply Hno. rewrite <- Prow. now apply in_map.
  - rewrite (create_template_stores n ts now name description Hn Ex eq_refl).
    set (id := next_rowid (Templates.templates_seq ts
                           :: map Templates.t_id (Templates.survey_templates ts))).
    set (new := {| Templates.t_id := id;
                   Templates.t_name := n;
                   Templates.t_description :=
                     Some (Py.strip (Py.or_str description ""));
                   Templates.t_created_at := now |}).
    eexists id, _, _, _. split; [reflexivity|].
    cbn [Templates.survey_templates Templates.template_questions
           Templates.templates_seq].
    split; [|split; [reflexivity|split; [reflexivity|split]]].
    + apply (Hfound _ new).
      * cbn [Templates.survey_templates]. rewrite map_app. cbn [map].
        apply NoDup_append_fresh; [exact Hids|]. cbn [Templates.t_id new].
        intros Hin. apply (next_rowid_fresh
                             (Templates.templates_seq ts
                              :: map Templates.t_id (Templates.survey_templates ts))).
        now right.
      * cbn [Templates.survey_templates]. apply in_or_app. right. now left.
    + intros Hin. exfalso. apply name_stored_iff in Hin. congruence.
    + intros _. now repeat split.
Qed.

Lemma created_template_is_found_witness :
  let stored := {| Templates.t_id := 1; Templates.t_name := "Facility Assessment";
                   Templates.t_description := Some "Routine visits";
                   Templates.t_created_at := "2024-05-01T10:00:00" |} in
  let ts := {| Templates.survey_templates := [stored];
               Templates.template_questions := [];
               Templates.templates_seq := 1 |} in
  let ts2 := {| Templates.survey_templates := [stored];
                Templates.template_questions := [];
                Templates.templates_seq := 2 |} in
  Templates.create_template "2024-06-01T08:00:00" (Some " Facility Assessment ")
    (Some "New text") ts = (ts2, Ok 1)
  /\ Templates.get_template 1 ts2
     = Some (1, "Facility Assessment", Some "Routine visits", "2024-05-01T10:00:00")
  /\ exists ts' d c,
       Templates.create_template "2024-06-01T08:00:00" (Some "Outreach")
         (Some " Monthly ") ts2 = (ts', Ok 3)
       /\ Templates.get_template 3 ts' = Some (3, "Outreach", d, c)
       /\ d = Some "Monthly" /\ c = "2024-06-01T08:00:00".
Proof.
  cbv zeta. split; [reflexivity|]. split; [reflexivity|].
  destruct (created_template_is_found "2024-06-01T08:00:00" (Some "Outreach")
              (Some " Monthly ")
              {| Templates.survey_templates :=
                   [{| Templates.t_id := 1;
                       Templates.t_name := "Facility Assessment";
                       Templates.t_description := Some "Routine visits";
                       Templates.t_created_at := "2024-05-01T10:00:00" |}];
                 Templates.template_questions := [];
                 Templates.templates_seq := 2 |})
    as (id & ts' & d & c & E & Hget & Eseq & _ & _ & Hnew).
  - repeat constructor. intros [].
  - reflexivity.
  - assert (Hno : ~ In "Outreach" ["Facility Assessment"])
      by (intros [H | []]; discriminate H).
    destruct (Hnew Hno) as (Ed & Ec & Eid).
    rewrite Eseq in Eid. cbn in Eid. subst id.
    exists ts', d, c. split; [exact E|]. split; [exact Hget|]. now split.
Defined.
